(** * The monitoring core of the URL uptime bot

    A shallow embedding of [src/url_monitor.py] (class [URLMonitor]) and of
    [Config.validate_config] from [src/config.py].

    Conventions of the embedding.
    - Time.  [datetime.now()] readings are integers counting microseconds
      (the resolution of [datetime]); a [timedelta] is their difference.
      [total_seconds()] is that number divided by 10^6, so [response_time],
      [elapsed_time] and [sleep_time] are kept in microseconds and
      [ping_interval] seconds are [ping_interval * 1000000] microseconds.
    - Exceptions.  Python's [Exception] instances are values of [exception];
      [BaseException] adds [asyncio.CancelledError], which since Python 3.8
      is not an [Exception].  [KeyboardInterrupt] and [SystemExit] end the
      event loop itself and are outside the model.
    - Effects.  A coroutine is a function from the monitor's state to the
      trace of effects it performed, the state it left and its outcome
      (a returned value, a raised exception, or [Fuel] when the model
      stopped following a loop that was still iterating).
    - Environment.  What the network, the clock and the other tasks of the
      event loop do is read from an [env], indexed by a counter [tick] that
      advances at every clock reading and every suspension point. *)

From Stdlib Require Import ZArith List String Bool Lia.
From Stdlib Require Import Ascii DecimalString DecimalPos DecimalZ.
Import ListNotations.
Open Scope string_scope.
Open Scope list_scope.
Open Scope Z_scope.

(** ** Python values used by the monitor *)

(** Classes of [Exception] the code can meet.  [TimeoutError] is
    [asyncio.TimeoutError]; [ClientError] stands for aiohttp's errors. *)
Inductive exc_class : Type :=
| TimeoutError | ClientError | OSError | KeyError | TypeError
| AttributeError | ValueError | RuntimeError.

(** An instance of [Exception]: its class and [str(e)]. *)
Record exception : Type := mk_exception { exc_type : exc_class; exc_str : string }.

Inductive BaseException : Type :=
| Exception (e : exception)
| CancelledError.

(** [isinstance(e, asyncio.TimeoutError)] *)
Definition isinstance_TimeoutError (e : BaseException) : bool :=
  match e with
  | Exception {| exc_type := TimeoutError |} => true
  | _ => false
  end.

(** A [dict] with string keys, in insertion order. *)
Definition dict (V : Type) : Type := list (string * V).

Fixpoint dict_get {V : Type} (d : dict V) (k : string) : option V :=
  match d with
  | [] => None
  | (k', v) :: d' => if String.eqb k k' then Some v else dict_get d' k
  end.

(** [d[k] = v]: replaces the value of an existing key in place, appends a
    new key. *)
Fixpoint dict_set {V : Type} (d : dict V) (k : string) (v : V) : dict V :=
  match d with
  | [] => [(k, v)]
  | (k', v') :: d' =>
      if String.eqb k k' then (k, v) :: d' else (k', v') :: dict_set d' k v
  end.

(** [del d[k]] on a key of [d] *)
Fixpoint dict_del {V : Type} (d : dict V) (k : string) : dict V :=
  match d with
  | [] => []
  | (k', v') :: d' => if String.eqb k k' then d' else (k', v') :: dict_del d' k
  end.

Definition dict_keys {V : Type} (d : dict V) : list string := map fst d.

(** [not d] *)
Definition dict_is_empty {V : Type} (d : dict V) : bool :=
  match d with [] => true | _ :: _ => false end.

(** The dictionary [ping_url] returns. *)
Record PingResult : Type := mk_PingResult {
  url : string;
  status_code : Z;
  response_time : Z;
  success : bool;
  timestamp : Z;
  error : option string
}.

(** ** Effects *)

Inductive level : Type := DEBUG | INFO | WARNING | ERROR.

(** The messages the module logs, one constructor per format string. *)
Inductive log_msg : Type :=
| Pinged (u : string) (status rt : Z)
| TimeoutPinging (u : string) (rt : Z)
| ErrorPinging (u : string) (e : exception)
| NoURLsToPing
| PingTaskFailed (e : exception)
| CompletedPingCycle (n : nat)
| NoURLsToPingForAdmin (admin : string)
| CompletedPingCycleForAdmin (n : nat) (admin : string)
| CannotSendAlert
| AlertSent (u admin : string)
| FailedToSendAlert (u admin : string) (e : exception)
| MonitoringAlreadyRunning
| StartingMonitoring (interval : Z)
| SleepingFor (sleep_time : Z)
| PingCycleTook (elapsed interval : Z)
| MonitoringLoopCancelled
| ErrorInMonitoringLoop (e : exception)
| MonitoringStopped
| MonitoringStopRequested.

Inductive effect : Type :=
| ELog (lvl : level) (m : log_msg)
| EGet (u : string)
| EUpdateStatus (u admin : string) (code rt : Z) (ok : bool)
| ESendMessage (chat_id : string) (r : PingResult)
| ESleep (d : Z).

(** The trace without its log lines: requests, store writes, alerts and
    sleeps. *)
Definition is_log (e : effect) : bool :=
  match e with ELog _ _ => true | _ => false end.

Definition non_log (tr : list effect) : list effect :=
  filter (fun e => negb (is_log e)) tr.

(** ** The environment *)

(** What one HTTP request meets: the clock when [ping_url] starts, the
    clock when the request resolves, and how it resolves. *)
Inductive http_outcome : Type :=
| Responded (status : Z)
| Raises (e : BaseException).

Record probe_env : Type := mk_probe_env {
  t_start : Z;
  t_end : Z;
  outcome : http_outcome
}.

(** The bot: what [send_message(chat_id, text)] does with the alert
    rendered from a ping result ([None]: it returns). *)
Definition Bot : Type := string -> PingResult -> option BaseException.

Definition Task : Type := nat.

(** What other tasks of the event loop do while this one is suspended. *)
Inductive ext_call : Type :=
| CallStopMonitoring
| CallTaskCancel (t : Task).

Record env : Type := mk_env {
  current_task : Task;
  schedule : nat -> list ext_call;
  now : nat -> Z;
  net : nat -> string -> probe_env
}.

(** ** The store

    [data_manager.py] is not among the sources: the monitor is verified
    against the interface it calls.  [update_url_status] may raise. *)
Record CheckRecord : Type := mk_CheckRecord {
  check_time : Z;
  check_success : bool;
  check_status_code : Z;
  check_response_time : Z
}.

(** What the store keeps for one URL of one admin. *)
Record url_data : Type := mk_url_data {
  ud_status : string;
  ud_last_check : option Z;
  ud_response_time : option Z;
  ud_status_code : option Z;
  ud_added_at : Z;
  ud_history : list CheckRecord
}.

Class DataManager (S : Type) : Type := {
  get_all_urls : S -> dict string;
  get_urls : S -> string -> dict url_data;
  update_url_status : S -> string -> string -> Z -> Z -> bool -> exception + S
}.

(** ** The monitor object and the coroutine monad *)

Record URLMonitor (S : Type) : Type := mk_URLMonitor {
  ping_interval : Z;
  request_timeout : Z;
  data_manager : S;
  is_running : bool;
  bot_instance : option Bot;
  admin_chat_id : option Z;
  _monitoring_task : option Task
}.
Arguments mk_URLMonitor {S}.
Arguments ping_interval {S}.
Arguments request_timeout {S}.
Arguments data_manager {S}.
Arguments is_running {S}.
Arguments bot_instance {S}.
Arguments admin_chat_id {S}.
Arguments _monitoring_task {S}.

(** [URLMonitor.__init__] *)
Definition URLMonitor_init {S : Type} (store : S) (interval timeout : Z) : URLMonitor S :=
  {| ping_interval := interval; request_timeout := timeout;
     data_manager := store; is_running := false; bot_instance := None;
     admin_chat_id := None; _monitoring_task := None |}.

(** The state a coroutine runs in: the monitor object, the tasks whose
    [cancel()] has been called and not yet delivered, and the counter that
    indexes the environment. *)
Record state (S : Type) : Type := mk_state {
  self : URLMonitor S;
  cancel_requested : list Task;
  tick : nat
}.
Arguments mk_state {S}.
Arguments self {S}.
Arguments cancel_requested {S}.
Arguments tick {S}.

Inductive result (A : Type) : Type :=
| Ret (a : A)
| Exc (e : BaseException)
| Fuel.
Arguments Ret {A}.
Arguments Exc {A}.
Arguments Fuel {A}.

Definition M (S A : Type) : Type := state S -> list effect * state S * result A.

Definition ret {S A : Type} (a : A) : M S A := fun st => ([], st, Ret a).

Definition bind {S A B : Type} (m : M S A) (f : A -> M S B) : M S B :=
  fun st =>
    let '(tr1, st1, r) := m st in
    match r with
    | Ret a => let '(tr2, st2, r2) := f a st1 in (tr1 ++ tr2, st2, r2)
    | Exc e => (tr1, st1, Exc e)
    | Fuel => (tr1, st1, Fuel)
    end.

Definition raise {S A : Type} (e : BaseException) : M S A := fun st => ([], st, Exc e).

Definition emit {S : Type} (e : effect) : M S unit := fun st => ([e], st, Ret tt).

Definition log {S : Type} (lvl : level) (m : log_msg) : M S unit := emit (ELog lvl m).

Definition gets {S A : Type} (f : URLMonitor S -> A) : M S A :=
  fun st => ([], st, Ret (f (self st))).

Definition modify_self {S : Type} (f : URLMonitor S -> URLMonitor S) : M S unit :=
  fun st => ([], mk_state (f (self st)) (cancel_requested st) (tick st), Ret tt).

(** [try: body except ...: handler]: [handler e] is [None] when no
    [except] clause matches [e]. *)
Definition try_except {S A : Type} (body : M S A)
    (handler : BaseException -> option (M S A)) : M S A :=
  fun st =>
    let '(tr1, st1, r) := body st in
    match r with
    | Exc e =>
        match handler e with
        | Some h => let '(tr2, st2, r2) := h st1 in (tr1 ++ tr2, st2, r2)
        | None => (tr1, st1, Exc e)
        end
    | _ => (tr1, st1, r)
    end.

(** [try: body finally: fin].  A body the model stopped following ([Fuel])
    has not left the [try] block. *)
Definition try_finally {S A : Type} (body : M S A) (fin : M S unit) : M S A :=
  fun st =>
    let '(tr1, st1, r) := body st in
    match r with
    | Fuel => (tr1, st1, Fuel)
    | _ =>
        let '(tr2, st2, r2) := fin st1 in
        (tr1 ++ tr2, st2,
         match r2 with Ret _ => r | Exc e => Exc e | Fuel => Fuel end)
    end.

Declare Scope monad_scope.
Delimit Scope monad_scope with monad.
Notation "x <- m ;; k" := (bind m (fun x => k))
  (at level 61, m at next level, right associativity) : monad_scope.
Notation "m ;; k" := (bind m (fun _ => k))
  (at level 61, right associativity) : monad_scope.
Open Scope monad_scope.

(** [self.is_running = b] *)
Definition set_is_running {S : Type} (b : bool) : M S unit :=
  modify_self (fun m =>
    {| ping_interval := ping_interval m; request_timeout := request_timeout m;
       data_manager := data_manager m; is_running := b;
       bot_instance := bot_instance m; admin_chat_id := admin_chat_id m;
       _monitoring_task := _monitoring_task m |}).

(** ** [URLMonitor.ping_url] *)

(** [async with session.get(url, allow_redirects=True) as response]: the
    request is issued and resolves as the environment says. *)
Definition session_get {S : Type} (w : probe_env) (u : string) : M S Z :=
  emit (EGet u) ;;
  match outcome w with
  | Responded status => ret status
  | Raises e => raise e
  end.

Definition ping_url {S : Type} (w : probe_env) (u : string) : M S PingResult :=
  let start_time := t_start w in
  try_except
    (status <- session_get w u ;;
     let end_time := t_end w in
     let response_time := end_time - start_time in
     let success := (200 <=? status) && (status <? 400) in
     let result := mk_PingResult u status response_time success start_time None in
     log DEBUG (Pinged u status response_time) ;;
     ret result)
    (fun e =>
       match e with
       | Exception ex =>
           if isinstance_TimeoutError e then
             Some (let end_time := t_end w in
                   let response_time := end_time - start_time in
                   let result := mk_PingResult u 408 response_time false start_time
                                   (Some "Request timeout") in
                   log WARNING (TimeoutPinging u response_time) ;;
                   ret result)
           else
             Some (let end_time := t_end w in
                   let response_time := end_time - start_time in
                   let result := mk_PingResult u 0 response_time false start_time
                                   (Some (exc_str ex)) in
                   log ERROR (ErrorPinging u ex) ;;
                   ret result)
       | CancelledError => None
       end).

(** ** Suspension points and cancellation *)

(** [task.cancel()]: the request is delivered when the task next resumes. *)
Definition task_cancel {S : Type} (t : Task) : M S unit :=
  fun st => ([], mk_state (self st) (t :: cancel_requested st) (tick st), Ret tt).

(** [URLMonitor.stop_monitoring] *)
Definition stop_monitoring {S : Type} : M S unit :=
  set_is_running false ;;
  task <- gets _monitoring_task ;;
  match task with
  | Some t => task_cancel t
  | None => ret tt
  end ;;
  log INFO MonitoringStopRequested.

Definition run_ext_call {S : Type} (c : ext_call) : M S unit :=
  match c with
  | CallStopMonitoring => stop_monitoring
  | CallTaskCancel t => task_cancel t
  end.

Fixpoint run_ext_calls {S : Type} (cs : list ext_call) : M S unit :=
  match cs with
  | [] => ret tt
  | c :: cs' => run_ext_call c ;; run_ext_calls cs'
  end.

(** Reads the counter and advances it. *)
Definition advance {S : Type} : M S nat :=
  fun st => ([], mk_state (self st) (cancel_requested st) (Nat.succ (tick st)), Ret (tick st)).

(** On resumption a pending [cancel()] of the running task is thrown into
    it as [CancelledError]. *)
Definition deliver_cancel {S : Type} (E : env) : M S unit :=
  fun st =>
    if existsb (Nat.eqb (current_task E)) (cancel_requested st) then
      ([], mk_state (self st)
             (filter (fun t => negb (Nat.eqb (current_task E) t)) (cancel_requested st))
             (tick st),
       Exc CancelledError)
    else ([], st, Ret tt).

(** An [await] that suspends the task: the other tasks scheduled for this
    moment run, then the task resumes. *)
Definition await_point {S : Type} (E : env) : M S unit :=
  n <- advance ;;
  run_ext_calls (schedule E n) ;;
  deliver_cancel E.

(** [datetime.now()] *)
Definition datetime_now {S : Type} (E : env) : M S Z :=
  n <- advance ;;
  ret (now E n).

(** [await asyncio.sleep(d)] *)
Definition asyncio_sleep {S : Type} (E : env) (d : Z) : M S unit :=
  emit (ESleep d) ;;
  await_point E.

(** A task's outcome kept as a value. *)
Definition capture {S A : Type} (m : M S A) : M S (BaseException + A) :=
  fun st =>
    let '(tr, st1, r) := m st in
    (tr, st1,
     match r with
     | Ret a => Ret (inr a)
     | Exc e => Ret (inl e)
     | Fuel => Fuel
     end).

(** The tasks of [asyncio.gather] with [return_exceptions=True] run to
    their end, in one of the orders the event loop allows; what a task
    raised becomes its entry of the result list. *)
Fixpoint gather {S A : Type} (tasks : list (M S A)) : M S (list (BaseException + A)) :=
  match tasks with
  | [] => ret []
  | t :: ts =>
      r <- capture t ;;
      rs <- gather ts ;;
      ret (r :: rs)
  end.

(** A request cut short by the cancellation of its task. *)
Definition interrupted (w : probe_env) : probe_env :=
  mk_probe_env (t_start w) (t_end w) (Raises CancelledError).

(** [await asyncio.gather] with [return_exceptions=True] over
    [ping_tasks = [self.ping_url(url) for url in urls]].  The awaiting task
    is suspended until all pings are done; if it is cancelled meanwhile the
    pings, whose requests are in flight, are cancelled with it and the
    [await] raises.  The pings and the calls of the other tasks run
    concurrently: the trace lists the calls of the other tasks first and
    what each ping did after them. *)
Definition gather_pings {S : Type} (E : env) (urls : list string)
    : M S (list (BaseException + PingResult)) :=
  n <- (fun st => ([], st, Ret (tick st))) ;;
  let w := net E n in
  resumed <- capture (await_point E) ;;
  match resumed with
  | inr _ => gather (map (fun u => ping_url (w u) u) urls)
  | inl e => gather (map (fun u => ping_url (interrupted (w u)) u) urls) ;; raise e
  end.

(** ** [URLMonitor._send_alert] *)

(** [await self.bot_instance.send_message(chat_id=..., text=alert_msg, ...)];
    the text is rendered from the ping result. *)
Definition send_message {S : Type} (E : env) (bot : Bot) (chat_id : string)
    (r : PingResult) : M S unit :=
  emit (ESendMessage chat_id r) ;;
  await_point E ;;
  match bot chat_id r with
  | None => ret tt
  | Some e => raise e
  end.

Definition _send_alert {S : Type} (E : env) (ping_result : PingResult)
    (admin : string) : M S unit :=
  bot <- gets bot_instance ;;
  match bot with
  | None => log WARNING CannotSendAlert
  | Some b =>
      try_except
        (send_message E b admin ping_result ;;
         log INFO (AlertSent (url ping_result) admin))
        (fun e =>
           match e with
           | Exception ex =>
               Some (log ERROR (FailedToSendAlert (url ping_result) admin ex))
           | CancelledError => None
           end)
  end.

(** ** [URLMonitor.ping_all_urls] and [URLMonitor.ping_admin_urls] *)

(** [d[k]], with [d] given by its lookup: [KeyError] on a missing key *)
Definition getitem {S V : Type} (d : string -> option V) (k : string) : M S V :=
  match d k with
  | Some v => ret v
  | None => raise (Exception (mk_exception KeyError k))
  end.

(** [self.data_manager.update_url_status(url=..., admin_chat_id=..., ...)] *)
Definition with_store {S : Type} (st : state S) (s' : S) : state S :=
  let m := self st in
  mk_state
    {| ping_interval := ping_interval m; request_timeout := request_timeout m;
       data_manager := s'; is_running := is_running m;
       bot_instance := bot_instance m; admin_chat_id := admin_chat_id m;
       _monitoring_task := _monitoring_task m |}
    (cancel_requested st) (tick st).

Definition dm_update_url_status {S : Type} `{DataManager S}
    (u admin : string) (code rt : Z) (ok : bool) : M S unit :=
  fun st =>
    match update_url_status (data_manager (self st)) u admin code rt ok with
    | inr s' => ([EUpdateStatus u admin code rt ok], with_store st s', Ret tt)
    | inl e => ([EUpdateStatus u admin code rt ok], st, Exc (Exception e))
    end.

(** The body of the loop [for result in results] of both methods;
    [owner u] is the admin the result of [u] is written and alerted to
    ([url_to_admin[url]] in [ping_all_urls], [admin_chat_id] in
    [ping_admin_urls]).  It returns [ping_results] as the pass leaves it. *)
Definition process_result {S : Type} `{DataManager S} (E : env)
    (owner : string -> option string) (ping_results : dict PingResult)
    (result : BaseException + PingResult) : M S (dict PingResult) :=
  match result with
  | inl (Exception e) =>
      log ERROR (PingTaskFailed e) ;;
      ret ping_results
  | inl CancelledError =>
      (* not an [Exception]: [result["url"]] is evaluated on it *)
      raise (Exception (mk_exception TypeError
               "'CancelledError' object is not subscriptable"))
  | inr result =>
      let u := url result in
      let ping_results := dict_set ping_results u result in
      admin_id <- getitem owner u ;;
      dm_update_url_status u admin_id (status_code result)
        (response_time result) (success result) ;;
      (if negb (success result) then _send_alert E result admin_id else ret tt) ;;
      ret ping_results
  end.

Fixpoint process_results {S : Type} `{DataManager S} (E : env)
    (owner : string -> option string)
    (results : list (BaseException + PingResult))
    (ping_results : dict PingResult) : M S (dict PingResult) :=
  match results with
  | [] => ret ping_results
  | result :: rest =>
      ping_results <- process_result E owner ping_results result ;;
      process_results E owner rest ping_results
  end.

Definition ping_all_urls {S : Type} `{DataManager S} (E : env) : M S (dict PingResult) :=
  url_to_admin <- gets (fun m => get_all_urls (data_manager m)) ;;
  if dict_is_empty url_to_admin then
    log DEBUG NoURLsToPing ;;
    ret []
  else
    results <- gather_pings E (dict_keys url_to_admin) ;;
    ping_results <- process_results E (dict_get url_to_admin) results [] ;;
    log INFO (CompletedPingCycle (List.length ping_results)) ;;
    ret ping_results.

Definition ping_admin_urls {S : Type} `{DataManager S} (E : env) (admin : string)
    : M S (dict PingResult) :=
  admin_urls <- gets (fun m => get_urls (data_manager m) admin) ;;
  if dict_is_empty admin_urls then
    log DEBUG (NoURLsToPingForAdmin admin) ;;
    ret []
  else
    results <- gather_pings E (dict_keys admin_urls) ;;
    ping_results <- process_results E (fun _ => Some admin) results [] ;;
    log INFO (CompletedPingCycleForAdmin (List.length ping_results) admin) ;;
    ret ping_results.

(** ** [URLMonitor.start_monitoring] *)

(** One pass of the body of [while self.is_running]. *)
Definition loop_body {S : Type} `{DataManager S} (E : env) : M S unit :=
  start_time <- datetime_now E ;;
  _ <- ping_all_urls E ;;
  end_time <- datetime_now E ;;
  interval <- gets ping_interval ;;
  let elapsed_time := end_time - start_time in
  let sleep_time := Z.max 0 (interval * 1000000 - elapsed_time) in
  if 0 <? sleep_time then
    log DEBUG (SleepingFor sleep_time) ;;
    asyncio_sleep E sleep_time
  else
    log WARNING (PingCycleTook elapsed_time interval).

(** [while self.is_running: ...], followed for at most [fuel] passes. *)
Fixpoint while_is_running {S : Type} `{DataManager S} (E : env) (fuel : nat) : M S unit :=
  running <- gets is_running ;;
  if running then
    match fuel with
    | O => fun st => ([], st, Fuel)
    | Datatypes.S n => loop_body E ;; while_is_running E n
    end
  else ret tt.

Definition start_monitoring {S : Type} `{DataManager S} (E : env) (fuel : nat) : M S unit :=
  running <- gets is_running ;;
  if running then
    log WARNING MonitoringAlreadyRunning
  else
    set_is_running true ;;
    interval <- gets ping_interval ;;
    log INFO (StartingMonitoring interval) ;;
    try_finally
      (try_except
         (while_is_running E fuel)
         (fun e =>
            match e with
            | CancelledError =>
                Some (log INFO MonitoringLoopCancelled ;; raise e)
            | Exception ex =>
                Some (log ERROR (ErrorInMonitoringLoop ex) ;; raise e)
            end))
      (set_is_running false ;;
       log INFO MonitoringStopped).

(** ** Setters and the registration of URLs *)

(** [URLMonitor.set_bot_instance] *)
Definition set_bot_instance {S : Type} (bot : Bot) : M S unit :=
  modify_self (fun m =>
    {| ping_interval := ping_interval m; request_timeout := request_timeout m;
       data_manager := data_manager m; is_running := is_running m;
       bot_instance := Some bot; admin_chat_id := admin_chat_id m;
       _monitoring_task := _monitoring_task m |}).

(** [URLMonitor.set_admin_chat_id] *)
Definition set_admin_chat_id {S : Type} (chat_id : Z) : M S unit :=
  modify_self (fun m =>
    {| ping_interval := ping_interval m; request_timeout := request_timeout m;
       data_manager := data_manager m; is_running := is_running m;
       bot_instance := bot_instance m; admin_chat_id := Some chat_id;
       _monitoring_task := _monitoring_task m |}).

(** The methods of the data manager that register and remove a URL for an
    admin: what they return and the store they leave, or what they raise. *)
Class UrlRegistry (S : Type) : Type := {
  dm_add_url : S -> string -> string -> exception + (bool * S);
  dm_remove_url : S -> string -> string -> exception + (bool * S)
}.

(** [s.startswith(prefixes)] with a tuple of prefixes *)
Definition startswith (s : string) (prefixes : list string) : bool :=
  existsb (fun p => String.prefix p s) prefixes.

(** [URLMonitor.add_url] *)
Definition add_url {S : Type} `{UrlRegistry S} (url admin_chat_id : string) : M S bool :=
  let url :=
    if negb (startswith url ["http://"; "https://"])
    then ("https://" ++ url)%string
    else url in
  fun st =>
    match dm_add_url (data_manager (self st)) url admin_chat_id with
    | inr (added, s') => ([], with_store st s', Ret added)
    | inl e => ([], st, Exc (Exception e))
    end.

(** [URLMonitor.remove_url] *)
Definition remove_url {S : Type} `{UrlRegistry S} (url admin_chat_id : string) : M S bool :=
  fun st =>
    match dm_remove_url (data_manager (self st)) url admin_chat_id with
    | inr (removed, s') => ([], with_store st s', Ret removed)
    | inl e => ([], st, Exc (Exception e))
    end.

(** ** [Config.validate_config] *)

Module Config.

(** A [Config] object.  The first eight fields are the attributes
    [__init__] assigns.  [admin_chat_id] is the attribute [validate_config]
    reads: [None] when the object has no attribute of that name. *)
Record Config : Type := mk_Config {
  bot_token : string;
  primary_admin_chat_id : Z;
  admin_chat_ids : list Z;
  admin_data_file : string;
  ping_interval : Z;
  request_timeout : Z;
  data_file : string;
  log_file : string;
  admin_chat_id : option Z
}.

(** [x in l] on a list of integers *)
Definition mem (x : Z) (l : list Z) : bool := existsb (Z.eqb x) l.

(** [Config.__init__].  [loaded] is what [_load_admin_data] finds under
    ['admin_chat_ids'] in the admin file ([None]: no readable file, the
    default list is kept and saved). *)
Definition init (loaded : option (list Z)) : Config :=
  let primary := 1691680798 in
  let ids :=
    match loaded with
    | Some l => if mem primary l then l else l ++ [primary]
    | None => [primary]
    end in
  {| bot_token := "8405898835:AAE6g8TGXPjHeLt0NObIqFQv4mLreqxM";
     primary_admin_chat_id := primary;
     admin_chat_ids := ids;
     admin_data_file := "admin_data.json";
     ping_interval := 60;
     request_timeout := 30;
     data_file := "urls_data.json";
     log_file := "bot.log";
     admin_chat_id := None |}.

(** Assignments from outside the class, as [config.ping_interval = v]. *)
Definition set_ping_interval (c : Config) (v : Z) : Config :=
  mk_Config (bot_token c) (primary_admin_chat_id c) (admin_chat_ids c)
    (admin_data_file c) v (request_timeout c) (data_file c) (log_file c)
    (admin_chat_id c).

Definition set_request_timeout (c : Config) (v : Z) : Config :=
  mk_Config (bot_token c) (primary_admin_chat_id c) (admin_chat_ids c)
    (admin_data_file c) (ping_interval c) v (data_file c) (log_file c)
    (admin_chat_id c).

(** [errors.append(msg)] when [cond] holds *)
Definition append_if (cond : bool) (msg : string) (errors : list string) : list string :=
  if cond then errors ++ [msg] else errors.

(** [validate_config]: the exception it raises or the value it returns
    (the success line it logs is left out). *)
Definition validate_config (self : Config) : exception + bool :=
  let errors := [] in
  let errors := append_if (String.eqb (bot_token self) "") "Bot token is missing" errors in
  match admin_chat_id self with
  | None =>
      inl (mk_exception AttributeError
             "'Config' object has no attribute 'admin_chat_id'")
  | Some chat_id =>
      let errors := append_if (chat_id =? 0) "Admin chat ID is missing" errors in
      let errors := append_if (ping_interval self <=? 0)
                      "Ping interval must be positive" errors in
      let errors := append_if (request_timeout self <=? 0)
                      "Request timeout must be positive" errors in
      match errors with
      | [] => inr true
      | _ :: _ =>
          inl (mk_exception ValueError
                 ("Configuration errors: " ++ String.concat ", " errors)%string)
      end
  end.

(** *** The admin list and its file

    The methods that read and change [admin_chat_ids] and keep it in the
    file [admin_data_file].  They are synchronous: a method is a function
    of the object and of what the file holds, and yields the lines it
    logs, the object and the file as it leaves them, and what it returns
    or raises. *)

(** [self.admin_chat_ids = l] *)
Definition set_admin_chat_ids (c : Config) (l : list Z) : Config :=
  mk_Config (bot_token c) (primary_admin_chat_id c) l (admin_data_file c)
    (ping_interval c) (request_timeout c) (data_file c) (log_file c)
    (admin_chat_id c).

(** What [open(self.admin_data_file, 'r')] and [json.load] meet.
    - [NoFile]: [open] raises [FileNotFoundError].
    - [NotJSON]: [json.load] raises [JSONDecodeError].
    - [Unreadable e]: [open] or the decoding raises another exception [e]
      (a [PermissionError], a [UnicodeDecodeError]).
    - [NotAnObject t]: the file holds JSON that is not an object; [t] is
      the name of the Python type [json.load] returns (list, str, int,
      float, bool, NoneType).
    - [AdminData ids primary]: the file holds a JSON object, given by what
      it has under the keys ['admin_chat_ids'] and ['primary_admin']
      ([None]: the key is absent).  The value under ['admin_chat_ids'] is
      a list of integers, as [_save_admin_data] writes it; objects with
      anything else there are not in the model. *)
Inductive admin_file : Type :=
| NoFile
| NotJSON
| Unreadable (e : exception)
| NotAnObject (type_name : string)
| AdminData (ids : option (list Z)) (primary : option Z).

(** What the file system does with one [open(self.admin_data_file, 'w')]
    and [json.dump]: the document is written, or an exception is raised
    and the file is left holding [remains]. *)
Inductive write_outcome : Type :=
| Written
| WriteFails (e : exception) (remains : admin_file).

(** The lines the class logs besides the one of [validate_config]. *)
Inductive config_log : Type :=
| CreatedDefaultAdminFile
| SavedAdminData (n : nat)
| ErrorSavingAdminData (e : exception)
| AddedNewAdmin (chat_id : Z)
| RemovedAdmin (chat_id : Z).

(** [_save_admin_data]: every [Exception] is caught and logged. *)
Definition _save_admin_data (w : write_outcome) (self : Config) (f : admin_file)
    : list (level * config_log) * admin_file :=
  match w with
  | Written =>
      ([(INFO, SavedAdminData (List.length (admin_chat_ids self)))],
       AdminData (Some (admin_chat_ids self)) (Some (primary_admin_chat_id self)))
  | WriteFails e remains => ([(ERROR, ErrorSavingAdminData e)], remains)
  end.

(** [_load_admin_data]; the last component is the exception it raises, if
    any.  Only [FileNotFoundError] and [JSONDecodeError] are caught. *)
Definition _load_admin_data (w : write_outcome) (self : Config) (f : admin_file)
    : list (level * config_log) * Config * admin_file * option exception :=
  match f with
  | AdminData ids _ =>
      let self :=
        set_admin_chat_ids self
          (match ids with
           | Some l => l
           | None => [primary_admin_chat_id self]
           end) in
      let self :=
        if negb (mem (primary_admin_chat_id self) (admin_chat_ids self))
        then set_admin_chat_ids self (admin_chat_ids self ++ [primary_admin_chat_id self])
        else self in
      ([], self, f, None)
  | NoFile | NotJSON =>
      let '(logs, f') := _save_admin_data w self f in
      (logs ++ [(INFO, CreatedDefaultAdminFile)], self, f', None)
  | Unreadable e => ([], self, f, Some e)
  | NotAnObject t =>
      ([], self, f,
       Some (mk_exception AttributeError
               ("'" ++ t ++ "' object has no attribute 'get'")%string))
  end.

(** [Config.__init__] on the file as it is found. *)
Definition __init__ (w : write_outcome) (f : admin_file)
    : list (level * config_log) * admin_file * (exception + Config) :=
  let self :=
    {| bot_token := "8405898835:AAE6g8TGXPjHeLt0NObIqFQv4mLreqxM";
       primary_admin_chat_id := 1691680798;
       admin_chat_ids := [1691680798];
       admin_data_file := "admin_data.json";
       ping_interval := 60;
       request_timeout := 30;
       data_file := "urls_data.json";
       log_file := "bot.log";
       admin_chat_id := None |} in
  let '(logs, self, f', raised) := _load_admin_data w self f in
  (logs, f', match raised with Some e => inl e | None => inr self end).

Definition is_admin (self : Config) (chat_id : Z) : bool :=
  mem chat_id (admin_chat_ids self).

Definition is_primary_admin (self : Config) (chat_id : Z) : bool :=
  chat_id =? primary_admin_chat_id self.

Definition add_admin (w : write_outcome) (self : Config) (f : admin_file) (chat_id : Z)
    : list (level * config_log) * Config * admin_file * bool :=
  if negb (mem chat_id (admin_chat_ids self)) then
    let self := set_admin_chat_ids self (admin_chat_ids self ++ [chat_id]) in
    let '(logs, f') := _save_admin_data w self f in
    (logs ++ [(INFO, AddedNewAdmin chat_id)], self, f', true)
  else ([], self, f, false).

(** [l.remove(x)]: the first item equal to [x] is removed; [None] stands
    for the [ValueError] raised when there is none. *)
Fixpoint list_remove (x : Z) (l : list Z) : option (list Z) :=
  match l with
  | [] => None
  | y :: l' => if y =? x then Some l' else option_map (cons y) (list_remove x l')
  end.

Definition remove_admin (w : write_outcome) (self : Config) (f : admin_file) (chat_id : Z)
    : list (level * config_log) * Config * admin_file * (exception + bool) :=
  if chat_id =? primary_admin_chat_id self then ([], self, f, inr false)
  else if mem chat_id (admin_chat_ids self) then
    match list_remove chat_id (admin_chat_ids self) with
    | Some l =>
        let self := set_admin_chat_ids self l in
        let '(logs, f') := _save_admin_data w self f in
        (logs ++ [(INFO, RemovedAdmin chat_id)], self, f', inr true)
    | None =>
        ([], self, f, inl (mk_exception ValueError "list.remove(x): x not in list"))
    end
  else ([], self, f, inr false).

(** [get_admin_list]: a copy of the list. *)
Definition get_admin_list (self : Config) : list Z := admin_chat_ids self.

End Config.

(** ** A store for concrete runs *)

Module SpecStore.

(** Modelled from the spec: the [DataManager] of [data_manager.py], which
    is not among the sources.  Section 3 and 4.3 of the spec: state is kept
    per (owner, URL); a URL is "pending" until its first check;
    [updateStatus] updates the current-state fields and appends a
    [CheckRecord]; [getAllURLs] is a map from URL to owner.  The store
    stamps its records with a clock of its own. *)
Record store : Type := mk_store {
  entries : dict (dict url_data);
  store_clock : Z
}.

Definition empty : store := mk_store [] 0.

Definition urls_of (s : store) (admin : string) : dict url_data :=
  match dict_get (entries s) admin with
  | Some d => d
  | None => []
  end.

(** [addURL(ownerID, url) -> bool]: false if already present for that owner *)
Definition add_url (s : store) (u admin : string) : bool * store :=
  match dict_get (urls_of s admin) u with
  | Some _ => (false, s)
  | None =>
      (true,
       mk_store
         (dict_set (entries s) admin
            (dict_set (urls_of s admin) u
               (mk_url_data "pending" None None None (store_clock s) [])))
         (store_clock s + 1))
  end.

(** [getAllURLs() -> Map<url, ownerID>] *)
Definition all_urls (s : store) : dict string :=
  fold_left
    (fun acc (p : string * dict url_data) =>
       fold_left (fun acc' (q : string * url_data) => dict_set acc' (fst q) (fst p))
         (snd p) acc)
    (entries s) [].

(** [updateStatus(url, ownerID, httpStatusCode, responseTimeSeconds, success)] *)
Definition update (s : store) (u admin : string) (code rt : Z) (ok : bool)
    : exception + store :=
  match dict_get (urls_of s admin) u with
  | None => inr s
  | Some d =>
      let d' :=
        mk_url_data (if ok then "online" else "offline")
          (Some (store_clock s)) (Some rt) (Some code) (ud_added_at d)
          (ud_history d ++ [mk_CheckRecord (store_clock s) ok code rt]) in
      inr (mk_store (dict_set (entries s) admin (dict_set (urls_of s admin) u d'))
             (store_clock s + 1))
  end.

#[global] Instance store_DataManager : DataManager store := {
  get_all_urls := all_urls;
  get_urls := urls_of;
  update_url_status := update
}.

(** [removeURL(ownerID, url) -> bool]: false if not present *)
Definition remove_url (s : store) (u admin : string) : bool * store :=
  match dict_get (urls_of s admin) u with
  | None => (false, s)
  | Some _ =>
      (true,
       mk_store (dict_set (entries s) admin (dict_del (urls_of s admin) u))
         (store_clock s))
  end.

#[global] Instance store_UrlRegistry : UrlRegistry store := {
  dm_add_url := fun s u admin => inr (add_url s u admin);
  dm_remove_url := fun s u admin => inr (remove_url s u admin)
}.

End SpecStore.

(** ** [advanced_ui.py]: the URL dashboard and its keyboards

    A message is given by the template it is rendered from and the values
    put into it; a button by its label and its callback data. *)

(** [str(n)] and the [{n}] of an f-string, for an int *)
Definition str (n : Z) : string := NilZero.string_of_int (Z.to_int n).

Module AdvancedUI.

Record InlineKeyboardButton : Type := mk_Button {
  text : string;
  callback_data : string
}.

Definition InlineKeyboardMarkup : Type := list (list InlineKeyboardButton).

(** [l[start:stop]] for ints: a negative index counts from the end, and
    both are brought into the bounds of the list. *)
Definition slice_index (n i : Z) : Z :=
  if i <? 0 then Z.max (i + n) 0 else Z.min i n.

Definition slice {A : Type} (l : list A) (start stop : Z) : list A :=
  let n := Z.of_nat (List.length l) in
  let a := slice_index n start in
  let b := slice_index n stop in
  firstn (Z.to_nat (b - a)) (skipn (Z.to_nat a) l).

(** [enumerate(l, start)] *)
Fixpoint enumerate {A : Type} (l : list A) (start : Z) : list (Z * A) :=
  match l with
  | [] => []
  | x :: l' => (start, x) :: enumerate l' (start + 1)
  end.

(** What [format_enhanced_url_list] renders: the text for no URL, or the
    dashboard with its total, its cards (the number shown, the URL and its
    data) and the two numbers of its footer. *)
Inductive url_list_message : Type :=
| NoURLsBeingMonitored
| URLDashboard (total_urls : Z) (cards : list (Z * (string * url_data)))
    (page_shown : Z) (pages_shown : Z).

(** The footer divides by [per_page]. *)
Inductive arithmetic_error : Type := ZeroDivisionError.

(** [AdvancedUI.create_main_menu_keyboard] *)
Definition create_main_menu_keyboard : InlineKeyboardMarkup :=
  [ [mk_Button "➕ Add URL" "add_url_wizard"; mk_Button "🗑️ Remove URL" "remove_url_menu"];
    [mk_Button "🌐 View URLs" "main_urls"; mk_Button "📊 Stats" "main_stats"];
    [mk_Button "⚡ Quick Ping" "quick_ping"; mk_Button "⚙️ Settings" "main_settings"];
    [mk_Button "🔔 Alerts" "view_alerts"; mk_Button "📈 Analytics" "analytics"];
    [mk_Button "👥 Admin Panel" "admin_panel"; mk_Button "ℹ️ Help" "help_menu"];
    [mk_Button "🔄 Refresh" "refresh_main"] ].

(** [AdvancedUI.create_settings_keyboard] *)
Definition create_settings_keyboard : InlineKeyboardMarkup :=
  [ [mk_Button "⏰ Ping Interval" "set_interval";
     mk_Button "🔔 Notifications" "notification_settings"];
    [mk_Button "📊 Report Format" "report_format"; mk_Button "🎨 UI Theme" "ui_theme"];
    [mk_Button "🔒 Security" "security_settings";
     mk_Button "💾 Data Management" "data_settings"];
    [mk_Button "🏠 Main Menu" "main_menu"] ].

(** [AdvancedUI.format_enhanced_url_list]: the message and the keyboard, or
    the error raised when the footer is computed. *)
Definition format_enhanced_url_list (urls : dict url_data) (page per_page : Z)
    : arithmetic_error + (url_list_message * InlineKeyboardMarkup) :=
  if dict_is_empty urls then
    inr (NoURLsBeingMonitored, [[mk_Button "➕ Add URL" "add_url_wizard"]])
  else
    let total_urls := Z.of_nat (List.length urls) in
    let start_idx := page * per_page in
    let end_idx := Z.min (start_idx + per_page) total_urls in
    let url_items := urls in
    let current_urls := slice url_items start_idx end_idx in
    let cards :=
      map (fun c => (start_idx + fst c, snd c)) (enumerate current_urls 1) in
    let nav_buttons :=
      (if 0 <? page
       then [mk_Button "◀️ Previous" ("urls_page:" ++ str (page - 1))%string]
       else [])
      ++ (if end_idx <? total_urls
          then [mk_Button "Next ▶️" ("urls_page:" ++ str (page + 1))%string]
          else []) in
    let keyboard :=
      (match nav_buttons with [] => [] | _ :: _ => [nav_buttons] end)
      ++ [ [mk_Button "➕ Add URL" "add_url_wizard"; mk_Button "🔄 Refresh" "refresh_urls"];
           [mk_Button "📊 View Stats" "main_stats"; mk_Button "🏠 Main Menu" "main_menu"] ] in
    if per_page =? 0 then inl ZeroDivisionError
    else
      inr (URLDashboard total_urls cards (page + 1) ((total_urls - 1) / per_page + 1),
           keyboard).

(** The functions of [utils.py], which is not among the sources. *)
Record Utils : Type := mk_Utils {
  get_status_emoji : string -> string;
  truncate_url : string -> Z -> string;
  validate_url : string -> bool
}.

(** [AdvancedUI.create_remove_url_keyboard]; [hash] is Python's [hash] on
    strings, which differs from one process to the next. *)
Definition create_remove_url_keyboard (U : Utils) (hash : string -> Z)
    (urls : dict url_data) : InlineKeyboardMarkup :=
  (if dict_is_empty urls then
     [[mk_Button "📭 No URLs to Remove" "no_action"]]
   else
     map (fun item =>
            let url := fst item in
            let status := ud_status (snd item) in
            let emoji := get_status_emoji U status in
            let short_url := truncate_url U url 30 in
            [mk_Button ("🗑️ " ++ emoji ++ " " ++ short_url)%string
               ("remove_url:" ++ str (hash url mod 10000))%string])
       (firstn 8 urls)
     ++ (if 8 <? Z.of_nat (List.length urls)
         then [[mk_Button "📋 View All URLs" "main_urls"]]
         else []))
  ++ [ [mk_Button "➕ Add URL" "add_url_wizard"; mk_Button "🌐 View URLs" "main_urls"];
       [mk_Button "🏠 Main Menu" "main_menu"] ].

End AdvancedUI.

(** ** [bot_handlers.py]: admin commands, URL commands and callbacks

    A handler is followed from its call to its return, on its own: the
    updates are handled one at a time.  Every awaited call of the Bot API
    is recorded, and returns or raises as the environment says. *)

Module BotHandlers.

(** What a handler is given: the chat of the update ([None]: the update
    has none), whether it carries a message, its callback query and the
    arguments of the command. *)
Record CallbackQuery : Type := mk_CallbackQuery {
  data : string;
  message_chat_id : option Z
}.

Record Update : Type := mk_Update {
  effective_chat : option Z;
  message : bool;
  callback_query : option CallbackQuery;
  args : list string
}.

(** The environment of a handler: what the n-th awaited call of the Bot
    API does ([None]: it returns), what the file system does with a write
    of the admin file made after n such calls, Python's [hash] on strings
    in this process, [int] on a string ([None]: [ValueError]), and
    [utils.py]. *)
Record Telegram : Type := mk_Telegram {
  api : nat -> option BaseException;
  disk : nat -> Config.write_outcome;
  py_hash : string -> Z;
  py_int : string -> option Z;
  utils : AdvancedUI.Utils
}.

(** The texts the handlers send, by template. *)
Inductive text : Type :=
| AdminOnly
| OnlyPrimaryCanAdd | UsageAddAdmin | InvalidChatIdToAdd
| AdminAdded (chat_id : Z) (total : nat) | AdminAlreadyExists (chat_id : Z)
| OnlyPrimaryCanRemove | UsageRemoveAdmin | InvalidChatIdToRemove
| AdminRemoved (chat_id : Z) (remaining : nat)
| CannotRemovePrimaryAdmin | AdminNotFound (chat_id : Z)
| OnlyPrimaryCanList | AdminList (admin_list : list Z) (primary : Z)
| UsageSetUrl | InvalidUrlFormat | ProcessingUrl
| UrlAdded (url : string) | FailedToAddUrl (url : string)
| CallbackAccessDenied
| UrlNotFound | ConfirmUrlRemoval (url : string) | RemovingUrl (url : string)
| UrlRemoved (url : string) | FailedToRemoveUrl (url : string)
| UrlList (m : AdvancedUI.url_list_message).

(** What a handler does that can be seen from outside. *)
Inductive sent : Type :=
| Answered
| Replied (t : text) (reply_markup : option AdvancedUI.InlineKeyboardMarkup)
| Edited (t : text) (reply_markup : option AdvancedUI.InlineKeyboardMarkup)
| ConfigLogged (lvl : level) (m : Config.config_log)
| MonitorDid (e : effect).

(** The [BotHandlers] object with what it refers to: the monitor, the
    configuration and its admin file; [calls] counts the calls of the Bot
    API made so far. *)
Record BotHandlers (S : Type) : Type := mk_BotHandlers {
  url_monitor : URLMonitor S;
  config : Config.Config;
  admin_file : Config.admin_file;
  url_hash_map : list (Z * string);
  calls : nat
}.
Arguments mk_BotHandlers {S}.
Arguments url_monitor {S}.
Arguments config {S}.
Arguments admin_file {S}.
Arguments url_hash_map {S}.
Arguments calls {S}.

(** [BotHandlers.__init__] *)
Definition __init__ {S : Type} (url_monitor : URLMonitor S) (config : Config.Config)
    (f : Config.admin_file) : BotHandlers S :=
  mk_BotHandlers url_monitor config f [] 0%nat.

Definition H (S A : Type) : Type := BotHandlers S -> list sent * BotHandlers S * result A.

Definition hret {S A : Type} (a : A) : H S A := fun h => ([], h, Ret a).

Definition hbind {S A B : Type} (m : H S A) (f : A -> H S B) : H S B :=
  fun h =>
    let '(tr1, h1, r) := m h in
    match r with
    | Ret a => let '(tr2, h2, r2) := f a h1 in (tr1 ++ tr2, h2, r2)
    | Exc e => (tr1, h1, Exc e)
    | Fuel => (tr1, h1, Fuel)
    end.

Definition hraise {S A : Type} (e : exception) : H S A := fun h => ([], h, Exc (Exception e)).

Definition hgets {S A : Type} (f : BotHandlers S -> A) : H S A := fun h => ([], h, Ret (f h)).

Declare Scope handler_scope.
Notation "x <- m ;; k" := (hbind m (fun x => k))
  (at level 61, m at next level, right associativity) : handler_scope.
Notation "m ;; k" := (hbind m (fun _ => k))
  (at level 61, right associativity) : handler_scope.
Local Open Scope handler_scope.

(** An awaited call of the Bot API. *)
Definition api_call {S : Type} (T : Telegram) (e : sent) : H S unit :=
  fun h =>
    ([e],
     mk_BotHandlers (url_monitor h) (config h) (admin_file h) (url_hash_map h)
       (Datatypes.S (calls h)),
     match api T (calls h) with
     | None => Ret tt
     | Some ex => Exc ex
     end).

(** [update.effective_chat.id] *)
Definition effective_chat_id {S : Type} (update : Update) : H S Z :=
  match effective_chat update with
  | Some id => hret id
  | None => hraise (mk_exception AttributeError "'NoneType' object has no attribute 'id'")
  end.

(** [await update.message.reply_text(...)] *)
Definition reply_text {S : Type} (T : Telegram) (update : Update) (t : text)
    (reply_markup : option AdvancedUI.InlineKeyboardMarkup) : H S unit :=
  if message update then api_call T (Replied t reply_markup)
  else hraise (mk_exception AttributeError
                 "'NoneType' object has no attribute 'reply_text'").

(** [await query.edit_message_text(...)] and [await msg.edit_text(...)] *)
Definition edit_message_text {S : Type} (T : Telegram) (t : text)
    (reply_markup : option AdvancedUI.InlineKeyboardMarkup) : H S unit :=
  api_call T (Edited t reply_markup).

(** [str(query.message.chat.id)] *)
Definition query_chat {S : Type} (query : CallbackQuery) : H S string :=
  match message_chat_id query with
  | Some id => hret (str id)
  | None => hraise (mk_exception AttributeError "'NoneType' object has no attribute 'chat'")
  end.

(** [BotHandlers._is_admin] *)
Definition _is_admin {S : Type} (update : Update) : H S bool :=
  match effective_chat update with
  | None => hret false
  | Some id => hgets (fun h => Config.is_admin (config h) id)
  end.

(** [BotHandlers._send_admin_only_message] *)
Definition _send_admin_only_message {S : Type} (T : Telegram) (update : Update) : H S unit :=
  reply_text T update AdminOnly None.

(** [self.config.add_admin(chat_id)] and [self.config.remove_admin(chat_id)]
    on the configuration the handlers refer to *)
Definition config_add_admin {S : Type} (T : Telegram) (chat_id : Z) : H S bool :=
  fun h =>
    let '(logs, c, f, added) :=
      Config.add_admin (disk T (calls h)) (config h) (admin_file h) chat_id in
    (map (fun l => ConfigLogged (fst l) (snd l)) logs,
     mk_BotHandlers (url_monitor h) c f (url_hash_map h) (calls h),
     Ret added).

Definition config_remove_admin {S : Type} (T : Telegram) (chat_id : Z) : H S bool :=
  fun h =>
    let '(logs, c, f, r) :=
      Config.remove_admin (disk T (calls h)) (config h) (admin_file h) chat_id in
    (map (fun l => ConfigLogged (fst l) (snd l)) logs,
     mk_BotHandlers (url_monitor h) c f (url_hash_map h) (calls h),
     match r with
     | inr removed => Ret removed
     | inl e => Exc (Exception e)
     end).

(** [BotHandlers.add_admin_command] *)
Definition add_admin_command {S : Type} (T : Telegram) (update : Update) : H S unit :=
  chat_id <- effective_chat_id update ;;
  is_primary <- hgets (fun h => Config.is_primary_admin (config h) chat_id) ;;
  if negb is_primary then reply_text T update OnlyPrimaryCanAdd None
  else
    match args update with
    | [] => reply_text T update UsageAddAdmin None
    | arg :: _ =>
        match py_int T arg with
        | None => reply_text T update InvalidChatIdToAdd None
        | Some new_admin_id =>
            added <- config_add_admin T new_admin_id ;;
            if added then
              total <- hgets (fun h => List.length (Config.get_admin_list (config h))) ;;
              reply_text T update (AdminAdded new_admin_id total) None
            else reply_text T update (AdminAlreadyExists new_admin_id) None
        end
    end.

(** [BotHandlers.remove_admin_command] *)
Definition remove_admin_command {S : Type} (T : Telegram) (update : Update) : H S unit :=
  chat_id <- effective_chat_id update ;;
  is_primary <- hgets (fun h => Config.is_primary_admin (config h) chat_id) ;;
  if negb is_primary then reply_text T update OnlyPrimaryCanRemove None
  else
    match args update with
    | [] => reply_text T update UsageRemoveAdmin None
    | arg :: _ =>
        match py_int T arg with
        | None => reply_text T update InvalidChatIdToRemove None
        | Some admin_id =>
            removed <- config_remove_admin T admin_id ;;
            if removed then
              remaining <- hgets (fun h => List.length (Config.get_admin_list (config h))) ;;
              reply_text T update (AdminRemoved admin_id remaining) None
            else
              primary <- hgets (fun h => Config.primary_admin_chat_id (config h)) ;;
              if admin_id =? primary
              then reply_text T update CannotRemovePrimaryAdmin None
              else reply_text T update (AdminNotFound admin_id) None
        end
    end.

(** [BotHandlers.list_admins_command] *)
Definition list_admins_command {S : Type} (T : Telegram) (update : Update) : H S unit :=
  chat_id <- effective_chat_id update ;;
  is_primary <- hgets (fun h => Config.is_primary_admin (config h) chat_id) ;;
  if negb is_primary then reply_text T update OnlyPrimaryCanList None
  else
    admin_list <- hgets (fun h => Config.get_admin_list (config h)) ;;
    primary <- hgets (fun h => Config.primary_admin_chat_id (config h)) ;;
    reply_text T update (AdminList admin_list primary) None.

(** The dict [url_hash_map], with ints as keys. *)
Fixpoint map_get (m : list (Z * string)) (k : Z) : option string :=
  match m with
  | [] => None
  | (k', v) :: m' => if k =? k' then Some v else map_get m' k
  end.

Fixpoint map_set (m : list (Z * string)) (k : Z) (v : string) : list (Z * string) :=
  match m with
  | [] => [(k, v)]
  | (k', v') :: m' => if k =? k' then (k, v) :: m' else (k', v') :: map_set m' k v
  end.

Fixpoint map_del (m : list (Z * string)) (k : Z) : list (Z * string) :=
  match m with
  | [] => []
  | (k', v') :: m' => if k =? k' then m' else (k', v') :: map_del m' k
  end.

Definition set_url_hash_map {S : Type} (f : list (Z * string) -> list (Z * string))
    : H S unit :=
  fun h =>
    ([], mk_BotHandlers (url_monitor h) (config h) (admin_file h) (f (url_hash_map h))
           (calls h), Ret tt).

(** A synchronous method of the monitor, called on [self.url_monitor]. *)
Definition on_monitor {S A : Type} (m : M S A) : H S A :=
  fun h =>
    let '(tr, st, r) := m (mk_state (url_monitor h) [] 0%nat) in
    (map MonitorDid tr,
     mk_BotHandlers (self st) (config h) (admin_file h) (url_hash_map h) (calls h),
     r).

(** [BotHandlers.set_url_command] *)
Definition set_url_command {S : Type} `{UrlRegistry S} (T : Telegram) (update : Update)
    : H S unit :=
  is_admin <- _is_admin update ;;
  if negb is_admin then _send_admin_only_message T update
  else
    match args update with
    | [] => reply_text T update UsageSetUrl None
    | url :: _ =>
        if negb (AdvancedUI.validate_url (utils T) url)
        then reply_text T update InvalidUrlFormat None
        else
          reply_text T update ProcessingUrl None ;;
          chat_id <- effective_chat_id update ;;
          success <- on_monitor (add_url url (str chat_id)) ;;
          if success then
            let url_hash := py_hash T url mod 10000 in
            set_url_hash_map (fun m => map_set m url_hash url) ;;
            let keyboard :=
              [ [AdvancedUI.mk_Button "📊 View Dashboard" "main_urls";
                 AdvancedUI.mk_Button "⚡ Test Now" ("test_url:" ++ str url_hash)%string];
                [AdvancedUI.mk_Button "📈 View Stats" "main_stats";
                 AdvancedUI.mk_Button "🔄 Ping All" "quick_ping"];
                [AdvancedUI.mk_Button "🏠 Main Menu" "main_menu"] ] in
            edit_message_text T (UrlAdded url) (Some keyboard)
          else reply_text T update (FailedToAddUrl url) None
    end.

(** The keyboard of the text "URL not found" in the removal handlers. *)
Definition refresh_keyboard : AdvancedUI.InlineKeyboardMarkup :=
  [ [AdvancedUI.mk_Button "🔄 Refresh URLs" "main_urls"];
    [AdvancedUI.mk_Button "🏠 Main Menu" "main_menu"] ].

(** [BotHandlers._handle_remove_url_callback] *)
Definition _handle_remove_url_callback {S : Type} (T : Telegram) (query : CallbackQuery)
    (url_hash : Z) : H S unit :=
  found <- hgets (fun h => map_get (url_hash_map h) url_hash) ;;
  match found with
  | None => edit_message_text T UrlNotFound (Some refresh_keyboard)
  | Some url =>
      edit_message_text T (ConfirmUrlRemoval url)
        (Some [ [AdvancedUI.mk_Button "✅ Yes, Remove"
                   ("confirm_remove:" ++ str url_hash)%string;
                 AdvancedUI.mk_Button "❌ Cancel" "main_urls"] ])
  end.

(** [BotHandlers._handle_confirm_remove_callback] *)
Definition _handle_confirm_remove_callback {S : Type} `{UrlRegistry S} (T : Telegram)
    (query : CallbackQuery) (url_hash : Z) : H S unit :=
  found <- hgets (fun h => map_get (url_hash_map h) url_hash) ;;
  match found with
  | None => edit_message_text T UrlNotFound (Some refresh_keyboard)
  | Some url =>
      edit_message_text T (RemovingUrl url) None ;;
      chat <- query_chat query ;;
      success <- on_monitor (remove_url url chat) ;;
      if success then
        set_url_hash_map (fun m => map_del m url_hash) ;;
        edit_message_text T (UrlRemoved url)
          (Some [ [AdvancedUI.mk_Button "📋 View Remaining URLs" "main_urls";
                   AdvancedUI.mk_Button "➕ Add New URL" "add_url_wizard"];
                  [AdvancedUI.mk_Button "🏠 Main Menu" "main_menu"] ])
      else
        edit_message_text T (FailedToRemoveUrl url)
          (Some [ [AdvancedUI.mk_Button "📋 View URLs" "main_urls"];
                  [AdvancedUI.mk_Button "🏠 Main Menu" "main_menu"] ])
  end.

(** [BotHandlers._handle_urls_page_callback]; with page 0 it is
    [_handle_main_urls_callback]. *)
Definition _handle_urls_page_callback {S : Type} `{DataManager S} (T : Telegram)
    (query : CallbackQuery) (page : Z) : H S unit :=
  chat <- query_chat query ;;
  urls <- hgets (fun h => get_urls (data_manager (url_monitor h)) chat) ;;
  match AdvancedUI.format_enhanced_url_list urls page 5 with
  | inr (m, reply_markup) => edit_message_text T (UrlList m) (Some reply_markup)
  | inl AdvancedUI.ZeroDivisionError =>
      (* not reached: the page size is the default, 5 *)
      hraise (mk_exception RuntimeError "integer division or modulo by zero")
  end.

(** The methods [button_callback] dispatches to. *)
Inductive handler : Type :=
| MainMenu | MainUrls | MainStats | Settings | QuickPing | Analytics | Alerts | HelpMenu
| UrlsPage (page : Z) | TestUrl (url_hash : Z) | UrlDetail (url_hash : Z)
| RemoveUrl (url_hash : Z) | ConfirmRemove (url_hash : Z)
| AddUrlWizard | RemoveUrlMenu | AdminPanel.

(** [s.split(":")] *)
Fixpoint split_colon (s : string) : list string :=
  match s with
  | EmptyString => [EmptyString]
  | String c s' =>
      if Ascii.eqb c ":"%char then EmptyString :: split_colon s'
      else
        match split_colon s' with
        | [] => [String c EmptyString]
        | piece :: rest => String c piece :: rest
        end
  end.

(** [int(callback_data.split(":")[1])]; the data starts with a prefix that
    holds a colon, so the list has an item of index 1. *)
Definition int_after_colon (T : Telegram) (callback_data : string) : exception + Z :=
  match py_int T (nth 1 (split_colon callback_data) EmptyString) with
  | Some n => inr n
  | None => inl (mk_exception ValueError "invalid literal for int() with base 10")
  end.

(** The chain of tests of [button_callback] on [callback_data]: the method
    the data is dispatched to ([None]: no test holds), or the [ValueError]
    of [int]. *)
Definition dispatch (T : Telegram) (callback_data : string) : exception + option handler :=
  let with_int (f : Z -> handler) :=
    match int_after_colon T callback_data with
    | inr n => inr (Some (f n))
    | inl e => inl e
    end in
  if String.eqb callback_data "main_menu" then inr (Some MainMenu)
  else if String.eqb callback_data "main_urls" then inr (Some MainUrls)
  else if String.eqb callback_data "main_stats" then inr (Some MainStats)
  else if String.eqb callback_data "main_settings" then inr (Some Settings)
  else if String.eqb callback_data "quick_ping" then inr (Some QuickPing)
  else if String.eqb callback_data "analytics" then inr (Some Analytics)
  else if String.eqb callback_data "view_alerts" then inr (Some Alerts)
  else if String.eqb callback_data "help_menu" then inr (Some HelpMenu)
  else if String.eqb callback_data "refresh_main" then inr (Some MainMenu)
  else if String.prefix "urls_page:" callback_data then with_int UrlsPage
  else if String.prefix "test_url:" callback_data then with_int TestUrl
  else if String.prefix "url_detail:" callback_data then with_int UrlDetail
  else if String.prefix "remove_url:" callback_data then with_int RemoveUrl
  else if String.prefix "confirm_remove:" callback_data then with_int ConfirmRemove
  else if String.eqb callback_data "add_url_wizard" then inr (Some AddUrlWizard)
  else if String.eqb callback_data "remove_url_menu" then inr (Some RemoveUrlMenu)
  else if String.eqb callback_data "admin_panel" then inr (Some AdminPanel)
  else if String.eqb callback_data "list_urls" then inr (Some MainUrls)
  else if String.eqb callback_data "show_status" then inr (Some MainStats)
  else if String.eqb callback_data "ping_now" then inr (Some QuickPing)
  else if String.eqb callback_data "help_seturl" then inr (Some AddUrlWizard)
  else inr None.

(** The method a callback is dispatched to, run on the query.  The class
    has no method [_handle_url_detail_callback]; [other] stands for the
    bodies of the methods that are not followed here. *)
Definition run_handler {S : Type} `{DataManager S} `{UrlRegistry S} (T : Telegram)
    (other : handler -> H S unit) (query : CallbackQuery) (h : handler) : H S unit :=
  match h with
  | UrlDetail _ =>
      hraise (mk_exception AttributeError
                "'BotHandlers' object has no attribute '_handle_url_detail_callback'")
  | RemoveUrl url_hash => _handle_remove_url_callback T query url_hash
  | ConfirmRemove url_hash => _handle_confirm_remove_callback T query url_hash
  | UrlsPage page => _handle_urls_page_callback T query page
  | MainUrls => _handle_urls_page_callback T query 0
  | _ => other h
  end.

(** [BotHandlers.button_callback] *)
Definition button_callback {S : Type} `{DataManager S} `{UrlRegistry S} (T : Telegram)
    (other : handler -> H S unit) (update : Update) : H S unit :=
  match callback_query update with
  | None => hraise (mk_exception AttributeError "'NoneType' object has no attribute 'answer'")
  | Some query =>
      api_call T Answered ;;
      is_admin <- _is_admin update ;;
      if negb is_admin then edit_message_text T CallbackAccessDenied None
      else
        match dispatch T (data query) with
        | inl e => hraise e
        | inr None => hret tt
        | inr (Some h) => run_handler T other query h
        end
  end.

End BotHandlers.

(** * The vocabulary of the properties *)

(** ** Runs and their parts *)

Definition trace_of {S A : Type} (x : list effect * state S * result A) : list effect :=
  fst (fst x).

Definition state_of {S A : Type} (x : list effect * state S * result A) : state S :=
  snd (fst x).

Definition outcome_of {S A : Type} (x : list effect * state S * result A) : result A :=
  snd x.

(** ** What a cycle does and what it leaves alone *)

(** The lines a cycle may log before its closing line. *)
Definition cycle_msg (m : log_msg) : Prop :=
  match m with
  | Pinged _ _ _ | TimeoutPinging _ _ | ErrorPinging _ _ | PingTaskFailed _
  | CannotSendAlert | AlertSent _ _ | FailedToSendAlert _ _ _
  | MonitoringStopRequested => True
  | _ => False
  end.

(** What a cycle may do when results of [u] belong to [owner u]. *)
Definition cycle_effect (owner : string -> option string) (e : effect) : Prop :=
  match e with
  | ELog _ m => cycle_msg m
  | EGet _ => True
  | EUpdateStatus u a _ _ _ => owner u = Some a
  | ESendMessage a r => owner (url r) = Some a
  | ESleep _ => False
  end.

Definition is_stop_log (e : effect) : bool :=
  match e with
  | ELog INFO MonitoringStopRequested => true
  | _ => false
  end.

(** [stop_monitoring] ran during the trace. *)
Definition stop_logged (tr : list effect) : bool := existsb is_stop_log tr.

(** What a cycle leaves of the monitor: the settings, the bot and the task
    handle are untouched, and the running flag changes only by a
    [stop_monitoring], which clears it. *)
Definition frame {S : Type} (st : state S) (tr : list effect) (st' : state S) : Prop :=
  ping_interval (self st') = ping_interval (self st)
  /\ bot_instance (self st') = bot_instance (self st)
  /\ _monitoring_task (self st') = _monitoring_task (self st)
  /\ is_running (self st') = (if stop_logged tr then false else is_running (self st)).

(** What a run of a cycle keeps, when results of [u] belong to [owner u]. *)
Definition cycle_inv {S : Type} (owner : string -> option string)
    (st : state S) (tr : list effect) (st' : state S) : Prop :=
  Forall (cycle_effect owner) tr /\ frame st tr st'.

(** [m] keeps [cycle_inv] from every state and only loops are cut short. *)
Definition holds {S A : Type} (owner : string -> option string) (m : M S A) : Prop :=
  forall st, cycle_inv owner st (trace_of (m st)) (state_of (m st))
             /\ outcome_of (m st) <> Fuel.

(** The line that closes a cycle that returns. *)
Definition cycle_log (e : effect) : bool :=
  match e with
  | ELog INFO (CompletedPingCycle _) | ELog DEBUG NoURLsToPing => true
  | _ => false
  end.

(** ** The write phase *)

Definition is_send (e : effect) : bool :=
  match e with ESendMessage _ _ => true | _ => false end.

(** The store writes the write phase owes to [results]. *)
Definition writes_of (owner : string -> option string)
    (results : list (BaseException + PingResult)) : list effect :=
  flat_map
    (fun x =>
       match x with
       | inr r =>
           match owner (url r) with
           | Some a => [EUpdateStatus (url r) a (status_code r) (response_time r) (success r)]
           | None => []
           end
       | inl _ => []
       end)
    results.

(** The store accepts every write. *)
Definition store_never_raises (S : Type) {DM : DataManager S} : Prop :=
  forall s u a c rt ok, exists s', update_url_status s u a c rt ok = inr s'.

(** An entry the write phase can handle: the result of a task, for a URL
    that has an owner, or an [Exception] a task raised. *)
Definition processable (owner : string -> option string)
    (x : BaseException + PingResult) : Prop :=
  match x with
  | inl (Exception _) => True
  | inl CancelledError => False
  | inr r => owner (url r) <> None
  end.

(** ** Concrete monitors and environments *)

Definition site : string := "https://example.com".

(** Admins "1" and "2" have both registered [site]. *)
Definition shared_store : SpecStore.store :=
  snd (SpecStore.add_url (snd (SpecStore.add_url SpecStore.empty site "1")) site "2").

Definition delivering_bot : Bot := fun _ _ => None.

Definition monitor_of (store : SpecStore.store) (running : bool) (bot : option Bot)
    (task : option Task) : URLMonitor SpecStore.store :=
  mk_URLMonitor 60 30 store running bot None task.

Definition start_of (m : URLMonitor SpecStore.store) : state SpecStore.store :=
  mk_state m [] 0%nat.

(** The clock advances one second per reading; every request takes a
    quarter of a second. *)
Definition seconds (n : nat) : Z := Z.of_nat n * 1000000.

Definition answering (status : Z) : nat -> string -> probe_env :=
  fun n _ => mk_probe_env (seconds n) (seconds n + 250000) (Responded status).

(** No other task does anything. *)
Definition quiet_env (status : Z) : env :=
  mk_env 7%nat (fun _ => []) seconds (answering status).

(** The calls [cs] are made by other tasks during suspension number [k]. *)
Definition env_with_calls (status : Z) (k : nat) (cs : list ext_call) : env :=
  mk_env 7%nat (fun n => if Nat.eqb n k then cs else []) seconds (answering status).

(** A store with registered URLs whose disk is full: every write raises. *)
Record full_disk : Type := mk_full_disk { fd_urls : dict string }.

#[global] Instance full_disk_DataManager : DataManager full_disk := {
  get_all_urls := fd_urls;
  get_urls := fun s admin =>
    map (fun p => (fst p, mk_url_data "pending" None None None 0 []))
      (filter (fun p => String.eqb (snd p) admin) (fd_urls s));
  update_url_status := fun _ _ _ _ _ _ =>
    inl (mk_exception OSError "No space left on device")
}.

(** A bot whose [send_message] fails. *)
Definition unreachable_bot : Bot :=
  fun _ _ => Some (Exception (mk_exception RuntimeError "Timed out")).

(** ** The loop *)

(** The state after a clock reading or a suspension was counted. *)
Definition tick_up {S : Type} (st : state S) : state S :=
  mk_state (self st) (cancel_requested st) (Nat.succ (tick st)).

(** The state after [self.is_running = b]. *)
Definition running_set {S : Type} (st : state S) (b : bool) : state S :=
  mk_state
    (mk_URLMonitor (ping_interval (self st)) (request_timeout (self st))
       (data_manager (self st)) b (bot_instance (self st)) (admin_chat_id (self st))
       (_monitoring_task (self st)))
    (cancel_requested st) (tick st).

(** The pacing that follows a cycle: [elapsed_time] and [sleep_time] as
    the loop computes them from the two clock readings. *)
Definition sleep_time_of (interval elapsed : Z) : Z :=
  Z.max 0 (interval * 1000000 - elapsed).

(** The end of a pass, after the second clock reading. *)
Definition pace {S : Type} (E : env) (interval elapsed : Z) : M S unit :=
  if 0 <? sleep_time_of interval elapsed then
    log DEBUG (SleepingFor (sleep_time_of interval elapsed)) ;;
    asyncio_sleep E (sleep_time_of interval elapsed)
  else
    log WARNING (PingCycleTook elapsed interval).

(** A pacing decision: a sleep or an overrun warning. *)
Definition is_pacing (e : effect) : bool :=
  match e with
  | ESleep _ => true
  | ELog WARNING (PingCycleTook _ _) => true
  | _ => false
  end.

(** The error line of the loop's [except Exception] clause. *)
Definition is_loop_error (e : effect) : bool :=
  match e with
  | ELog _ (ErrorInMonitoringLoop _) => true
  | _ => false
  end.

Definition count (f : effect -> bool) (tr : list effect) : nat :=
  List.length (filter f tr).

(** ** A cycle among calls of [stop_monitoring] *)






(** ** Requests, writes and alerts of a cycle *)

Definition is_get (e : effect) : bool :=
  match e with EGet _ => true | _ => false end.

(** What the write phase owes to [results] when a bot is set: for each
    result its store write, followed by an alert if the check failed. *)
Definition deliveries_of (owner : string -> option string)
    (results : list (BaseException + PingResult)) : list effect :=
  flat_map
    (fun x =>
       match x with
       | inr r =>
           match owner (url r) with
           | Some a =>
               EUpdateStatus (url r) a (status_code r) (response_time r) (success r)
               :: (if success r then [] else [ESendMessage a r])
           | None => []
           end
       | inl _ => []
       end)
    results.

(** The effect is a write or an alert under [admin], or neither. *)
Definition addressed_to (admin : string) (e : effect) : Prop :=
  match e with
  | EUpdateStatus _ a _ _ _ | ESendMessage a _ => a = admin
  | _ => True
  end.

(** No request of the environment is cancelled on its own. *)
Definition requests_resolve (E : env) : Prop :=
  forall n u, outcome (net E n u) <> Raises CancelledError.

(** The URL as [add_url] hands it to the data manager. *)
Definition with_scheme (u : string) : string :=
  if startswith u ["http://"; "https://"] then u else ("https://" ++ u)%string.

(** ** The pages of the URL dashboard *)

(** The cards of a page, none when nothing is rendered. *)
Definition page_cards (urls : dict url_data) (page per_page : Z)
    : list (Z * (string * url_data)) :=
  match AdvancedUI.format_enhanced_url_list urls page per_page with
  | inr (AdvancedUI.URLDashboard _ cards _ _, _) => cards
  | _ => []
  end.

(** The number of pages the footer shows. *)
Definition page_count (urls : dict url_data) (per_page : Z) : Z :=
  (Z.of_nat (List.length urls) - 1) / per_page + 1.

(** The navigation row of page [page] out of [pages]. *)
Definition nav_row (page pages : Z) : list AdvancedUI.InlineKeyboardButton :=
  (if 0 <? page
   then [AdvancedUI.mk_Button "◀️ Previous" ("urls_page:" ++ str (page - 1))%string]
   else [])
  ++ (if page + 1 <? pages
      then [AdvancedUI.mk_Button "Next ▶️" ("urls_page:" ++ str (page + 1))%string]
      else []).

(** ** Runs of the handlers *)

Definition sent_by {S A : Type} (x : list BotHandlers.sent * BotHandlers.BotHandlers S * result A)
    : list BotHandlers.sent := fst (fst x).

Definition left_by {S A : Type} (x : list BotHandlers.sent * BotHandlers.BotHandlers S * result A)
    : BotHandlers.BotHandlers S := snd (fst x).

Definition outcome_by {S A : Type}
    (x : list BotHandlers.sent * BotHandlers.BotHandlers S * result A) : result A := snd x.

(** The handler left the monitor, the configuration, the admin file and
    the hash map as they were. *)
Definition untouched {S : Type} (h h' : BotHandlers.BotHandlers S) : Prop :=
  BotHandlers.url_monitor h' = BotHandlers.url_monitor h
  /\ BotHandlers.config h' = BotHandlers.config h
  /\ BotHandlers.admin_file h' = BotHandlers.admin_file h
  /\ BotHandlers.url_hash_map h' = BotHandlers.url_hash_map h.

(** The object after one more call of the Bot API. *)
Definition after_call {S : Type} (h : BotHandlers.BotHandlers S) : BotHandlers.BotHandlers S :=
  BotHandlers.mk_BotHandlers (BotHandlers.url_monitor h) (BotHandlers.config h)
    (BotHandlers.admin_file h) (BotHandlers.url_hash_map h)
    (Datatypes.S (BotHandlers.calls h)).

(** The object with another store in its monitor and another hash map. *)
Definition with_urls {S : Type} (h : BotHandlers.BotHandlers S) (s' : S)
    (m : list (Z * string)) : BotHandlers.BotHandlers S :=
  BotHandlers.mk_BotHandlers
    (self (with_store (mk_state (BotHandlers.url_monitor h) [] 0%nat) s'))
    (BotHandlers.config h) (BotHandlers.admin_file h) m (BotHandlers.calls h).

(** The three admin commands. *)
Inductive admin_command : Type := AddAdminCommand | RemoveAdminCommand | ListAdminsCommand.

Definition run_admin_command {S : Type} (T : BotHandlers.Telegram) (c : admin_command)
    (update : BotHandlers.Update) : BotHandlers.H S unit :=
  match c with
  | AddAdminCommand => BotHandlers.add_admin_command T update
  | RemoveAdminCommand => BotHandlers.remove_admin_command T update
  | ListAdminsCommand => BotHandlers.list_admins_command T update
  end.

(** The text with which a command turns away who is not the primary admin. *)
Definition denial (c : admin_command) : BotHandlers.text :=
  match c with
  | AddAdminCommand => BotHandlers.OnlyPrimaryCanAdd
  | RemoveAdminCommand => BotHandlers.OnlyPrimaryCanRemove
  | ListAdminsCommand => BotHandlers.OnlyPrimaryCanList
  end.

(** Updates handled one after the other; a handler that raises leaves the
    objects as they are at that moment and the next update is handled. *)
Fixpoint handle_updates {S : Type} (T : BotHandlers.Telegram)
    (updates : list (admin_command * BotHandlers.Update)) (h : BotHandlers.BotHandlers S)
    : BotHandlers.BotHandlers S :=
  match updates with
  | [] => h
  | (c, update) :: rest => handle_updates T rest (left_by (run_admin_command T c update h))
  end.

(** [int] undoes [str]. *)
Definition int_reads_str (T : BotHandlers.Telegram) : Prop :=
  forall n, BotHandlers.py_int T (str n) = Some n.

(** The key under which [url_hash_map] and the buttons know a URL. *)
Definition url_key (T : BotHandlers.Telegram) (url : string) : Z :=
  BotHandlers.py_hash T url mod 10000.

(** ** The admin list over a sequence of calls *)

(** A call of [add_admin] or [remove_admin], with what the file system
    does with the write the call may make. *)
Inductive admin_call : Type :=
| AddAdmin (chat_id : Z) (w : Config.write_outcome)
| RemoveAdmin (chat_id : Z) (w : Config.write_outcome).

(** The calls made one after the other on the same object; a call that
    raises ends the sequence. *)
Fixpoint run_admin_calls (calls : list admin_call) (c : Config.Config)
    (f : Config.admin_file) : exception + (Config.Config * Config.admin_file) :=
  match calls with
  | [] => inr (c, f)
  | AddAdmin chat_id w :: rest =>
      let '(_, c', f', _) := Config.add_admin w c f chat_id in
      run_admin_calls rest c' f'
  | RemoveAdmin chat_id w :: rest =>
      let '(_, c', f', r) := Config.remove_admin w c f chat_id in
      match r with
      | inl e => inl e
      | inr _ => run_admin_calls rest c' f'
      end
  end.

(** The primary admin is the one [__init__] names and is on the list. *)
Definition primary_listed (c : Config.Config) : Prop :=
  Config.primary_admin_chat_id c = 1691680798
  /\ Config.is_admin c 1691680798 = true.

(** ** Concrete handlers and their environment *)

(** An [int] that reads the decimal numerals [str] writes. *)
Definition decimal_int (s : string) : option Z :=
  option_map Z.of_int (NilZero.int_of_string s).

(** A [hash] of one process: the length of the string. *)
Definition length_hash (s : string) : Z := Z.of_nat (String.length s).

Definition scheme_utils : AdvancedUI.Utils :=
  AdvancedUI.mk_Utils (fun _ => "🟢") (fun url _ => url)
    (fun url => startswith url ["http://"; "https://"]).

(** The Bot API answers every call and the disk takes every write. *)
Definition telegram : BotHandlers.Telegram :=
  BotHandlers.mk_Telegram (fun _ => None) (fun _ => Config.Written)
    length_hash decimal_int scheme_utils.

(** The handlers of a bot that starts on the default admin file and an
    empty store. *)
Definition new_handlers : BotHandlers.BotHandlers SpecStore.store :=
  BotHandlers.__init__ (monitor_of SpecStore.empty false None None) (Config.init None)
    (Config.AdminData (Some [1691680798]) (Some 1691680798)).

(** A command sent from a chat, and a button pressed in a chat. *)
Definition command_from (chat_id : Z) (args : list string) : BotHandlers.Update :=
  BotHandlers.mk_Update (Some chat_id) true None args.

Definition press_from (chat_id : Z) (callback_data : string) : BotHandlers.Update :=
  BotHandlers.mk_Update (Some chat_id) true
    (Some (BotHandlers.mk_CallbackQuery callback_data (Some chat_id))) [].

(** The methods of [button_callback] that are not followed do nothing. *)
Definition no_other : BotHandlers.handler -> BotHandlers.H SpecStore.store unit :=
  fun _ => BotHandlers.hret tt.

(** Seven URLs of one admin. *)
Definition seven_urls : dict url_data :=
  map (fun n => (("https://example.com/" ++ str n)%string,
                 mk_url_data "online" None None None 0 []))
    [1; 2; 3; 4; 5; 6; 7].

(** * Properties *)

(** ** Laws of the coroutine monad *)

Lemma bind_assoc {S A B C : Type} (m : M S A) (f : A -> M S B) (g : B -> M S C) st :
  bind (bind m f) g st = bind m (fun a => bind (f a) g) st.
Proof.
  unfold bind. destruct (m st) as [[tr1 st1] [a | e |]]; try reflexivity.
  destruct (f a st1) as [[tr2 st2] [b | e |]]; try reflexivity.
  destruct (g b st2) as [[tr3 st3] r3]. rewrite app_assoc. reflexivity.
Qed.

Lemma bind_gets {S A B : Type} (f : URLMonitor S -> A) (k : A -> M S B) st :
  bind (gets f) k st = k (f (self st)) st.
Proof. unfold bind, gets. destruct (k (f (self st)) st) as [[tr st'] r]. reflexivity. Qed.

Lemma bind_ret_l {S A B : Type} (a : A) (k : A -> M S B) st :
  bind (ret a) k st = k a st.
Proof. unfold bind, ret. destruct (k a st) as [[tr st'] r]. reflexivity. Qed.

Lemma bind_emit {S B : Type} (e : effect) (k : unit -> M S B) st :
  bind (emit e) k st
  = (e :: trace_of (k tt st), state_of (k tt st), outcome_of (k tt st)).
Proof. unfold bind, emit. destruct (k tt st) as [[tr st'] r]. reflexivity. Qed.

(** ** The prober *)

Lemma ping_url_responded {S : Type} (st : state S) t0 t1 status u :
  ping_url (mk_probe_env t0 t1 (Responded status)) u st
  = ([EGet u; ELog DEBUG (Pinged u status (t1 - t0))], st,
     Ret (mk_PingResult u status (t1 - t0) ((200 <=? status) && (status <? 400)) t0 None)).
Proof. reflexivity. Qed.

Lemma ping_url_timeout {S : Type} (st : state S) t0 t1 msg u :
  ping_url (mk_probe_env t0 t1 (Raises (Exception (mk_exception TimeoutError msg)))) u st
  = ([EGet u; ELog WARNING (TimeoutPinging u (t1 - t0))], st,
     Ret (mk_PingResult u 408 (t1 - t0) false t0 (Some "Request timeout"))).
Proof. reflexivity. Qed.

Lemma ping_url_error {S : Type} (st : state S) t0 t1 ex u :
  exc_type ex <> TimeoutError ->
  ping_url (mk_probe_env t0 t1 (Raises (Exception ex))) u st
  = ([EGet u; ELog ERROR (ErrorPinging u ex)], st,
     Ret (mk_PingResult u 0 (t1 - t0) false t0 (Some (exc_str ex)))).
Proof.
  intros Hne. destruct ex as [c s]. destruct c; try reflexivity.
  exfalso. apply Hne. reflexivity.
Qed.

Lemma ping_url_cancelled {S : Type} (st : state S) t0 t1 u :
  ping_url (mk_probe_env t0 t1 (Raises CancelledError)) u st
  = ([EGet u], st, Exc CancelledError).
Proof. reflexivity. Qed.

(** Whatever the request does, [ping_url] leaves the monitor as it was and
    either returns a result for the URL it was given or is cancelled. *)
Lemma ping_url_cases {S : Type} (st : state S) w u :
  (exists tr r, ping_url w u st = (tr, st, Ret r) /\ url r = u
                /\ timestamp r = t_start w /\ response_time r = t_end w - t_start w)
  \/ (outcome w = Raises CancelledError /\ ping_url w u st = ([EGet u], st, Exc CancelledError)).
Proof.
  destruct w as [t0 t1 [status | [[c s] | ]]].
  - left. rewrite ping_url_responded. eauto 10.
  - left. destruct c; cbv [ping_url]; cbn; eauto 10.
  - right. split; reflexivity.
Qed.

(** C3: a probe that receives a response with status [s] returns a result
    with that status whose [success] is true exactly when [200 <= s < 400];
    399 succeeds and 400 fails; a probe that ends in a timeout or another
    error, so without a response, returns [success = false]. *)
Theorem ping_url_success_iff_2xx_3xx :
  forall (S : Type) (st : state S) (u : string) (t0 t1 : Z),
    (forall s, exists r,
        outcome_of (ping_url (mk_probe_env t0 t1 (Responded s)) u st) = Ret r
        /\ status_code r = s
        /\ (success r = true <-> 200 <= s < 400))
    /\ (exists r, outcome_of (ping_url (mk_probe_env t0 t1 (Responded 399)) u st) = Ret r
                  /\ success r = true)
    /\ (exists r, outcome_of (ping_url (mk_probe_env t0 t1 (Responded 400)) u st) = Ret r
                  /\ success r = false)
    /\ (forall ex, exists r,
          outcome_of (ping_url (mk_probe_env t0 t1 (Raises (Exception ex))) u st) = Ret r
          /\ success r = false).
Proof.
  intros S st u t0 t1. repeat split.
  - intros s. rewrite ping_url_responded. eexists. split; [reflexivity |].
    cbn. split; [reflexivity |]. rewrite andb_true_iff, Z.leb_le, Z.ltb_lt. tauto.
  - rewrite ping_url_responded. eexists. split; reflexivity.
  - rewrite ping_url_responded. eexists. split; reflexivity.
  - intros [c s]. destruct c; eexists; (split; [reflexivity |]); reflexivity.
Qed.

(** C5: a request that times out is reported with status 408, the error
    "Request timeout" and [success = false], whatever the clock readings
    [t0] and [t1]; any other failure is reported with status 0, the text
    of the exception as error and [success = false]. *)
Theorem ping_url_timeout_408_other_0 :
  forall (S : Type) (st : state S) (u : string) (t0 t1 : Z),
    (forall msg, exists r,
        outcome_of (ping_url (mk_probe_env t0 t1
                      (Raises (Exception (mk_exception TimeoutError msg)))) u st) = Ret r
        /\ status_code r = 408 /\ error r = Some "Request timeout"
        /\ success r = false)
    /\ (forall ex, exc_type ex <> TimeoutError -> exists r,
          outcome_of (ping_url (mk_probe_env t0 t1 (Raises (Exception ex))) u st) = Ret r
          /\ status_code r = 0 /\ error r = Some (exc_str ex)
          /\ success r = false).
Proof.
  intros S st u t0 t1. split.
  - intros msg. rewrite ping_url_timeout. eexists. repeat split.
  - intros ex Hne. rewrite (ping_url_error st t0 t1 ex u Hne). eexists. repeat split.
Qed.

(** ** Invariants of a ping cycle *)

Lemma frame_refl {S : Type} (st : state S) : frame st [] st.
Proof. unfold frame. cbn. auto. Qed.

Lemma frame_trans {S : Type} (st1 st2 st3 : state S) tr1 tr2 :
  frame st1 tr1 st2 -> frame st2 tr2 st3 -> frame st1 (tr1 ++ tr2) st3.
Proof.
  unfold frame, stop_logged. intros (Hi1 & Hb1 & Ht1 & Hr1) (Hi2 & Hb2 & Ht2 & Hr2).
  rewrite existsb_app. repeat split; try congruence.
  rewrite Hr2. destruct (existsb is_stop_log tr2).
  - rewrite orb_true_r. reflexivity.
  - rewrite orb_false_r. exact Hr1.
Qed.

Section CycleInvariant.

Context {S : Type} {DM : DataManager S}.
Variable owner : string -> option string.

Lemma cycle_inv_refl (st : state S) : cycle_inv owner st [] st.
Proof. split; [constructor | apply frame_refl]. Qed.

Lemma cycle_inv_trans (st1 st2 st3 : state S) tr1 tr2 :
  cycle_inv owner st1 tr1 st2 -> cycle_inv owner st2 tr2 st3 ->
  cycle_inv owner st1 (tr1 ++ tr2) st3.
Proof.
  intros [Hf1 Hr1] [Hf2 Hr2]. split.
  - apply Forall_app. auto.
  - eapply frame_trans; eauto.
Qed.

Lemma holds_ret {A : Type} (a : A) : holds owner (@ret S A a).
Proof. intros st. split; [apply cycle_inv_refl | discriminate]. Qed.

Lemma holds_raise {A : Type} e : holds owner (@raise S A e).
Proof. intros st. split; [apply cycle_inv_refl | discriminate]. Qed.

Lemma holds_gets {A : Type} (f : URLMonitor S -> A) : holds owner (gets f).
Proof. intros st. split; [apply cycle_inv_refl | discriminate]. Qed.

Lemma holds_bind {A B : Type} (m : M S A) (f : A -> M S B) :
  holds owner m -> (forall a, holds owner (f a)) -> holds owner (bind m f).
Proof.
  intros Hm Hf st. destruct (Hm st) as [Hi Hn]. unfold bind.
  destruct (m st) as [[tr1 st1] [a | e |]]; cbn in *.
  - destruct (Hf a st1) as [Hi2 Hn2]. destruct (f a st1) as [[tr2 st2] r2]; cbn in *.
    split; [eapply cycle_inv_trans; eauto | exact Hn2].
  - split; [exact Hi | discriminate].
  - contradiction.
Qed.

Lemma holds_try_except {A : Type} (body : M S A) handler :
  holds owner body -> (forall e h, handler e = Some h -> holds owner h) ->
  holds owner (try_except body handler).
Proof.
  intros Hb Hh st. destruct (Hb st) as [Hi Hn]. unfold try_except.
  destruct (body st) as [[tr1 st1] [a | e |]]; cbn in *.
  - split; [exact Hi | discriminate].
  - destruct (handler e) as [h |] eqn:He; cbn.
    + destruct (Hh e h He st1) as [Hi2 Hn2].
      destruct (h st1) as [[tr2 st2] r2]; cbn in *.
      split; [eapply cycle_inv_trans; eauto | exact Hn2].
    + split; [exact Hi | discriminate].
  - contradiction.
Qed.

Lemma holds_capture {A : Type} (m : M S A) : holds owner m -> holds owner (capture m).
Proof.
  intros Hm st. destruct (Hm st) as [Hi Hn]. unfold capture.
  destruct (m st) as [[tr1 st1] [a | e |]]; cbn in *;
    (split; [exact Hi | (discriminate || (exfalso; apply Hn; reflexivity))]).
Qed.

Lemma holds_gather {A : Type} (tasks : list (M S A)) :
  Forall (holds owner) tasks -> holds owner (gather tasks).
Proof.
  induction 1 as [| t ts Ht Hts IH]; cbn [gather].
  - apply holds_ret.
  - apply holds_bind; [apply holds_capture; exact Ht |].
    intros r. apply holds_bind; [exact IH |]. intros rs. apply holds_ret.
Qed.

Lemma holds_emit e :
  cycle_effect owner e -> is_stop_log e = false -> holds owner (@emit S e).
Proof.
  intros He Hs st. cbn. split; [| discriminate]. split.
  - repeat constructor. exact He.
  - unfold frame, stop_logged. cbn. rewrite Hs. cbn. auto.
Qed.

Lemma holds_log lvl m :
  cycle_msg m -> m <> MonitoringStopRequested -> holds owner (@log S lvl m).
Proof.
  intros Hm Hne. apply holds_emit; [exact Hm |].
  destruct lvl, m; try reflexivity. congruence.
Qed.

Lemma holds_stop_monitoring : holds owner (@stop_monitoring S).
Proof.
  intros st. unfold stop_monitoring, bind, set_is_running, modify_self, gets, log, emit.
  cbn. destruct (_monitoring_task (self st)) eqn:Ht; cbn;
    (split; [| discriminate]);
    (split; [repeat constructor | unfold frame; cbn; rewrite Ht; auto]).
Qed.

Lemma holds_task_cancel t : holds owner (@task_cancel S t).
Proof.
  intros st. cbn. split; [| discriminate].
  split; [constructor | unfold frame; cbn; auto].
Qed.

Lemma holds_run_ext_calls cs : holds owner (@run_ext_calls S cs).
Proof.
  induction cs as [| c cs IH]; cbn [run_ext_calls].
  - apply holds_ret.
  - apply holds_bind; [| intros _; exact IH].
    destruct c; [apply holds_stop_monitoring | apply holds_task_cancel].
Qed.

Lemma holds_advance : holds owner (@advance S).
Proof.
  intros st. cbn. split; [| discriminate].
  split; [constructor | unfold frame; cbn; auto].
Qed.

Lemma holds_deliver_cancel E : holds owner (@deliver_cancel S E).
Proof.
  intros st. unfold deliver_cancel.
  destruct (existsb _ _); cbn; (split; [| discriminate]);
    (split; [constructor | unfold frame; cbn; auto]).
Qed.

Lemma holds_await_point E : holds owner (@await_point S E).
Proof.
  unfold await_point. apply holds_bind; [apply holds_advance |].
  intros n. apply holds_bind; [apply holds_run_ext_calls |].
  intros _. apply holds_deliver_cancel.
Qed.

Lemma holds_ping_url w u : holds owner (@ping_url S w u).
Proof.
  intros st.
  destruct w as [t0 t1 [status | [[c s] | ]]]; [| destruct c |]; cbn;
    (split; [| discriminate]);
    (split; [repeat constructor | unfold frame; cbn; auto]).
Qed.

Lemma holds_gather_pings E urls : holds owner (@gather_pings S E urls).
Proof.
  unfold gather_pings.
  apply holds_bind; [intros st; split; [apply cycle_inv_refl | discriminate] |].
  intros n. apply holds_bind; [apply holds_capture, holds_await_point |].
  intros [e | []].
  - apply holds_bind; [| intros _; apply holds_raise].
    apply holds_gather. apply Forall_map, Forall_forall. intros u _. apply holds_ping_url.
  - apply holds_gather. apply Forall_map, Forall_forall. intros u _. apply holds_ping_url.
Qed.

Lemma holds_send_alert E r admin :
  owner (url r) = Some admin -> holds owner (@_send_alert S E r admin).
Proof.
  intros Ho. unfold _send_alert. apply holds_bind; [apply holds_gets |].
  intros [b |].
  - apply holds_try_except.
    + apply holds_bind.
      * unfold send_message. apply holds_bind; [apply holds_emit; [exact Ho | reflexivity] |].
        intros _. apply holds_bind; [apply holds_await_point |].
        intros _. destruct (b admin r); [apply holds_raise | apply holds_ret].
      * intros _. apply holds_log; [exact I | discriminate].
    + intros e h. destruct e as [ex |]; [| discriminate].
      intros Heq. inversion Heq; subst. apply holds_log; [exact I | discriminate].
  - apply holds_log; [exact I | discriminate].
Qed.

Lemma holds_dm_update u admin code rt ok :
  owner u = Some admin -> holds owner (dm_update_url_status u admin code rt ok).
Proof.
  intros Ho st. unfold dm_update_url_status.
  destruct (update_url_status _ _ _ _ _ _); cbn; (split; [| discriminate]);
    (split; [repeat constructor; exact Ho | unfold frame; cbn; auto]).
Qed.

Lemma holds_getitem_bind {A : Type} u (f : string -> M S A) :
  (forall a, owner u = Some a -> holds owner (f a)) -> holds owner (bind (getitem owner u) f).
Proof.
  intros Hf st. unfold getitem, bind. destruct (owner u) as [a |] eqn:Ho; cbn.
  - specialize (Hf a eq_refl st). destruct (f a st) as [[tr2 st2] r2]. exact Hf.
  - split; [apply cycle_inv_refl | discriminate].
Qed.

Lemma holds_process_result E acc result : holds owner (process_result E owner acc result).
Proof.
  destruct result as [[ex |] | r]; cbn [process_result].
  - apply holds_bind; [apply holds_log; [exact I | discriminate] |].
    intros _. apply holds_ret.
  - apply holds_raise.
  - apply holds_getitem_bind. intros admin Ho.
    apply holds_bind; [apply holds_dm_update; exact Ho |].
    intros _. apply holds_bind; [| intros _; apply holds_ret].
    destruct (negb (success r)); [apply holds_send_alert; exact Ho | apply holds_ret].
Qed.

Lemma holds_process_results E results acc : holds owner (process_results E owner results acc).
Proof.
  revert acc. induction results as [| result rest IH]; intros acc; cbn [process_results].
  - apply holds_ret.
  - apply holds_bind; [apply holds_process_result |]. intros acc'. apply IH.
Qed.

End CycleInvariant.

Lemma cycle_effect_not_cycle_log owner e : cycle_effect owner e -> cycle_log e = false.
Proof. destruct e as [lvl m | | | |]; try reflexivity. destruct lvl, m; cbn; tauto. Qed.

Lemma ping_all_urls_inv {S : Type} {DM : DataManager S} (E : env) (st : state S) :
  let owner := dict_get (get_all_urls (data_manager (self st))) in
  let x := ping_all_urls E st in
  frame st (trace_of x) (state_of x)
  /\ outcome_of x <> Fuel
  /\ exists tr, Forall (cycle_effect owner) tr
       /\ match outcome_of x with
          | Ret _ => exists lvl m, trace_of x = tr ++ [ELog lvl m]
                                   /\ cycle_log (ELog lvl m) = true
          | _ => trace_of x = tr
          end.
Proof.
  intros owner x. subst x. unfold ping_all_urls. rewrite bind_gets. fold owner.
  destruct (dict_is_empty (get_all_urls (data_manager (self st)))) eqn:Hempty.
  - cbn. split; [unfold frame; cbn; auto |]. split; [discriminate |].
    exists (@nil effect). split; [constructor |]. exists DEBUG, NoURLsToPing. cbn. eauto.
  - pose proof (holds_gather_pings owner E
                  (dict_keys (get_all_urls (data_manager (self st)))) st) as [[Hg1 Hg2] Hg3].
    unfold bind.
    destruct (gather_pings E _ st) as [[tr1 st1] [results | e |]]; cbn in *.
    + pose proof (holds_process_results owner E results [] st1) as [[Hp1 Hp2] Hp3].
      destruct (process_results E owner results [] st1) as [[tr2 st2] [res | e |]]; cbn in *.
      * rewrite app_assoc. split; [| split; [discriminate |]].
        -- eapply frame_trans; [eapply frame_trans; eauto |].
           unfold frame; cbn; auto.
        -- exists (tr1 ++ tr2). split; [apply Forall_app; auto |].
           exists INFO, (CompletedPingCycle (List.length res)). cbn. eauto.
      * split; [eapply frame_trans; eauto |]. split; [discriminate |].
        exists (tr1 ++ tr2). split; [apply Forall_app; auto | reflexivity].
      * contradiction.
    + split; [exact Hg2 |]. split; [discriminate |].
      exists tr1. split; [exact Hg1 | reflexivity].
    + contradiction.
Qed.

(** Every store write and every alert of a cycle goes to the admin that
    [get_all_urls] gave for the URL when the cycle started. *)
Lemma ping_all_urls_targets {S : Type} {DM : DataManager S} (E : env) (st : state S) :
  Forall (fun e =>
            match e with
            | EUpdateStatus u a _ _ _ =>
                dict_get (get_all_urls (data_manager (self st))) u = Some a
            | ESendMessage a r =>
                dict_get (get_all_urls (data_manager (self st))) (url r) = Some a
            | _ => True
            end)
         (trace_of (ping_all_urls E st)).
Proof.
  destruct (ping_all_urls_inv E st) as (_ & _ & tr & Htr & Hshape).
  assert (Hweak : forall l, Forall (cycle_effect
                     (dict_get (get_all_urls (data_manager (self st))))) l ->
            Forall (fun e =>
              match e with
              | EUpdateStatus u a _ _ _ =>
                  dict_get (get_all_urls (data_manager (self st))) u = Some a
              | ESendMessage a r =>
                  dict_get (get_all_urls (data_manager (self st))) (url r) = Some a
              | _ => True
              end) l).
  { intros l Hl. eapply Forall_impl; [| exact Hl]. intros [] He; cbn in He; auto. }
  destruct (outcome_of (ping_all_urls E st)).
  - destruct Hshape as (lvl & m & -> & _).
    apply Forall_app. split; [apply Hweak, Htr | repeat constructor].
  - rewrite Hshape. apply Hweak, Htr.
  - rewrite Hshape. apply Hweak, Htr.
Qed.

(** In one cycle a URL is written for one admin only: two owners of the
    same URL cannot both be served. *)
Lemma ping_all_urls_one_owner_per_url {S : Type} {DM : DataManager S}
    (E : env) (st : state S) u a1 c1 rt1 ok1 a2 c2 rt2 ok2 :
  In (EUpdateStatus u a1 c1 rt1 ok1) (trace_of (ping_all_urls E st)) ->
  In (EUpdateStatus u a2 c2 rt2 ok2) (trace_of (ping_all_urls E st)) ->
  a1 = a2.
Proof.
  intros H1 H2. pose proof (ping_all_urls_targets E st) as Hall.
  rewrite Forall_forall in Hall.
  pose proof (Hall _ H1) as E1. pose proof (Hall _ H2) as E2. cbn in E1, E2. congruence.
Qed.

(** ** The write phase of a cycle *)

Lemma bind_ext {S A B : Type} (m : M S A) (f g : A -> M S B) st :
  (forall a st', f a st' = g a st') -> bind m f st = bind m g st.
Proof.
  intros Hfg. unfold bind. destruct (m st) as [[tr1 st1] [a | e |]]; try reflexivity.
  rewrite Hfg. reflexivity.
Qed.

Lemma process_results_app {S : Type} {DM : DataManager S} (E : env) owner l1 l2 acc
    (st : state S) :
  process_results E owner (l1 ++ l2) acc st
  = bind (process_results E owner l1 acc) (fun acc' => process_results E owner l2 acc') st.
Proof.
  revert acc st. induction l1 as [| x l1 IH]; intros acc st; cbn [process_results app].
  - unfold bind, ret. destruct (process_results E owner l2 acc st) as [[tr st'] r].
    reflexivity.
  - rewrite bind_assoc. apply bind_ext. intros acc' st'. apply IH.
Qed.


Lemma non_log_app tr1 tr2 : non_log (tr1 ++ tr2) = non_log tr1 ++ non_log tr2.
Proof. unfold non_log. apply filter_app. Qed.

(** The join of the fan-out never raises and loses no task: every ping
    contributes one entry, its result or what it raised. *)
Lemma gather_collects_all {S : Type} (w : string -> probe_env) (urls : list string)
    (st : state S) :
  exists rs, outcome_of (gather (map (fun u => ping_url (w u) u) urls) st) = Ret rs
             /\ state_of (gather (map (fun u => ping_url (w u) u) urls) st) = st
             /\ List.length rs = List.length urls.
Proof.
  induction urls as [| u urls IH]; cbn [map gather].
  - exists []. repeat split.
  - destruct IH as (rs & Hout & Hst & Hlen).
    destruct (gather (map (fun u0 => ping_url (w u0) u0) urls) st) as [[tr2 st2] r2] eqn:Hg.
    cbn in Hout, Hst. subst r2 st2.
    destruct (ping_url_cases st (w u) u) as [(tr & r & Hrun & _) | [_ Hrun]].
    + exists (inr r :: rs). unfold bind, capture. rewrite Hrun, Hg. cbn.
      repeat split. congruence.
    + exists (inl CancelledError :: rs). unfold bind, capture. rewrite Hrun, Hg. cbn.
      repeat split. congruence.
Qed.


(** ** Alerts without a bot *)

(** A monitor as its constructor leaves it has no bot and no task handle,
    and is not running. *)
Lemma URLMonitor_init_fields {S : Type} (store : S) (interval timeout : Z) :
  bot_instance (URLMonitor_init store interval timeout) = None
  /\ _monitoring_task (URLMonitor_init store interval timeout) = None
  /\ is_running (URLMonitor_init store interval timeout) = false.
Proof. repeat split. Qed.

Lemma send_alert_no_bot {S : Type} (E : env) r admin (st : state S) :
  bot_instance (self st) = None ->
  _send_alert E r admin st = ([ELog WARNING CannotSendAlert], st, Ret tt).
Proof. intros Hb. unfold _send_alert. rewrite bind_gets, Hb. reflexivity. Qed.

(** One pass of the write loop over the result of a ping. *)
Lemma process_result_inr {S : Type} {DM : DataManager S} (E : env) owner acc r a
    (st : state S) :
  owner (url r) = Some a ->
  process_result E owner acc (inr r) st
  = match update_url_status (data_manager (self st)) (url r) a (status_code r)
            (response_time r) (success r) with
    | inl e =>
        ([EUpdateStatus (url r) a (status_code r) (response_time r) (success r)],
         st, Exc (Exception e))
    | inr s' =>
        let y := (if negb (success r) then _send_alert E r a else ret tt) (with_store st s') in
        (EUpdateStatus (url r) a (status_code r) (response_time r) (success r) :: trace_of y,
         state_of y,
         match outcome_of y with
         | Ret _ => Ret (dict_set acc (url r) r)
         | Exc e => Exc e
         | Fuel => Fuel
         end)
    end.
Proof.
  intros Ho. cbn [process_result]. unfold getitem. rewrite Ho, bind_ret_l.
  unfold bind, dm_update_url_status.
  destruct (update_url_status _ _ _ _ _ _) as [e | s']; [reflexivity |].
  cbn zeta.
  destruct ((if negb (success r) then _send_alert E r a else ret tt) (with_store st s'))
    as [[tr2 st2] [[] | e |]]; cbn; rewrite ?app_nil_r; reflexivity.
Qed.

Lemma process_result_no_owner {S : Type} {DM : DataManager S} (E : env) owner acc r
    (st : state S) :
  owner (url r) = None ->
  process_result E owner acc (inr r) st
  = ([], st, Exc (Exception (mk_exception KeyError (url r)))).
Proof. intros Ho. cbn [process_result]. unfold getitem. rewrite Ho. reflexivity. Qed.

Lemma process_result_no_bot {S : Type} {DM : DataManager S} (E : env) owner acc x
    (st : state S) :
  bot_instance (self st) = None ->
  bot_instance (self (state_of (process_result E owner acc x st))) = None
  /\ forallb (fun e => negb (is_send e)) (trace_of (process_result E owner acc x st)) = true
  /\ (store_never_raises S -> processable owner x ->
      exists acc',
        outcome_of (process_result E owner acc x st) = Ret acc'
        /\ non_log (trace_of (process_result E owner acc x st)) = writes_of owner [x]).
Proof.
  intros Hb. destruct x as [[ex |] | r].
  - cbn. repeat split; auto. intros _ _. eauto.
  - cbn. repeat split; auto. intros _ [].
  - cbn [writes_of flat_map processable].
    destruct (owner (url r)) as [a |] eqn:Ho.
    2:{ rewrite process_result_no_owner by exact Ho. cbn. repeat split; auto.
        intros _ Hne. congruence. }
    rewrite (process_result_inr E owner acc r a st Ho).
    destruct (update_url_status (data_manager (self st)) (url r) a (status_code r)
                (response_time r) (success r)) as [e | s'] eqn:Hu.
    + cbn. repeat split; auto. intros Hs _.
      destruct (Hs (data_manager (self st)) (url r) a
                  (status_code r) (response_time r) (success r)) as [s' Hs']. congruence.
    + destruct (success r); cbn [negb].
      * cbn. repeat split; auto. intros _ _. eauto.
      * rewrite send_alert_no_bot by (cbn; exact Hb).
        cbn. repeat split; auto. intros _ _. eauto.
Qed.

Lemma process_results_no_bot {S : Type} {DM : DataManager S} (E : env) owner results acc
    (st : state S) :
  bot_instance (self st) = None ->
  bot_instance (self (state_of (process_results E owner results acc st))) = None
  /\ forallb (fun e => negb (is_send e)) (trace_of (process_results E owner results acc st)) = true
  /\ (store_never_raises S -> Forall (processable owner) results ->
      exists res,
        outcome_of (process_results E owner results acc st) = Ret res
        /\ non_log (trace_of (process_results E owner results acc st)) = writes_of owner results).
Proof.
  revert acc st. induction results as [| x rest IH]; intros acc st Hb; cbn [process_results].
  - cbn. repeat split; auto. intros _ _. eauto.
  - destruct (process_result_no_bot E owner acc x st Hb) as (Hb1 & Hs1 & Hp1).
    unfold bind.
    destruct (process_result E owner acc x st) as [[tr1 st1] [acc1 | e |]] eqn:Hrun;
      cbn [trace_of state_of outcome_of fst snd] in Hb1, Hs1, Hp1.
    + destruct (IH acc1 st1 Hb1) as (Hb2 & Hs2 & Hp2).
      destruct (process_results E owner rest acc1 st1) as [[tr2 st2] r2];
        cbn [trace_of state_of outcome_of fst snd] in *.
      repeat split; auto.
      * rewrite forallb_app, Hs1, Hs2. reflexivity.
      * intros Hstore Hall. inversion Hall as [| ? ? Hx Hrest]; subst.
        destruct (Hp1 Hstore Hx) as (acc' & _ & Hw1).
        destruct (Hp2 Hstore Hrest) as (res & Hout & Hw2).
        exists res. split; [exact Hout |].
        rewrite non_log_app, Hw1, Hw2. cbn [writes_of flat_map].
        rewrite app_nil_r. reflexivity.
    + cbn [trace_of state_of outcome_of fst snd]. repeat split; auto.
      intros Hstore Hall. inversion Hall as [| ? ? Hx Hrest]; subst.
      destruct (Hp1 Hstore Hx) as (acc' & Hout & _). discriminate.
    + cbn [trace_of state_of outcome_of fst snd]. repeat split; auto.
      intros Hstore Hall. inversion Hall as [| ? ? Hx Hrest]; subst.
      destruct (Hp1 Hstore Hx) as (acc' & Hout & _). discriminate.
Qed.


(** ** Two owners of one URL *)

(** C1: with [site] registered by admins "1" and "2" and answering 500,
    one cycle issues one request, one store write and one alert, all for
    admin "2", the owner [get_all_urls] keeps for the URL; the entry of
    admin "1" is left pending with no check recorded. *)
Theorem ping_all_urls_serves_one_owner_of_shared_url :
  let st := start_of (monitor_of shared_store true (Some delivering_bot) None) in
  let x := ping_all_urls (quiet_env 500) st in
  let r := mk_PingResult site 500 250000 false 0 None in
  dict_keys (get_urls shared_store "1") = [site]
  /\ dict_keys (get_urls shared_store "2") = [site]
  /\ get_all_urls shared_store = [(site, "2")]
  /\ outcome_of x = Ret [(site, r)]
  /\ non_log (trace_of x)
     = [EGet site; EUpdateStatus site "2" 500 250000 false; ESendMessage "2" r]
  /\ option_map ud_status (dict_get (get_urls (data_manager (self (state_of x))) "1") site)
     = Some "pending"
  /\ option_map ud_history (dict_get (get_urls (data_manager (self (state_of x))) "1") site)
     = Some []
  /\ option_map ud_status (dict_get (get_urls (data_manager (self (state_of x))) "2") site)
     = Some "offline".
Proof. cbv zeta. repeat split; vm_compute; reflexivity. Qed.

(** The on-demand path does serve admin "1" for the same URL. *)
Lemma ping_admin_urls_serves_the_given_admin :
  let st := start_of (monitor_of shared_store true (Some delivering_bot) None) in
  let r := mk_PingResult site 500 250000 false 0 None in
  non_log (trace_of (ping_admin_urls (quiet_env 500) "1" st))
  = [EGet site; EUpdateStatus site "1" 500 250000 false; ESendMessage "1" r].
Proof. vm_compute. reflexivity. Qed.

(** ** A probe that is cancelled *)

(** C2 (as stated): a probe whose task is cancelled while the request is
    in flight raises [CancelledError] to its caller and returns no result. *)
Lemma ping_url_raises_when_cancelled :
  let st := start_of (monitor_of shared_store true None None) in
  let x := ping_url (mk_probe_env 0 250000 (Raises CancelledError)) site st in
  outcome_of x = Exc CancelledError
  /\ (forall r, outcome_of x <> Ret r).
Proof. cbv zeta. split; [reflexivity | intros r; discriminate]. Qed.

(** C2 (amended): [ping_url] leaves the monitor unchanged and returns a
    result whenever the request resolves with a response or with an
    [Exception], a timeout included; such a failure is returned with
    [success = false] and an error text; it never raises an [Exception].
    The one thing it lets through is [CancelledError], raised exactly when
    the request is cancelled. *)
Theorem ping_url_returns_unless_cancelled :
  forall (S : Type) (st : state S) (u : string) (t0 t1 : Z),
    (forall s, exists r,
        outcome_of (ping_url (mk_probe_env t0 t1 (Responded s)) u st) = Ret r)
    /\ (forall ex, exists r,
          outcome_of (ping_url (mk_probe_env t0 t1 (Raises (Exception ex))) u st) = Ret r
          /\ success r = false /\ error r <> None)
    /\ (forall w ex, outcome_of (ping_url w u st) <> Exc (Exception ex))
    /\ (forall w, outcome_of (ping_url w u st) = Exc CancelledError
                  <-> outcome w = Raises CancelledError)
    /\ (forall w, state_of (ping_url w u st) = st).
Proof.
  intros S st u t0 t1. split; [| split; [| split; [| split]]].
  - intros s. rewrite ping_url_responded. eexists. reflexivity.
  - intros [c s]. destruct c; eexists; (split; [reflexivity |]); split;
      (reflexivity || discriminate).
  - intros w ex. destruct (ping_url_cases st w u) as [(tr & r & Hrun & _) | [_ Hrun]];
      rewrite Hrun; discriminate.
  - intros w. destruct (ping_url_cases st w u) as [(tr & r & Hrun & _) | [Hw Hrun]];
      rewrite Hrun; split; try discriminate; auto.
    intros Hw. exfalso. destruct w as [a b o]. cbn in Hw. subst o.
    rewrite ping_url_cancelled in Hrun. discriminate.
  - intros w. destruct (ping_url_cases st w u) as [(tr & r & Hrun & _) | [_ Hrun]];
      rewrite Hrun; reflexivity.
Qed.

(** ** Configuration *)

(** What [validate_config] does on an object that has the attribute it
    reads, set to a chat id other than 0, and a bot token: it returns
    [True] when both settings are positive and raises [ValueError]
    otherwise. *)
Lemma validate_config_with_attribute (c : Config.Config) (id : Z) :
  Config.admin_chat_id c = Some id -> id <> 0 -> Config.bot_token c <> "" ->
  (0 < Config.ping_interval c /\ 0 < Config.request_timeout c ->
   Config.validate_config c = inr true)
  /\ (Config.ping_interval c <= 0 \/ Config.request_timeout c <= 0 ->
      exists msg, Config.validate_config c = inl (mk_exception ValueError msg)).
Proof.
  intros Hid Hne Htok. unfold Config.validate_config, Config.append_if. rewrite Hid.
  destruct (String.eqb_spec (Config.bot_token c) "") as [Heq | _]; [contradiction |].
  destruct (Z.eqb_spec id 0) as [Heq | _]; [contradiction |].
  destruct (Z.leb_spec (Config.ping_interval c) 0);
    destruct (Z.leb_spec (Config.request_timeout c) 0); cbn; split;
    try (intros [? ?]; lia); try (intros [? | ?]; lia); eauto.
Qed.

(** C9: on every [Config] object the class builds, whatever the admin file
    holds and whatever values the ping interval and the request timeout are
    then given, [validate_config] raises [AttributeError]: it neither
    returns [True] nor reports a configuration error. *)
Theorem validate_config_raises_AttributeError :
  forall (loaded : option (list Z)) (interval timeout : Z),
    Config.validate_config
      (Config.set_request_timeout (Config.set_ping_interval (Config.init loaded) interval)
         timeout)
    = inl (mk_exception AttributeError "'Config' object has no attribute 'admin_chat_id'")
    /\ Config.validate_config (Config.init loaded)
       = inl (mk_exception AttributeError "'Config' object has no attribute 'admin_chat_id'").
Proof. intros loaded interval timeout. split; reflexivity. Qed.

(** ** The monitoring loop *)

Lemma set_is_running_run {S : Type} (b : bool) (st : state S) :
  set_is_running b st = ([], running_set st b, Ret tt).
Proof. reflexivity. Qed.

Lemma datetime_now_run {S : Type} (E : env) (st : state S) :
  datetime_now E st = ([], tick_up st, Ret (now E (tick st))).
Proof. reflexivity. Qed.

Lemma bind_run {S A B : Type} (m : M S A) (k : A -> M S B) st :
  bind m k st
  = match outcome_of (m st) with
    | Ret a =>
        (trace_of (m st) ++ trace_of (k a (state_of (m st))),
         state_of (k a (state_of (m st))),
         outcome_of (k a (state_of (m st))))
    | Exc e => (trace_of (m st), state_of (m st), Exc e)
    | Fuel => (trace_of (m st), state_of (m st), Fuel)
    end.
Proof.
  unfold bind. destruct (m st) as [[tr1 st1] [a | e |]]; cbn; try reflexivity.
  destruct (k a st1) as [[tr2 st2] r2]. reflexivity.
Qed.

(** One pass of the loop, seen from outside: the cycle runs between two
    clock readings and is followed by its pacing. *)
Lemma loop_body_run {S : Type} {DM : DataManager S} (E : env) (st : state S) :
  loop_body E st
  = let x := ping_all_urls E (tick_up st) in
    match outcome_of x with
    | Ret _ =>
        let elapsed := now E (tick (state_of x)) - now E (tick st) in
        let y := pace E (ping_interval (self (state_of x))) elapsed (tick_up (state_of x)) in
        (trace_of x ++ trace_of y, state_of y, outcome_of y)
    | Exc e => (trace_of x, state_of x, Exc e)
    | Fuel => (trace_of x, state_of x, Fuel)
    end.
Proof.
  unfold loop_body. rewrite bind_run, datetime_now_run. cbn [trace_of state_of outcome_of fst snd app].
  rewrite bind_run. cbv zeta.
  destruct (outcome_of (ping_all_urls E (tick_up st))); try reflexivity.
  rewrite bind_run, datetime_now_run. cbn [trace_of state_of outcome_of fst snd app].
  rewrite bind_gets. reflexivity.
Qed.

Lemma pace_sleeps {S : Type} (E : env) interval elapsed (st : state S) :
  elapsed < interval * 1000000 ->
  sleep_time_of interval elapsed = interval * 1000000 - elapsed
  /\ pace E interval elapsed st
     = (ELog DEBUG (SleepingFor (interval * 1000000 - elapsed))
          :: ESleep (interval * 1000000 - elapsed) :: trace_of (await_point E st),
        state_of (await_point E st), outcome_of (await_point E st)).
Proof.
  intros Hlt. assert (Hs : sleep_time_of interval elapsed = interval * 1000000 - elapsed)
    by (unfold sleep_time_of; lia).
  split; [exact Hs |]. unfold pace. rewrite Hs.
  destruct (Z.ltb_spec 0 (interval * 1000000 - elapsed)); [| lia].
  unfold log, asyncio_sleep. rewrite bind_emit, bind_emit. reflexivity.
Qed.

Lemma pace_overrun {S : Type} (E : env) interval elapsed (st : state S) :
  interval * 1000000 <= elapsed ->
  sleep_time_of interval elapsed = 0
  /\ pace E interval elapsed st = ([ELog WARNING (PingCycleTook elapsed interval)], st, Ret tt).
Proof.
  intros Hle. assert (Hs : sleep_time_of interval elapsed = 0)
    by (unfold sleep_time_of; lia).
  split; [exact Hs |]. unfold pace. rewrite Hs. reflexivity.
Qed.

Lemma count_app f tr1 tr2 : count f (tr1 ++ tr2) = (count f tr1 + count f tr2)%nat.
Proof. unfold count. rewrite filter_app, length_app. reflexivity. Qed.

Lemma cycle_effect_counts owner tr :
  Forall (cycle_effect owner) tr ->
  count cycle_log tr = 0%nat /\ count is_pacing tr = 0%nat /\ count is_loop_error tr = 0%nat.
Proof.
  induction 1 as [| e tr He _ (IH1 & IH2 & IH3)]; [repeat split; reflexivity |].
  unfold count in *. cbn [filter].
  rewrite (cycle_effect_not_cycle_log owner e He).
  assert (Hp : is_pacing e = false /\ is_loop_error e = false).
  { destruct e as [lvl m | | | |]; try (split; reflexivity); [| contradiction].
    destruct lvl, m; cbn in He; try (split; reflexivity); contradiction. }
  destruct Hp as [-> ->]. auto.
Qed.

Lemma ping_all_urls_counts {S : Type} {DM : DataManager S} (E : env) (st : state S) :
  count is_pacing (trace_of (ping_all_urls E st)) = 0%nat
  /\ count is_loop_error (trace_of (ping_all_urls E st)) = 0%nat
  /\ count cycle_log (trace_of (ping_all_urls E st))
     = match outcome_of (ping_all_urls E st) with Ret _ => 1%nat | _ => 0%nat end.
Proof.
  destruct (ping_all_urls_inv E st) as (_ & _ & tr & Htr & Hshape).
  destruct (cycle_effect_counts _ tr Htr) as (Hc & Hp & He).
  destruct (outcome_of (ping_all_urls E st)).
  - destruct Hshape as (lvl & m & -> & Hlog). rewrite !count_app, Hc, Hp, He.
    unfold count. cbn [filter]. rewrite Hlog.
    destruct lvl, m; try discriminate; repeat split; reflexivity.
  - rewrite Hshape. auto.
  - rewrite Hshape. auto.
Qed.

Lemma await_point_inv {S : Type} {DM : DataManager S} (E : env) (st : state S) :
  frame st (trace_of (await_point E st)) (state_of (await_point E st))
  /\ count cycle_log (trace_of (await_point E st)) = 0%nat
  /\ count is_pacing (trace_of (await_point E st)) = 0%nat
  /\ count is_loop_error (trace_of (await_point E st)) = 0%nat
  /\ outcome_of (await_point E st) <> Fuel.
Proof.
  destruct (holds_await_point (fun _ => None) E st) as [[Hall Hframe] Hfuel].
  destruct (cycle_effect_counts _ _ Hall) as (Hc & Hp & He). auto.
Qed.

Lemma pace_inv {S : Type} {DM : DataManager S} (E : env) interval elapsed (st : state S) :
  frame st (trace_of (pace E interval elapsed st)) (state_of (pace E interval elapsed st))
  /\ count cycle_log (trace_of (pace E interval elapsed st)) = 0%nat
  /\ count is_pacing (trace_of (pace E interval elapsed st)) = 1%nat
  /\ count is_loop_error (trace_of (pace E interval elapsed st)) = 0%nat
  /\ outcome_of (pace E interval elapsed st) <> Fuel.
Proof.
  destruct (Z.lt_ge_cases elapsed (interval * 1000000)) as [Hlt | Hge].
  - destruct (pace_sleeps E interval elapsed st Hlt) as [_ ->].
    destruct (await_point_inv E st) as (Hf & Hc & Hp & He & Hn).
    cbn [trace_of state_of outcome_of fst snd]. split; [| split; [| split; [| split]]].
    + apply (frame_trans st st _ [ELog DEBUG (SleepingFor (interval * 1000000 - elapsed));
                                   ESleep (interval * 1000000 - elapsed)]); [| exact Hf].
      unfold frame. cbn. auto.
    + unfold count in *. cbn [filter cycle_log]. exact Hc.
    + unfold count in *. cbn [filter is_pacing List.length]. rewrite Hp. reflexivity.
    + unfold count in *. cbn [filter is_loop_error]. exact He.
    + exact Hn.
  - destruct (pace_overrun E interval elapsed st Hge) as [_ ->].
    cbn. split; [| split; [| split; [| split]]]; unfold frame; cbn; auto. discriminate.
Qed.

Lemma tick_up_frame {S : Type} (st : state S) : frame st [] (tick_up st).
Proof. unfold frame. cbn. auto. Qed.

Lemma loop_body_inv {S : Type} {DM : DataManager S} (E : env) (st : state S) :
  let y := loop_body E st in
  frame st (trace_of y) (state_of y)
  /\ count cycle_log (trace_of y) = count is_pacing (trace_of y)
  /\ (count cycle_log (trace_of y) <= 1)%nat
  /\ (forall v, outcome_of y = Ret v -> count cycle_log (trace_of y) = 1%nat)
  /\ count is_loop_error (trace_of y) = 0%nat
  /\ outcome_of y <> Fuel.
Proof.
  cbv zeta. rewrite loop_body_run. cbv zeta.
  destruct (ping_all_urls_inv E (tick_up st)) as (Hf & Hn & _).
  destruct (ping_all_urls_counts E (tick_up st)) as (Hp & He & Hc).
  pose proof (frame_trans _ _ _ _ _ (tick_up_frame st) Hf) as Hf'. cbn [app] in Hf'.
  destruct (outcome_of (ping_all_urls E (tick_up st))) as [res | e |].
  - destruct (pace_inv E (ping_interval (self (state_of (ping_all_urls E (tick_up st)))))
                (now E (tick (state_of (ping_all_urls E (tick_up st)))) - now E (tick st))
                (tick_up (state_of (ping_all_urls E (tick_up st)))))
      as (Hf2 & Hc2 & Hp2 & He2 & Hn2).
    cbn [trace_of state_of outcome_of fst snd]. rewrite !count_app, Hc, Hp, He, Hc2, Hp2, He2.
    split; [| split; [| split; [| split; [| split]]]]; auto.
    eapply frame_trans; [exact Hf' |].
    pose proof (frame_trans _ _ _ _ _
                  (tick_up_frame (state_of (ping_all_urls E (tick_up st)))) Hf2) as Hf3.
    exact Hf3.
  - cbn [trace_of state_of outcome_of fst snd]. rewrite Hc, Hp, He.
    split; [| split; [| split; [| split; [| split]]]]; auto; intros; discriminate.
  - contradiction.
Qed.

(** What holds of every prefix of the loop the model follows: the flag is
    cleared only by [stop_monitoring]; every cycle that completed was
    followed by its pacing decision, a sleep or an overrun warning, and
    every pacing decision was preceded by its cycle; a prefix that used up
    its fuel made exactly [n] passes and finds the flag still set; the loop
    is left normally only with the flag cleared. *)
Lemma while_is_running_inv {S : Type} {DM : DataManager S} (E : env) (n : nat)
    (st : state S) :
  let y := while_is_running E n st in
  frame st (trace_of y) (state_of y)
  /\ count cycle_log (trace_of y) = count is_pacing (trace_of y)
  /\ (count cycle_log (trace_of y) <= n)%nat
  /\ (outcome_of y = Fuel ->
      count cycle_log (trace_of y) = n /\ is_running (self (state_of y)) = true)
  /\ (forall v, outcome_of y = Ret v -> is_running (self (state_of y)) = false)
  /\ count is_loop_error (trace_of y) = 0%nat.
Proof.
  revert st. induction n as [| n IH]; intros st; cbv zeta; cbn [while_is_running];
    rewrite bind_gets; destruct (is_running (self st)) eqn:Hrun.
  - cbn. split; [| split; [| split; [| split; [| split]]]]; auto using frame_refl.
    intros v Hv. discriminate.
  - cbn. split; [| split; [| split; [| split; [| split]]]]; auto using frame_refl; try lia.
    intros; discriminate.
  - rewrite bind_run.
    destruct (loop_body_inv E st) as (Hf & Heq & Hle & Hone & Herr & Hnf).
    destruct (outcome_of (loop_body E st)) as [[] | e |] eqn:Hout.
    + specialize (IH (state_of (loop_body E st))). cbv zeta in IH.
      destruct IH as (Hf2 & Heq2 & Hle2 & Hfuel2 & Hret2 & Herr2).
      specialize (Hone tt eq_refl).
      cbn [trace_of state_of outcome_of fst snd]. rewrite !count_app.
      split; [| split; [| split; [| split; [| split]]]].
      * eapply frame_trans; eauto.
      * lia.
      * lia.
      * intros Hfu. destruct (Hfuel2 Hfu) as [Hn Hr]. split; [lia | exact Hr].
      * exact Hret2.
      * lia.
    + cbn [trace_of state_of outcome_of fst snd].
      split; [| split; [| split; [| split; [| split]]]]; auto; try lia; intros; discriminate.
    + contradiction.
  - cbn. split; [| split; [| split; [| split; [| split]]]]; auto using frame_refl; try lia.
    intros; discriminate.
Qed.

(** C4: in a pass of the loop whose cycle returns, with [elapsed] the
    difference of the clock readings around the cycle, the pacing is
    [max(0, ping_interval - elapsed)]: when [elapsed] is below the interval
    the pass logs and then sleeps for that time; otherwise that time is 0
    and the pass ends with an overrun warning and no sleep or suspension,
    so that the next test of the flag follows at once.  In every prefix of
    the loop each completed cycle has its own pacing decision, and a prefix
    of [n] passes holds exactly [n] cycles: none is skipped or merged. *)
Theorem loop_paces_every_cycle :
  forall (S : Type) (DM : DataManager S) (E : env) (st : state S),
    (forall res,
        outcome_of (ping_all_urls E (tick_up st)) = Ret res ->
        let x := ping_all_urls E (tick_up st) in
        let interval := ping_interval (self (state_of x)) in
        let elapsed := now E (tick (state_of x)) - now E (tick st) in
        let sleep_time := Z.max 0 (interval * 1000000 - elapsed) in
        let after := tick_up (state_of x) in
        interval = ping_interval (self st)
        /\ (elapsed < interval * 1000000 ->
            sleep_time = interval * 1000000 - elapsed
            /\ loop_body E st
               = (trace_of x ++ ELog DEBUG (SleepingFor sleep_time) :: ESleep sleep_time
                    :: trace_of (await_point E after),
                  state_of (await_point E after), outcome_of (await_point E after)))
        /\ (interval * 1000000 <= elapsed ->
            sleep_time = 0
            /\ loop_body E st
               = (trace_of x ++ [ELog WARNING (PingCycleTook elapsed interval)],
                  after, Ret tt)))
    /\ (forall n,
          let y := while_is_running E n st in
          count cycle_log (trace_of y) = count is_pacing (trace_of y)
          /\ (outcome_of y = Fuel -> count cycle_log (trace_of y) = n)).
Proof.
  intros S DM E st. split.
  - intros res Hres. cbv zeta. rewrite loop_body_run. cbv zeta. rewrite Hres.
    destruct (ping_all_urls_inv E (tick_up st)) as ((Hi & _) & _).
    split; [exact Hi |]. split.
    + intros Hlt.
      destruct (pace_sleeps E _ _ (tick_up (state_of (ping_all_urls E (tick_up st)))) Hlt)
        as [Hs Hrun].
      unfold sleep_time_of in Hs. split; [exact Hs |].
      rewrite Hrun, Hs. reflexivity.
    + intros Hge.
      destruct (pace_overrun E _ _ (tick_up (state_of (ping_all_urls E (tick_up st)))) Hge)
        as [Hs Hrun].
      unfold sleep_time_of in Hs. split; [exact Hs |].
      rewrite Hrun. reflexivity.
  - intros n. destruct (while_is_running_inv E n st) as (_ & Heq & _ & Hfuel & _).
    split; [exact Heq |]. intros Hf. apply Hfuel. exact Hf.
Qed.

(** The two cases of the spec's example: with a 60 s interval and no URL
    registered, a pass whose cycle takes 5 s sleeps 55 s, and a pass whose
    cycle takes 65 s logs the overrun and does not sleep. *)
Lemma sixty_second_interval_example :
  let st := start_of (monitor_of SpecStore.empty true None None) in
  let clock (d : Z) : nat -> Z := fun n => match n with O => 0 | _ => d end in
  trace_of (loop_body (mk_env 7%nat (fun _ => []) (clock 5000000) (answering 200)) st)
  = [ELog DEBUG NoURLsToPing; ELog DEBUG (SleepingFor 55000000); ESleep 55000000]
  /\ trace_of (loop_body (mk_env 7%nat (fun _ => []) (clock 65000000) (answering 200)) st)
     = [ELog DEBUG NoURLsToPing; ELog WARNING (PingCycleTook 65000000 60)].
Proof. cbv zeta. split; vm_compute; reflexivity. Qed.

(** ** How the loop ends *)

(** [start_monitoring] on a monitor that is not running, in terms of the
    loop it runs. *)
Lemma start_monitoring_run {S : Type} {DM : DataManager S} (E : env) (fuel : nat)
    (st : state S) :
  is_running (self st) = false ->
  start_monitoring E fuel st
  = let y := while_is_running E fuel (running_set st true) in
    let started := ELog INFO (StartingMonitoring (ping_interval (self st))) in
    match outcome_of y with
    | Ret _ =>
        (started :: trace_of y ++ [ELog INFO MonitoringStopped],
         running_set (state_of y) false, Ret tt)
    | Exc (Exception ex) =>
        (started :: trace_of y
           ++ [ELog ERROR (ErrorInMonitoringLoop ex); ELog INFO MonitoringStopped],
         running_set (state_of y) false, Exc (Exception ex))
    | Exc CancelledError =>
        (started :: trace_of y
           ++ [ELog INFO MonitoringLoopCancelled; ELog INFO MonitoringStopped],
         running_set (state_of y) false, Exc CancelledError)
    | Fuel => (started :: trace_of y, state_of y, Fuel)
    end.
Proof.
  intros Hrun.
  unfold start_monitoring, bind, gets, set_is_running, modify_self, log, emit,
    try_finally, try_except, raise, running_set, trace_of, state_of, outcome_of.
  rewrite Hrun. cbn [fst snd self cancel_requested tick].
  destruct (while_is_running E fuel _) as [[tr st'] [[] | [ex |] |]];
    cbn; rewrite ?app_nil_r, <- ?app_assoc; reflexivity.
Qed.

(** C7 (as stated): a cancellation of the task that runs the loop, made by
    whoever holds the task and not by [stop_monitoring], escapes the loop
    and halts it; the flag is cleared, but what is logged is an info line,
    no error line, and no stop was requested. *)
Lemma cancelled_loop_logs_no_error :
  let st := start_of (monitor_of shared_store false (Some delivering_bot) None) in
  let y := start_monitoring (env_with_calls 200 1 [CallTaskCancel 7%nat]) 3 st in
  outcome_of y = Exc CancelledError
  /\ is_running (self (state_of y)) = false
  /\ trace_of y = [ELog INFO (StartingMonitoring 60); EGet site;
                   ELog INFO MonitoringLoopCancelled; ELog INFO MonitoringStopped]
  /\ existsb (fun e => match e with ELog ERROR _ => true | _ => false end) (trace_of y) = false
  /\ stop_logged (trace_of y) = false.
Proof. cbv zeta. repeat split; vm_compute; reflexivity. Qed.

(** C7 (amended): started on a monitor that is not running, the loop can
    end in three ways, and in each the running flag is cleared before
    control returns.  An [Exception] escaping the loop body is logged at
    error level and re-raised.  A cancellation is logged at info level, with
    no error line for the loop, and re-raised.  The loop returns normally
    only after a [stop_monitoring] call made while it ran.  A loop still
    iterating has the flag set. *)
Theorem start_monitoring_ends_by_exception_cancel_or_stop :
  forall (S : Type) (DM : DataManager S) (E : env) (fuel : nat) (st : state S),
    is_running (self st) = false ->
    let y := start_monitoring E fuel st in
    let started := ELog INFO (StartingMonitoring (ping_interval (self st))) in
    match outcome_of y with
    | Exc (Exception ex) =>
        is_running (self (state_of y)) = false
        /\ exists tr, trace_of y
             = started :: tr ++ [ELog ERROR (ErrorInMonitoringLoop ex);
                                 ELog INFO MonitoringStopped]
    | Exc CancelledError =>
        is_running (self (state_of y)) = false
        /\ count is_loop_error (trace_of y) = 0%nat
        /\ exists tr, trace_of y
             = started :: tr ++ [ELog INFO MonitoringLoopCancelled;
                                 ELog INFO MonitoringStopped]
    | Ret _ =>
        is_running (self (state_of y)) = false
        /\ stop_logged (trace_of y) = true
    | Fuel => is_running (self (state_of y)) = true
    end.
Proof.
  intros S DM E fuel st Hrun. cbv zeta. rewrite (start_monitoring_run E fuel st Hrun).
  cbv zeta.
  destruct (while_is_running_inv E fuel (running_set st true))
    as (Hf & _ & _ & Hfuel & Hret & Herr).
  destruct (outcome_of (while_is_running E fuel (running_set st true)))
    as [[] | [ex |] |] eqn:Hout; cbn [trace_of state_of outcome_of fst snd].
  - split; [reflexivity |].
    specialize (Hret tt eq_refl). destruct Hf as (_ & _ & _ & Hflag).
    rewrite Hret in Hflag. cbn in Hflag.
    unfold stop_logged in *. cbn [existsb is_stop_log]. rewrite existsb_app.
    destruct (existsb is_stop_log (trace_of (while_is_running E fuel (running_set st true))));
      [reflexivity | discriminate].
  - split; [reflexivity |]. eexists. reflexivity.
  - split; [reflexivity |]. split; [| eexists; reflexivity].
    change (ELog INFO (StartingMonitoring (ping_interval (self st)))
              :: trace_of (while_is_running E fuel (running_set st true))
              ++ [ELog INFO MonitoringLoopCancelled; ELog INFO MonitoringStopped])
      with ([ELog INFO (StartingMonitoring (ping_interval (self st)))]
              ++ trace_of (while_is_running E fuel (running_set st true))
              ++ [ELog INFO MonitoringLoopCancelled; ELog INFO MonitoringStopped]).
    rewrite !count_app, Herr. reflexivity.
  - apply Hfuel. reflexivity.
Qed.

(** ** Stopping while a cycle is in progress *)

Lemma stop_monitoring_run {S : Type} (st : state S) :
  stop_monitoring st
  = ([ELog INFO MonitoringStopRequested],
     mk_state (self (running_set st false))
       (match _monitoring_task (self st) with
        | Some t => t :: cancel_requested st
        | None => cancel_requested st
        end)
       (tick st),
     Ret tt).
Proof.
  unfold stop_monitoring, bind, set_is_running, modify_self, gets, log, emit, running_set.
  cbn. destruct (_monitoring_task (self st)); reflexivity.
Qed.


























(** ** The admin list *)

Lemma mem_cons x y l : Config.mem x (y :: l) = (x =? y) || Config.mem x l.
Proof. reflexivity. Qed.

Lemma mem_In x l : Config.mem x l = true <-> In x l.
Proof.
  unfold Config.mem. rewrite existsb_exists. split.
  - intros (y & Hy & Heq). apply Z.eqb_eq in Heq. subst y. exact Hy.
  - intros Hx. exists x. split; [exact Hx | apply Z.eqb_refl].
Qed.

Lemma mem_app x l1 l2 : Config.mem x (l1 ++ l2) = Config.mem x l1 || Config.mem x l2.
Proof. unfold Config.mem. apply existsb_app. Qed.

Lemma mem_single x y : Config.mem x [y] = (x =? y).
Proof. rewrite mem_cons. apply orb_false_r. Qed.

Lemma list_remove_mem x l :
  Config.mem x l = true -> exists l', Config.list_remove x l = Some l'.
Proof.
  induction l as [| y l IH]; [discriminate |].
  rewrite mem_cons. cbn [Config.list_remove].
  destruct (Z.eqb_spec y x) as [-> | Hne].
  - intros _. eexists. reflexivity.
  - rewrite (proj2 (Z.eqb_neq x y)) by congruence. cbn [orb]. intros Hm.
    destruct (IH Hm) as (l' & ->). eexists. reflexivity.
Qed.

Lemma list_remove_other x y l l' :
  Config.list_remove x l = Some l' -> y <> x -> Config.mem y l' = Config.mem y l.
Proof.
  revert l'. induction l as [| z l IH]; cbn [Config.list_remove]; intros l' H Hne;
    [discriminate |].
  rewrite mem_cons.
  destruct (Z.eqb_spec z x) as [-> | Hzx].
  - inversion H; subst. rewrite (proj2 (Z.eqb_neq y x)) by exact Hne. reflexivity.
  - destruct (Config.list_remove x l) as [l0 |]; [| discriminate].
    inversion H; subst. rewrite mem_cons, (IH l0 eq_refl Hne). reflexivity.
Qed.

Lemma list_remove_In x l l' y :
  Config.list_remove x l = Some l' -> In y l' -> In y l.
Proof.
  revert l'. induction l as [| z l IH]; cbn [Config.list_remove]; intros l' H Hy;
    [discriminate |].
  destruct (z =? x).
  - inversion H; subst. right. exact Hy.
  - destruct (Config.list_remove x l) as [l0 |]; [| discriminate].
    inversion H; subst. destruct Hy as [-> | Hy]; [left; reflexivity | right; eauto].
Qed.

Lemma list_remove_NoDup x l l' :
  NoDup l -> Config.list_remove x l = Some l' -> NoDup l' /\ Config.mem x l' = false.
Proof.
  revert l'. induction l as [| z l IH]; cbn [Config.list_remove]; intros l' Hnd H;
    [discriminate |].
  inversion Hnd as [| ? ? Hz Hl]; subst.
  destruct (Z.eqb_spec z x) as [-> | Hzx].
  - inversion H; subst. split; [exact Hl |].
    destruct (Config.mem x l') eqn:Hm; [| reflexivity].
    apply mem_In in Hm. contradiction.
  - destruct (Config.list_remove x l) as [l0 |] eqn:Hrem; [| discriminate].
    inversion H; subst. destruct (IH l0 Hl eq_refl) as [Hnd0 Hm0]. split.
    + constructor; [| exact Hnd0]. intros Hin. apply Hz. eapply list_remove_In; eauto.
    + rewrite mem_cons, Hm0. rewrite (proj2 (Z.eqb_neq x z)) by congruence. reflexivity.
Qed.

Lemma list_remove_count x l l' :
  Config.list_remove x l = Some l' ->
  count_occ Z.eq_dec l x = Datatypes.S (count_occ Z.eq_dec l' x).
Proof.
  revert l'. induction l as [| z l IH]; cbn [Config.list_remove]; intros l' H;
    [discriminate |].
  destruct (Z.eqb_spec z x) as [-> | Hzx].
  - inversion H; subst. cbn. destruct (Z.eq_dec x x); [reflexivity | contradiction].
  - destruct (Config.list_remove x l) as [l0 |]; [| discriminate].
    inversion H; subst. cbn. destruct (Z.eq_dec z x); [contradiction |]. apply IH. reflexivity.
Qed.

Lemma list_remove_app_last x l :
  Config.mem x l = false -> Config.list_remove x (l ++ [x]) = Some l.
Proof.
  induction l as [| z l IH].
  - intros _. cbn. rewrite Z.eqb_refl. reflexivity.
  - rewrite mem_cons. intros Hm. apply orb_false_elim in Hm. destruct Hm as [Hxz Hm].
    cbn. rewrite Z.eqb_sym, Hxz. rewrite (IH Hm). reflexivity.
Qed.

Lemma count_occ_mem x l : (0 < count_occ Z.eq_dec l x)%nat <-> Config.mem x l = true.
Proof.
  split; intros H.
  - apply mem_In, (count_occ_In Z.eq_dec). exact H.
  - apply (count_occ_In Z.eq_dec), mem_In. exact H.
Qed.

(** ** The administrators *)

Lemma save_admin_data_written c f :
  Config._save_admin_data Config.Written c f
  = ([(INFO, Config.SavedAdminData (List.length (Config.admin_chat_ids c)))],
     Config.AdminData (Some (Config.admin_chat_ids c)) (Some (Config.primary_admin_chat_id c))).
Proof. reflexivity. Qed.

(** The constructor on the object of a JSON file: the list of the file,
    with the primary admin appended when it is missing; nothing is logged
    and the file is not written. *)
Lemma init_admin_data w ids p :
  Config.__init__ w (Config.AdminData ids p)
  = ([], Config.AdminData ids p,
     inr (Config.init (Some (match ids with Some l => l | None => [1691680798] end)))).
Proof.
  unfold Config.__init__, Config._load_admin_data, Config.init, Config.set_admin_chat_ids.
  cbn [Config.primary_admin_chat_id Config.admin_chat_ids].
  destruct ids as [l |].
  - destruct (Config.mem 1691680798 l); reflexivity.
  - reflexivity.
Qed.

(** The constructor agrees with [Config.init] whenever it returns. *)
Lemma init_agrees w f logs f' c :
  Config.__init__ w f = (logs, f', inr c) ->
  c = Config.init (match f with
                   | Config.AdminData (Some l) _ => Some l
                   | _ => None
                   end).
Proof.
  destruct f as [| | e | t | [l |] p].
  - unfold Config.__init__, Config._load_admin_data.
    destruct (Config._save_admin_data _ _ _) as [lg f0]. intros H. inversion H. reflexivity.
  - unfold Config.__init__, Config._load_admin_data.
    destruct (Config._save_admin_data _ _ _) as [lg f0]. intros H. inversion H. reflexivity.
  - cbn. discriminate.
  - cbn. discriminate.
  - rewrite init_admin_data. intros H. inversion H. reflexivity.
  - rewrite init_admin_data. intros H. inversion H. reflexivity.
Qed.

Lemma init_primary_listed loaded : primary_listed (Config.init loaded).
Proof.
  unfold primary_listed, Config.is_admin. split; [reflexivity |].
  destruct loaded as [l |]; [| reflexivity].
  cbn [Config.init Config.admin_chat_ids].
  destruct (Config.mem 1691680798 l) eqn:Hm; [exact Hm |].
  rewrite mem_app, Hm. reflexivity.
Qed.

Lemma add_admin_primary_listed w c f id :
  primary_listed c -> primary_listed (snd (fst (fst (Config.add_admin w c f id)))).
Proof.
  intros [Hp Hm]. unfold Config.add_admin.
  destruct (negb (Config.mem id (Config.admin_chat_ids c))); [| split; assumption].
  destruct (Config._save_admin_data _ _ _) as [lg f0]. cbn [fst snd].
  split; [exact Hp |]. unfold Config.is_admin in *.
  cbn [Config.set_admin_chat_ids Config.admin_chat_ids]. rewrite mem_app, Hm. reflexivity.
Qed.

Lemma remove_admin_primary_listed w c f id :
  primary_listed c ->
  primary_listed (snd (fst (fst (Config.remove_admin w c f id))))
  /\ exists b, snd (Config.remove_admin w c f id) = inr b.
Proof.
  intros [Hp Hm]. unfold Config.remove_admin.
  destruct (Z.eqb_spec id (Config.primary_admin_chat_id c)) as [Heq | Hne].
  - split; [split; assumption | eexists; reflexivity].
  - destruct (Config.mem id (Config.admin_chat_ids c)) eqn:Hid.
    + destruct (list_remove_mem _ _ Hid) as (l' & Hrem). rewrite Hrem.
      destruct (Config._save_admin_data _ _ _) as [lg f0]. cbn [fst snd].
      split; [| eexists; reflexivity].
      split; [exact Hp |]. unfold Config.is_admin in *.
      cbn [Config.set_admin_chat_ids Config.admin_chat_ids].
      rewrite (list_remove_other _ _ _ _ Hrem); [exact Hm | congruence].
    + split; [split; assumption | eexists; reflexivity].
Qed.

Lemma run_admin_calls_primary_listed calls :
  forall c f, primary_listed c ->
    exists c' f', run_admin_calls calls c f = inr (c', f') /\ primary_listed c'.
Proof.
  induction calls as [| [id w | id w] rest IH]; intros c f Hc.
  - exists c, f. split; [reflexivity | exact Hc].
  - cbn [run_admin_calls].
    pose proof (add_admin_primary_listed w c f id Hc) as H1.
    destruct (Config.add_admin w c f id) as [[[lg c1] f1] b]. cbn [fst snd] in H1.
    apply IH. exact H1.
  - cbn [run_admin_calls].
    destruct (remove_admin_primary_listed w c f id Hc) as [H1 (b & Hb)].
    destruct (Config.remove_admin w c f id) as [[[lg c1] f1] r]. cbn [fst snd] in *.
    subst r. apply IH. exact H1.
Qed.

(** X1: whatever the admin file holds, a [Config] object that the
    constructor returns has the primary admin 1691680798 on its admin list,
    and no sequence of [add_admin] and [remove_admin] calls, with writes
    that succeed or fail, raises or takes the primary admin off the list. *)
Theorem primary_admin_is_never_removed :
  forall (w : Config.write_outcome) (f f0 : Config.admin_file)
         (logs : list (level * Config.config_log)) (c : Config.Config)
         (calls : list admin_call),
    Config.__init__ w f = (logs, f0, inr c) ->
    exists c' f',
      run_admin_calls calls c f0 = inr (c', f')
      /\ Config.primary_admin_chat_id c' = 1691680798
      /\ Config.is_primary_admin c' 1691680798 = true
      /\ Config.is_admin c' 1691680798 = true.
Proof.
  intros w f f0 logs c calls Hinit.
  assert (Hc : primary_listed c).
  { rewrite (init_agrees _ _ _ _ _ Hinit). apply init_primary_listed. }
  destruct (run_admin_calls_primary_listed calls c f0 Hc) as (c' & f' & Hrun & Hp & Hm).
  exists c', f'. split; [exact Hrun |]. split; [exact Hp |]. split; [| exact Hm].
  unfold Config.is_primary_admin. rewrite Hp. reflexivity.
Qed.

(** X2: [add_admin] returns true exactly when the id was not on the list;
    afterwards the id is an admin and every other id is an admin if and
    only if it was one before.  When it returns false the object and the
    file are unchanged and nothing is logged.  A list without repetition
    stays so. *)
Theorem add_admin_adds_exactly_one :
  forall (w : Config.write_outcome) (c : Config.Config) (f : Config.admin_file) (id : Z),
    let '(logs, c', f', added) := Config.add_admin w c f id in
    added = negb (Config.is_admin c id)
    /\ Config.is_admin c' id = true
    /\ (forall x, x <> id -> Config.is_admin c' x = Config.is_admin c x)
    /\ (added = false -> c' = c /\ f' = f /\ logs = [])
    /\ (NoDup (Config.admin_chat_ids c) -> NoDup (Config.admin_chat_ids c'))
    /\ Config.primary_admin_chat_id c' = Config.primary_admin_chat_id c.
Proof.
  intros w c f id. unfold Config.add_admin, Config.is_admin.
  destruct (Config.mem id (Config.admin_chat_ids c)) eqn:Hm; cbn [negb].
  - split; [reflexivity |]. split; [exact Hm |]. split; [reflexivity |].
    split; [intros _; repeat split |]. split; [tauto | reflexivity].
  - destruct (Config._save_admin_data _ _ _) as [lg f0].
    cbn [Config.set_admin_chat_ids Config.admin_chat_ids Config.primary_admin_chat_id].
    split; [reflexivity |]. split.
    { rewrite mem_app, mem_single, Z.eqb_refl. apply orb_true_r. }
    split.
    { intros x Hx. rewrite mem_app, mem_single.
      rewrite (proj2 (Z.eqb_neq x id)) by exact Hx. apply orb_false_r. }
    split; [discriminate |]. split; [| reflexivity].
    intros Hnd. apply NoDup_app; [exact Hnd | repeat constructor; intros [] |].
    intros x Hx [Hxid | []]. subst x. apply mem_In in Hx. congruence.
Qed.

(** X3: on an admin list without repetition, [remove_admin] returns true
    exactly for a listed id other than the primary admin, never raises,
    and after it returned true the id is no admin any more; every other id
    keeps its standing and the list stays without repetition.  When it
    returns false nothing is changed, written or logged. *)
Theorem remove_admin_revokes_access :
  forall (w : Config.write_outcome) (c : Config.Config) (f : Config.admin_file) (id : Z),
    NoDup (Config.admin_chat_ids c) ->
    let '(logs, c', f', r) := Config.remove_admin w c f id in
    r = inr (Config.is_admin c id && negb (Config.is_primary_admin c id))
    /\ (r = inr true -> Config.is_admin c' id = false)
    /\ (forall x, x <> id -> Config.is_admin c' x = Config.is_admin c x)
    /\ NoDup (Config.admin_chat_ids c')
    /\ (r = inr false -> c' = c /\ f' = f /\ logs = []).
Proof.
  intros w c f id Hnd. unfold Config.remove_admin, Config.is_admin, Config.is_primary_admin.
  destruct (id =? Config.primary_admin_chat_id c) eqn:Hp; cbn [negb].
  - rewrite andb_false_r. split; [reflexivity |]. split; [discriminate |].
    split; [reflexivity |]. split; [exact Hnd |]. intros _. repeat split.
  - rewrite andb_true_r.
    destruct (Config.mem id (Config.admin_chat_ids c)) eqn:Hm.
    + destruct (list_remove_mem _ _ Hm) as (l' & Hrem). rewrite Hrem.
      destruct (Config._save_admin_data _ _ _) as [lg f0].
      cbn [Config.set_admin_chat_ids Config.admin_chat_ids].
      destruct (list_remove_NoDup _ _ _ Hnd Hrem) as [Hnd' Hgone].
      split; [reflexivity |]. split; [intros _; exact Hgone |].
      split; [intros x Hx; apply (list_remove_other _ _ _ _ Hrem Hx) |].
      split; [exact Hnd' | discriminate].
    + split; [reflexivity |]. split; [discriminate |]. split; [reflexivity |].
      split; [exact Hnd |]. intros _. repeat split.
Qed.

(** X4: [remove_admin] takes one occurrence of the id off the list.  The
    constructor loads the list of the file as it is, repetitions included,
    and for an id listed more than once [remove_admin] returns true while
    the id is still an admin afterwards. *)
Theorem remove_admin_keeps_a_repeated_id :
  forall (w : Config.write_outcome) (c : Config.Config) (f : Config.admin_file) (id : Z),
    id <> Config.primary_admin_chat_id c ->
    (2 <= count_occ Z.eq_dec (Config.admin_chat_ids c) id)%nat ->
    (let '(logs, c', f', r) := Config.remove_admin w c f id in
     r = inr true
     /\ Config.is_admin c' id = true
     /\ Datatypes.S (count_occ Z.eq_dec (Config.admin_chat_ids c') id)
        = count_occ Z.eq_dec (Config.admin_chat_ids c) id)
    /\ (forall w' l p, exists c0,
          Config.__init__ w' (Config.AdminData (Some l) p)
          = ([], Config.AdminData (Some l) p, inr c0)
          /\ forall x, (count_occ Z.eq_dec l x
                        <= count_occ Z.eq_dec (Config.admin_chat_ids c0) x)%nat).
Proof.
  intros w c f id Hne Hcount. split.
  - unfold Config.remove_admin, Config.is_admin.
    rewrite (proj2 (Z.eqb_neq _ _) Hne).
    assert (Hm : Config.mem id (Config.admin_chat_ids c) = true)
      by (apply count_occ_mem; lia).
    rewrite Hm. destruct (list_remove_mem _ _ Hm) as (l' & Hrem). rewrite Hrem.
    destruct (Config._save_admin_data _ _ _) as [lg f0].
    cbn [Config.set_admin_chat_ids Config.admin_chat_ids].
    pose proof (list_remove_count _ _ _ Hrem) as Hc.
    split; [reflexivity |]. split; [apply count_occ_mem; lia | congruence].
  - intros w' l p. rewrite init_admin_data. eexists. split; [reflexivity |].
    intros x. cbn [Config.init Config.admin_chat_ids].
    destruct (Config.mem 1691680798 l); [lia |].
    rewrite count_occ_app. lia.
Qed.

(** X5: removing an id right after adding it undoes the addition: when the
    id was not an admin and is not the primary admin, [add_admin] returns
    true, the following [remove_admin] returns true, and the admin list is
    again the list from before the two calls, whether the writes succeed
    or not. *)
Theorem remove_admin_undoes_add_admin :
  forall (w1 w2 : Config.write_outcome) (c : Config.Config) (f : Config.admin_file) (id : Z),
    Config.is_admin c id = false ->
    id <> Config.primary_admin_chat_id c ->
    let '(_, c1, f1, added) := Config.add_admin w1 c f id in
    let '(_, c2, _, r) := Config.remove_admin w2 c1 f1 id in
    added = true /\ r = inr true
    /\ Config.admin_chat_ids c2 = Config.admin_chat_ids c
    /\ Config.primary_admin_chat_id c2 = Config.primary_admin_chat_id c.
Proof.
  intros w1 w2 c f id Hm Hne. unfold Config.add_admin, Config.is_admin in *.
  rewrite Hm. cbn [negb].
  destruct (Config._save_admin_data w1 _ _) as [lg1 f1].
  unfold Config.remove_admin.
  cbn [Config.set_admin_chat_ids Config.admin_chat_ids Config.primary_admin_chat_id].
  rewrite (proj2 (Z.eqb_neq _ _) Hne).
  rewrite mem_app, mem_single, Z.eqb_refl, orb_true_r.
  rewrite (list_remove_app_last _ _ Hm).
  destruct (Config._save_admin_data w2 _ _) as [lg2 f2].
  cbn [Config.admin_chat_ids Config.primary_admin_chat_id]. repeat split.
Qed.

(** X6: a change of the admin list whose write succeeds survives a restart:
    on an object with the primary admin listed, after [add_admin] or
    [remove_admin] returned true and the file was written, the constructor
    run on that file returns an object with the same admin list, without
    logging or writing anything. *)
Theorem admin_list_survives_restart :
  forall (c : Config.Config) (f : Config.admin_file) (id : Z) (w' : Config.write_outcome),
    primary_listed c ->
    (let '(_, c1, f1, added) := Config.add_admin Config.Written c f id in
     added = true ->
     exists c2, Config.__init__ w' f1 = ([], f1, inr c2)
                /\ Config.admin_chat_ids c2 = Config.admin_chat_ids c1)
    /\ (let '(_, c1, f1, r) := Config.remove_admin Config.Written c f id in
        r = inr true ->
        exists c2, Config.__init__ w' f1 = ([], f1, inr c2)
                   /\ Config.admin_chat_ids c2 = Config.admin_chat_ids c1).
Proof.
  intros c f id w' Hc.
  assert (Hload : forall c1, primary_listed c1 ->
            exists c2,
              Config.__init__ w'
                (Config.AdminData (Some (Config.admin_chat_ids c1))
                   (Some (Config.primary_admin_chat_id c1)))
              = ([], Config.AdminData (Some (Config.admin_chat_ids c1))
                       (Some (Config.primary_admin_chat_id c1)), inr c2)
              /\ Config.admin_chat_ids c2 = Config.admin_chat_ids c1).
  { intros c1 [_ Hm]. rewrite init_admin_data. eexists. split; [reflexivity |].
    cbn [Config.init Config.admin_chat_ids]. unfold Config.is_admin in Hm.
    rewrite Hm. reflexivity. }
  split.
  - pose proof (add_admin_primary_listed Config.Written c f id Hc) as H1.
    unfold Config.add_admin in *.
    destruct (negb (Config.mem id (Config.admin_chat_ids c))); [| discriminate].
    rewrite save_admin_data_written in *. cbn [fst snd] in H1. intros _.
    apply Hload. exact H1.
  - destruct (remove_admin_primary_listed Config.Written c f id Hc) as [H1 _].
    unfold Config.remove_admin in *.
    destruct (id =? Config.primary_admin_chat_id c); [discriminate |].
    destruct (Config.mem id (Config.admin_chat_ids c)); [| discriminate].
    destruct (Config.list_remove id (Config.admin_chat_ids c)) as [l |]; [| discriminate].
    rewrite save_admin_data_written in *. cbn [fst snd] in H1. intros _.
    apply Hload. exact H1.
Qed.

(** X7: [add_admin] reports success even when the file cannot be written:
    it returns true, the id is an admin of the running object and the
    failure is only logged.  When the write left the file as it was, a file
    that did not list the id, an object constructed from the file
    afterwards does not have the id as an admin. *)
Theorem failed_save_loses_admin_on_restart :
  forall (c : Config.Config) (l : list Z) (p : option Z) (id : Z) (e : exception)
         (w' : Config.write_outcome),
    Config.is_admin c id = false ->
    Config.mem id l = false ->
    id <> 1691680798 ->
    let f := Config.AdminData (Some l) p in
    let '(logs, c1, f1, added) := Config.add_admin (Config.WriteFails e f) c f id in
    added = true
    /\ Config.is_admin c1 id = true
    /\ logs = [(ERROR, Config.ErrorSavingAdminData e); (INFO, Config.AddedNewAdmin id)]
    /\ f1 = f
    /\ exists c2, Config.__init__ w' f1 = ([], f1, inr c2)
                  /\ Config.is_admin c2 id = false.
Proof.
  intros c l p id e w' Hm Hl Hne. cbv zeta.
  unfold Config.add_admin, Config.is_admin in *. rewrite Hm. cbn [negb].
  cbn [Config._save_admin_data app Config.set_admin_chat_ids Config.admin_chat_ids].
  split; [reflexivity |]. split.
  { rewrite mem_app, mem_single, Z.eqb_refl. apply orb_true_r. }
  split; [reflexivity |]. split; [reflexivity |].
  rewrite init_admin_data. eexists. split; [reflexivity |].
  cbn [Config.init Config.admin_chat_ids].
  destruct (Config.mem 1691680798 l); [exact Hl |].
  rewrite mem_app, Hl, mem_single. apply Z.eqb_neq. exact Hne.
Qed.

(** X8: what the constructor does with the admin file.  Without a file, or
    with a file that is not JSON, the object gets the default list holding
    the primary admin alone, a write of the default file is attempted, and
    the line "Created default admin data file" is logged whether or not
    the write succeeded.  A file that cannot be read, or that holds JSON
    other than an object, makes the constructor raise (an AttributeError in
    the second case).  An object is loaded without writing: the admins are
    the ids of its list and the primary admin, and the file is left as it
    is even when the primary admin had to be added. *)
Theorem config_init_outcomes :
  forall (w : Config.write_outcome) (f : Config.admin_file),
    let '(logs, f', r) := Config.__init__ w f in
    match f with
    | Config.NoFile | Config.NotJSON =>
        (exists c, r = inr c /\ Config.admin_chat_ids c = [1691680798])
        /\ match w with
           | Config.Written =>
               f' = Config.AdminData (Some [1691680798]) (Some 1691680798)
               /\ logs = [(INFO, Config.SavedAdminData 1);
                          (INFO, Config.CreatedDefaultAdminFile)]
           | Config.WriteFails e remains =>
               f' = remains
               /\ logs = [(ERROR, Config.ErrorSavingAdminData e);
                          (INFO, Config.CreatedDefaultAdminFile)]
           end
    | Config.Unreadable e => r = inl e /\ f' = f /\ logs = []
    | Config.NotAnObject t =>
        f' = f /\ logs = []
        /\ exists msg, r = inl (mk_exception AttributeError msg)
    | Config.AdminData ids _ =>
        f' = f /\ logs = []
        /\ exists c,
             r = inr c
             /\ forall x, Config.is_admin c x
                          = (x =? 1691680798)
                            || match ids with
                               | Some l => Config.mem x l
                               | None => false
                               end
    end.
Proof.
  intros w f. destruct f as [| | e | t | ids p].
  - destruct w as [| e remains]; cbn; (split; [eexists; split; reflexivity | split; reflexivity]).
  - destruct w as [| e remains]; cbn; (split; [eexists; split; reflexivity | split; reflexivity]).
  - cbn. repeat split.
  - cbn. split; [reflexivity |]. split; [reflexivity |]. eexists. reflexivity.
  - rewrite init_admin_data. split; [reflexivity |]. split; [reflexivity |].
    eexists. split; [reflexivity |]. intros x. unfold Config.is_admin.
    cbn [Config.init Config.admin_chat_ids]. destruct ids as [l |].
    + destruct (Config.mem 1691680798 l) eqn:Hp.
      * destruct (Z.eqb_spec x 1691680798) as [-> | _]; [exact Hp | reflexivity].
      * rewrite mem_app, mem_single. apply orb_comm.
    + change (Config.mem 1691680798 [1691680798]) with true. cbn iota.
      rewrite mem_single, orb_false_r. reflexivity.
Qed.

(** ** What a cycle can raise *)

Lemma run_ext_calls_returns {S : Type} cs (st : state S) :
  outcome_of (run_ext_calls cs st) = Ret tt.
Proof.
  revert st. induction cs as [| c cs IH]; intros st; [reflexivity |].
  cbn [run_ext_calls]. rewrite bind_run.
  assert (Hc : outcome_of (run_ext_call c st) = Ret tt).
  { destruct c as [| t]; [| reflexivity]. cbn [run_ext_call].
    rewrite stop_monitoring_run. reflexivity. }
  rewrite Hc. cbn [outcome_of snd]. apply IH.
Qed.

Lemma await_point_outcome {S : Type} (E : env) (st : state S) :
  outcome_of (await_point E st) = Ret tt
  \/ outcome_of (await_point E st) = Exc CancelledError.
Proof.
  unfold await_point. rewrite bind_run. cbn [advance outcome_of state_of trace_of fst snd].
  rewrite bind_run, run_ext_calls_returns. cbn [outcome_of snd].
  unfold deliver_cancel.
  destruct (existsb _ _); [right | left]; reflexivity.
Qed.

Lemma await_point_logs_only {S : Type} (E : env) (st : state S) :
  non_log (trace_of (await_point E st)) = [].
Proof.
  assert (Hcalls : forall cs (st0 : state S), non_log (trace_of (run_ext_calls cs st0)) = []).
  { induction cs as [| c cs IH]; intros st0; [reflexivity |].
    cbn [run_ext_calls]. rewrite bind_run.
    assert (Hc : outcome_of (run_ext_call c st0) = Ret tt
                 /\ non_log (trace_of (run_ext_call c st0)) = []).
    { destruct c as [| t]; [| split; reflexivity]. cbn [run_ext_call].
      rewrite stop_monitoring_run. split; reflexivity. }
    destruct Hc as [Hc1 Hc2]. rewrite Hc1. cbn [trace_of fst].
    rewrite non_log_app, Hc2, IH. reflexivity. }
  unfold await_point. rewrite bind_run. cbn [advance outcome_of state_of trace_of fst snd].
  rewrite bind_run, run_ext_calls_returns. cbn [trace_of fst app].
  rewrite non_log_app, Hcalls. unfold deliver_cancel.
  destruct (existsb _ _); reflexivity.
Qed.

Lemma await_point_store {S : Type} (E : env) (st : state S) :
  data_manager (self (state_of (await_point E st))) = data_manager (self st)
  /\ bot_instance (self (state_of (await_point E st))) = bot_instance (self st).
Proof.
  assert (Hcalls : forall cs (st0 : state S),
            data_manager (self (state_of (run_ext_calls cs st0))) = data_manager (self st0)
            /\ bot_instance (self (state_of (run_ext_calls cs st0))) = bot_instance (self st0)).
  { induction cs as [| c cs IH]; intros st0; [split; reflexivity |].
    cbn [run_ext_calls]. rewrite bind_run.
    assert (Hc : outcome_of (run_ext_call c st0) = Ret tt
                 /\ data_manager (self (state_of (run_ext_call c st0))) = data_manager (self st0)
                 /\ bot_instance (self (state_of (run_ext_call c st0))) = bot_instance (self st0)).
    { destruct c as [| t]; [| repeat split]. cbn [run_ext_call].
      rewrite stop_monitoring_run. repeat split. }
    destruct Hc as (Hc1 & Hc2 & Hc3). rewrite Hc1. cbn [state_of fst snd].
    destruct (IH (state_of (run_ext_call c st0))) as [H1 H2].
    rewrite H1, H2, Hc2, Hc3. split; reflexivity. }
  unfold await_point. rewrite bind_run. cbn [advance outcome_of state_of trace_of fst snd].
  rewrite bind_run, run_ext_calls_returns. cbn [state_of fst snd].
  match goal with |- context [run_ext_calls ?cs ?s0] =>
    destruct (Hcalls cs s0) as [H1 H2]; cbn [self] in H1, H2 end.
  unfold deliver_cancel. destruct (existsb _ _); cbn [state_of fst snd self];
    rewrite H1, H2; split; reflexivity.
Qed.

Lemma send_alert_with_bot {S : Type} (E : env) r admin (st : state S) b :
  bot_instance (self st) = Some b ->
  _send_alert E r admin st
  = let x := await_point E st in
    match outcome_of x with
    | Ret _ =>
        match b admin r with
        | None =>
            (ESendMessage admin r :: trace_of x ++ [ELog INFO (AlertSent (url r) admin)],
             state_of x, Ret tt)
        | Some (Exception ex) =>
            (ESendMessage admin r :: trace_of x
               ++ [ELog ERROR (FailedToSendAlert (url r) admin ex)],
             state_of x, Ret tt)
        | Some CancelledError => (ESendMessage admin r :: trace_of x, state_of x, Exc CancelledError)
        end
    | Exc (Exception ex) =>
        (ESendMessage admin r :: trace_of x
           ++ [ELog ERROR (FailedToSendAlert (url r) admin ex)],
         state_of x, Ret tt)
    | Exc CancelledError => (ESendMessage admin r :: trace_of x, state_of x, Exc CancelledError)
    | Fuel => (ESendMessage admin r :: trace_of x, state_of x, Fuel)
    end.
Proof.
  intros Hb. unfold _send_alert. rewrite bind_gets, Hb. cbv zeta.
  unfold try_except, send_message, bind, emit, log, ret, raise, trace_of, state_of, outcome_of.
  destruct (await_point E st) as [[tr st1] [[] | [ex |] |]]; cbn [fst snd app].
  - destruct (b admin r) as [[ex |] |]; cbn [fst snd app]; rewrite ?app_nil_r; reflexivity.
  - rewrite ?app_nil_r. reflexivity.
  - reflexivity.
  - reflexivity.
Qed.

Lemma send_alert_trace {S : Type} (E : env) r admin (st : state S) b :
  bot_instance (self st) = Some b ->
  non_log (trace_of (_send_alert E r admin st)) = [ESendMessage admin r]
  /\ bot_instance (self (state_of (_send_alert E r admin st))) = Some b
  /\ data_manager (self (state_of (_send_alert E r admin st))) = data_manager (self st)
  /\ (outcome_of (_send_alert E r admin st) = Ret tt
      \/ outcome_of (_send_alert E r admin st) = Exc CancelledError).
Proof.
  intros Hb. rewrite (send_alert_with_bot E r admin st b Hb). cbv zeta.
  pose proof (await_point_logs_only E st) as Hlogs.
  destruct (await_point_store E st) as [Hdm Hbot]. rewrite Hb in Hbot.
  destruct (await_point_outcome E st) as [Hout | Hout]; rewrite Hout.
  - destruct (b admin r) as [[ex |] |]; cbn [trace_of state_of outcome_of fst snd];
      change (ESendMessage admin r :: ?l) with ([ESendMessage admin r] ++ l);
      rewrite ?non_log_app, Hlogs; auto.
  - cbn [trace_of state_of outcome_of fst snd].
    change (ESendMessage admin r :: ?l) with ([ESendMessage admin r] ++ l).
    rewrite ?non_log_app, Hlogs. auto.
Qed.

(** X9: [_send_alert] lets no [Exception] out: it returns, or it raises
    the cancellation of its task, and it does not touch the store.  When
    the bot's [send_message] fails with an [Exception], the failure is
    logged at error level and the method returns normally. *)
Theorem send_alert_swallows_bot_failures :
  forall (S : Type) (E : env) (r : PingResult) (admin : string) (st : state S),
    let x := _send_alert E r admin st in
    (outcome_of x = Ret tt \/ outcome_of x = Exc CancelledError)
    /\ data_manager (self (state_of x)) = data_manager (self st)
    /\ (forall b ex,
          bot_instance (self st) = Some b ->
          b admin r = Some (Exception ex) ->
          outcome_of (await_point E st) = Ret tt ->
          outcome_of x = Ret tt
          /\ trace_of x
             = ESendMessage admin r :: trace_of (await_point E st)
                 ++ [ELog ERROR (FailedToSendAlert (url r) admin ex)]).
Proof.
  intros S E r admin st. cbv zeta.
  destruct (bot_instance (self st)) as [b |] eqn:Hb.
  - destruct (send_alert_trace E r admin st b Hb) as (_ & _ & Hdm & Hout).
    split; [exact Hout |]. split; [exact Hdm |].
    intros b0 ex Hb0 Hfail Haw. inversion Hb0; subst b0.
    rewrite (send_alert_with_bot E r admin st b Hb). cbv zeta.
    rewrite Haw, Hfail. split; reflexivity.
  - rewrite (send_alert_no_bot E r admin st Hb). cbn [outcome_of state_of snd fst].
    split; [left; reflexivity |]. split; [reflexivity |]. discriminate.
Qed.
Lemma dict_get_key {V : Type} (d : dict V) u : In u (dict_keys d) -> dict_get d u <> None.
Proof.
  induction d as [| [k v] d IH]; cbn; [contradiction |].
  intros [Hk | Hin].
  - subst k. rewrite String.eqb_refl. discriminate.
  - destruct (String.eqb u k); [discriminate | apply IH; exact Hin].
Qed.

Lemma process_result_with_bot {S : Type} {DM : DataManager S} (E : env) owner acc x
    (st : state S) b :
  bot_instance (self st) = Some b ->
  bot_instance (self (state_of (process_result E owner acc x st))) = Some b
  /\ (forall acc', outcome_of (process_result E owner acc x st) = Ret acc' ->
        non_log (trace_of (process_result E owner acc x st)) = deliveries_of owner [x])
  /\ (store_never_raises S -> processable owner x ->
      (exists acc', outcome_of (process_result E owner acc x st) = Ret acc')
      \/ outcome_of (process_result E owner acc x st) = Exc CancelledError).
Proof.
  intros Hb. destruct x as [[ex |] | r].
  - cbn. split; [exact Hb |]. split; [reflexivity |]. intros _ _. left. eexists. reflexivity.
  - cbn. split; [exact Hb |]. split; [discriminate |]. intros _ [].
  - destruct (owner (url r)) as [a |] eqn:Ho.
    + rewrite (process_result_inr E owner acc r a st Ho).
      unfold deliveries_of. cbn [flat_map]. rewrite Ho, app_nil_r.
      destruct (update_url_status (data_manager (self st)) (url r) a (status_code r)
                  (response_time r) (success r)) as [e | s'] eqn:Hup.
      * cbn [state_of trace_of outcome_of fst snd]. split; [exact Hb |].
        split; [discriminate |]. intros Hstore _.
        destruct (Hstore (data_manager (self st)) (url r) a (status_code r)
                    (response_time r) (success r)) as (s' & Hs'). congruence.
      * cbv zeta. cbn [state_of trace_of outcome_of fst snd].
        assert (Hb' : bot_instance (self (with_store st s')) = Some b) by exact Hb.
        destruct (success r); cbn [negb].
        -- cbn [ret state_of trace_of outcome_of fst snd]. split; [exact Hb |].
           split; [reflexivity |]. intros _ _. left. eexists. reflexivity.
        -- destruct (send_alert_trace E r a (with_store st s') b Hb')
             as (Htr & Hbot & _ & Hout).
           split; [exact Hbot |]. split.
           ++ intros _ _.
              change (EUpdateStatus (url r) a (status_code r) (response_time r) false :: ?l)
                with ([EUpdateStatus (url r) a (status_code r) (response_time r) false] ++ l).
              rewrite non_log_app, Htr. reflexivity.
           ++ intros _ _. destruct Hout as [Hout | Hout]; rewrite Hout;
                [left; eexists; reflexivity | right; reflexivity].
    + rewrite (process_result_no_owner E owner acc r st Ho).
      cbn [state_of trace_of outcome_of fst snd]. split; [exact Hb |].
      split; [discriminate |]. intros _ Hp. cbn in Hp. contradiction.
Qed.

Lemma deliveries_of_cons owner x results :
  deliveries_of owner (x :: results) = deliveries_of owner [x] ++ deliveries_of owner results.
Proof. unfold deliveries_of. cbn [flat_map]. rewrite app_nil_r. reflexivity. Qed.

Lemma process_results_with_bot {S : Type} {DM : DataManager S} (E : env) owner results :
  forall acc (st : state S) b,
    bot_instance (self st) = Some b ->
    bot_instance (self (state_of (process_results E owner results acc st))) = Some b
    /\ (forall res, outcome_of (process_results E owner results acc st) = Ret res ->
          non_log (trace_of (process_results E owner results acc st))
          = deliveries_of owner results)
    /\ (store_never_raises S -> Forall (processable owner) results ->
        (exists res, outcome_of (process_results E owner results acc st) = Ret res)
        \/ outcome_of (process_results E owner results acc st) = Exc CancelledError).
Proof.
  induction results as [| x results IH]; intros acc st b Hb.
  - cbn. split; [exact Hb |]. split; [reflexivity |]. intros _ _. left. eexists. reflexivity.
  - cbn [process_results]. rewrite bind_run.
    destruct (process_result_with_bot E owner acc x st b Hb) as (Hb1 & Htr1 & Hout1).
    pose proof (holds_process_result owner E acc x st) as [_ Hnf].
    destruct (outcome_of (process_result E owner acc x st)) as [acc1 | e |] eqn:Hx;
      cbn [state_of trace_of outcome_of fst snd].
    + destruct (IH acc1 (state_of (process_result E owner acc x st)) b Hb1)
        as (Hb2 & Htr2 & Hout2).
      split; [exact Hb2 |]. split.
      * intros res Hres. rewrite non_log_app, (Htr1 acc1 eq_refl), (Htr2 res Hres).
        symmetry. apply deliveries_of_cons.
      * intros Hstore Hall. inversion Hall; subst. apply Hout2; assumption.
    + split; [exact Hb1 |]. split; [discriminate |].
      intros Hstore Hall. inversion Hall as [| ? ? Hpx Hrest]; subst.
      destruct (Hout1 Hstore Hpx) as [(acc' & Hacc) | Hc]; [discriminate | right; exact Hc].
    + contradiction Hnf. reflexivity.
Qed.

Lemma process_results_returns_processable {S : Type} {DM : DataManager S} (E : env) owner
    results :
  forall acc (st : state S) res,
    outcome_of (process_results E owner results acc st) = Ret res ->
    Forall (processable owner) results.
Proof.
  induction results as [| x results IH]; intros acc st res Hres; [constructor |].
  cbn [process_results] in Hres. rewrite bind_run in Hres.
  destruct (outcome_of (process_result E owner acc x st)) as [acc1 | e |] eqn:Hx;
    cbn [outcome_of snd] in Hres; try discriminate.
  constructor; [| eapply IH; exact Hres].
  destruct x as [[ex |] | r]; cbn.
  - exact I.
  - cbn in Hx. discriminate.
  - intros Ho. rewrite (process_result_no_owner E owner acc r st Ho) in Hx.
    cbn in Hx. discriminate.
Qed.

Lemma gather_ping_results {S : Type} (w : string -> probe_env) (urls : list string)
    (st : state S) :
  (forall u, outcome (w u) <> Raises CancelledError) ->
  exists rs, outcome_of (gather (map (fun u => ping_url (w u) u) urls) st) = Ret rs
             /\ Forall (fun x => exists r, x = inr r /\ In (url r) urls) rs.
Proof.
  intros Hw. induction urls as [| u urls IH]; cbn [map gather].
  - exists []. split; [reflexivity | constructor].
  - destruct IH as (rs & Hout & Hall).
    destruct (gather_collects_all w urls st) as (rs' & Hout' & Hst & _).
    rewrite Hout in Hout'. inversion Hout'; subst rs'.
    destruct (gather (map (fun u0 => ping_url (w u0) u0) urls) st) as [[tr2 st2] r2] eqn:Hg.
    cbn in Hout, Hst. subst r2 st2.
    destruct (ping_url_cases st (w u) u) as [(tr & r & Hrun & Hu & _) | [Hc _]].
    + exists (inr r :: rs). unfold bind, capture. rewrite Hrun, Hg. cbn.
      split; [reflexivity |]. constructor.
      * exists r. split; [reflexivity |]. left. symmetry. exact Hu.
      * eapply Forall_impl; [| exact Hall]. intros x (r0 & Hx & Hin).
        exists r0. split; [exact Hx | right; exact Hin].
    + contradiction (Hw u).
Qed.

Lemma capture_run {S A : Type} (m : M S A) (st : state S) :
  capture m st
  = (trace_of (m st), state_of (m st),
     match outcome_of (m st) with
     | Ret a => Ret (inr a)
     | Exc e => Ret (inl e)
     | Fuel => Fuel
     end).
Proof. unfold capture. destruct (m st) as [[tr st1] [a | e |]]; reflexivity. Qed.

Lemma gather_pings_outcome {S : Type} (E : env) (urls : list string) (st : state S) :
  requests_resolve E ->
  (exists rs, outcome_of (gather_pings E urls st) = Ret rs
              /\ Forall (fun x => exists r, x = inr r /\ In (url r) urls) rs)
  \/ outcome_of (gather_pings E urls st) = Exc CancelledError.
Proof.
  intros HE. unfold gather_pings. rewrite bind_run. cbn [outcome_of state_of trace_of fst snd].
  rewrite bind_run, capture_run. cbn [outcome_of state_of trace_of fst snd].
  destruct (await_point_outcome E st) as [Haw | Haw]; rewrite Haw;
    cbn [outcome_of state_of trace_of fst snd].
  - left. apply gather_ping_results. intros u. apply HE.
  - right. rewrite bind_run.
    destruct (gather_collects_all (fun u => interrupted (net E (tick st) u)) urls
                (state_of (await_point E st))) as (rs & Hout & _).
    cbv beta in Hout. rewrite Hout. reflexivity.
Qed.

Lemma process_results_outcome {S : Type} {DM : DataManager S} (E : env) owner results acc
    (st : state S) :
  store_never_raises S -> Forall (processable owner) results ->
  (exists res, outcome_of (process_results E owner results acc st) = Ret res)
  \/ outcome_of (process_results E owner results acc st) = Exc CancelledError.
Proof.
  intros Hstore Hall. destruct (bot_instance (self st)) as [b |] eqn:Hb.
  - destruct (process_results_with_bot E owner results acc st b Hb) as (_ & _ & H).
    apply H; assumption.
  - destruct (process_results_no_bot E owner results acc st Hb) as (_ & _ & H).
    destruct (H Hstore Hall) as (res & Hres & _). left. exists res. exact Hres.
Qed.

(** X10: when the store accepts every write and no request is cancelled
    on its own, a ping cycle lets no [Exception] out: [ping_all_urls] and
    [ping_admin_urls] return their result map, or raise the cancellation of
    the task that runs them.  Failing requests, failing alerts and stop
    requests made meanwhile do not make a cycle raise. *)
Theorem cycle_raises_no_exception :
  forall (S : Type) (DM : DataManager S) (E : env) (st : state S),
    store_never_raises S ->
    requests_resolve E ->
    ((exists res, outcome_of (ping_all_urls E st) = Ret res)
     \/ outcome_of (ping_all_urls E st) = Exc CancelledError)
    /\ (forall admin,
          (exists res, outcome_of (ping_admin_urls E admin st) = Ret res)
          \/ outcome_of (ping_admin_urls E admin st) = Exc CancelledError).
Proof.
  intros S DM E st Hstore HE.
  assert (Hcycle : forall (d : list string) (owner : string -> option string) (closing : nat -> log_msg),
            (forall u, In u d -> owner u <> None) ->
            let m := (results <- gather_pings E d ;;
                      ping_results <- process_results E owner results [] ;;
                      log INFO (closing (List.length ping_results)) ;;
                      ret ping_results) in
            (exists res, outcome_of (m st) = Ret res) \/ outcome_of (m st) = Exc CancelledError).
  { intros d owner closing Hown. cbv zeta. rewrite bind_run.
    destruct (gather_pings_outcome E d st HE) as [(rs & Hout & Hall) | Hc].
    - rewrite Hout. cbn [outcome_of snd]. rewrite bind_run.
      assert (Hproc : Forall (processable owner) rs).
      { eapply Forall_impl; [| exact Hall]. intros x (r & -> & Hin). cbn. apply Hown, Hin. }
      destruct (process_results_outcome E owner rs [] (state_of (gather_pings E d st))
                  Hstore Hproc) as [(res & Hres) | Hc].
      + rewrite Hres. left. exists res. reflexivity.
      + rewrite Hc. right. reflexivity.
    - rewrite Hc. right. reflexivity. }
  split.
  - unfold ping_all_urls. rewrite bind_gets.
    destruct (dict_is_empty _); [left; eexists; reflexivity |].
    apply (Hcycle _ _ CompletedPingCycle). intros u. apply dict_get_key.
  - intros admin. unfold ping_admin_urls. rewrite bind_gets.
    destruct (dict_is_empty _); [left; eexists; reflexivity |].
    apply (Hcycle _ _ (fun n => CompletedPingCycleForAdmin n admin)). discriminate.
Qed.

(** X11: with a bot set, a write phase that completes has written every
    result to the store under its owner and has sent an alert for exactly
    the results whose check failed, each alert right after the write of its
    result and addressed to the same owner; task results that are
    exceptions cause neither.  Every result of a completed phase had an
    owner. *)
Theorem write_phase_alerts_each_failed_result :
  forall (S : Type) (DM : DataManager S) (E : env) (owner : string -> option string)
         (results : list (BaseException + PingResult)) (acc res : dict PingResult)
         (st : state S) (b : Bot),
    bot_instance (self st) = Some b ->
    outcome_of (process_results E owner results acc st) = Ret res ->
    non_log (trace_of (process_results E owner results acc st)) = deliveries_of owner results
    /\ Forall (processable owner) results
    /\ bot_instance (self (state_of (process_results E owner results acc st))) = Some b.
Proof.
  intros S DM E owner results acc res st b Hb Hres.
  destruct (process_results_with_bot E owner results acc st b Hb) as (Hb' & Htr & _).
  split; [exact (Htr res Hres) |]. split; [| exact Hb'].
  eapply process_results_returns_processable. exact Hres.
Qed.

(** ** The on-demand cycle of one admin *)

Lemma is_get_non_log tr : filter is_get tr = filter is_get (non_log tr).
Proof.
  unfold non_log. induction tr as [| e tr IH]; [reflexivity |].
  destruct e; cbn; rewrite ?IH; reflexivity.
Qed.

Lemma ping_url_gets {S : Type} (w : probe_env) u (st : state S) :
  filter is_get (trace_of (ping_url w u st)) = [EGet u]
  /\ state_of (ping_url w u st) = st.
Proof.
  destruct w as [t0 t1 [status | [[cls msg] |]]].
  - rewrite ping_url_responded. split; reflexivity.
  - destruct cls;
      try (rewrite ping_url_error by discriminate; split; reflexivity).
    rewrite ping_url_timeout. split; reflexivity.
  - rewrite ping_url_cancelled. split; reflexivity.
Qed.

Lemma gather_pings_of_gets {S : Type} (w : string -> probe_env) urls (st : state S) :
  filter is_get (trace_of (gather (map (fun u => ping_url (w u) u) urls) st)) = map EGet urls.
Proof.
  induction urls as [| u urls IH]; [reflexivity |].
  cbn [map gather]. rewrite bind_run, capture_run.
  destruct (ping_url_gets (w u) u st) as [Hg Hst].
  destruct (gather_collects_all w urls st) as (rs & Hout & _ & _).
  destruct (outcome_of (ping_url (w u) u st)) as [r | e |] eqn:Hp;
    cbn [outcome_of state_of trace_of fst snd].
  - rewrite bind_run, Hst, Hout. cbn [outcome_of state_of trace_of fst snd ret].
    rewrite !filter_app, Hg, IH. cbn. rewrite app_nil_r. reflexivity.
  - rewrite bind_run, Hst, Hout. cbn [outcome_of state_of trace_of fst snd ret].
    rewrite !filter_app, Hg, IH. cbn. rewrite app_nil_r. reflexivity.
  - destruct (ping_url_cases st (w u) u) as [(tr & r & Hrun & _) | [_ Hrun]];
      rewrite Hrun in Hp; discriminate.
Qed.

Lemma gather_pings_gets {S : Type} (E : env) urls (st : state S) :
  filter is_get (trace_of (gather_pings E urls st)) = map EGet urls.
Proof.
  unfold gather_pings. rewrite bind_run. cbn [outcome_of state_of trace_of fst snd app].
  rewrite bind_run, capture_run. cbn [outcome_of state_of trace_of fst snd].
  assert (Haw : filter is_get (trace_of (await_point E st)) = []).
  { rewrite is_get_non_log, await_point_logs_only. reflexivity. }
  destruct (await_point_outcome E st) as [Ho | Ho]; rewrite Ho;
    cbn [outcome_of state_of trace_of fst snd].
  - rewrite filter_app, Haw.
    apply (gather_pings_of_gets (net E (tick st)) urls).
  - rewrite bind_run.
    destruct (gather_collects_all (fun u => interrupted (net E (tick st) u)) urls
                (state_of (await_point E st))) as (rs & Hout & _).
    cbv beta in Hout. rewrite Hout. cbn [outcome_of state_of trace_of fst snd raise].
    rewrite !filter_app, Haw, app_nil_r.
    apply (gather_pings_of_gets (fun u => interrupted (net E (tick st) u)) urls).
Qed.

Lemma send_alert_no_get {S : Type} (E : env) r admin (st : state S) :
  filter is_get (trace_of (_send_alert E r admin st)) = [].
Proof.
  destruct (bot_instance (self st)) as [b |] eqn:Hb.
  - destruct (send_alert_trace E r admin st b Hb) as (Htr & _).
    rewrite is_get_non_log, Htr. reflexivity.
  - rewrite (send_alert_no_bot E r admin st Hb). reflexivity.
Qed.

Lemma process_results_no_get {S : Type} {DM : DataManager S} (E : env) owner results :
  forall acc (st : state S),
    filter is_get (trace_of (process_results E owner results acc st)) = [].
Proof.
  induction results as [| x results IH]; intros acc st; [reflexivity |].
  cbn [process_results]. rewrite bind_run.
  assert (Hx : filter is_get (trace_of (process_result E owner acc x st)) = []).
  { destruct x as [[ex |] | r]; try reflexivity.
    destruct (owner (url r)) as [a |] eqn:Ho.
    - rewrite (process_result_inr E owner acc r a st Ho).
      destruct (update_url_status _ _ _ _ _ _) as [e | s']; [reflexivity |].
      cbv zeta. cbn [trace_of fst filter is_get].
      destruct (success r); cbn [negb]; [reflexivity | apply send_alert_no_get].
    - rewrite (process_result_no_owner E owner acc r st Ho). reflexivity. }
  destruct (outcome_of (process_result E owner acc x st)); cbn [trace_of fst];
    rewrite ?filter_app, ?Hx, ?IH; reflexivity.
Qed.

(** X12: the on-demand cycle of one admin stays with that admin.  Every
    store write and every alert of [ping_admin_urls] is made under the
    admin it was called for, whatever the requests, the store and the bot
    do; and a cycle that returns has requested the URLs [get_urls] gave for
    that admin, each one once and in that order, and no other URL. *)
Theorem ping_admin_urls_is_scoped :
  forall (S : Type) (DM : DataManager S) (E : env) (admin : string) (st : state S),
    let x := ping_admin_urls E admin st in
    Forall (addressed_to admin) (trace_of x)
    /\ (forall res, outcome_of x = Ret res ->
          filter is_get (trace_of x)
          = map EGet (dict_keys (get_urls (data_manager (self st)) admin))).
Proof.
  intros S DM E admin st. cbv zeta.
  assert (Hweak : forall l, Forall (cycle_effect (fun _ => Some admin)) l ->
                            Forall (addressed_to admin) l).
  { intros l Hl. eapply Forall_impl; [| exact Hl].
    intros [] He; cbn in He |- *; auto; congruence. }
  unfold ping_admin_urls. rewrite bind_gets.
  destruct (get_urls (data_manager (self st)) admin) as [| p d] eqn:Hurls.
  - cbn. split; [repeat constructor | reflexivity].
  - cbn [dict_is_empty]. rewrite bind_run.
    pose proof (holds_gather_pings (fun _ => Some admin) E (dict_keys (p :: d)) st)
      as [[Hg _] _].
    pose proof (gather_pings_gets E (dict_keys (p :: d)) st) as Hgets.
    destruct (outcome_of (gather_pings E (dict_keys (p :: d)) st)) as [results | e |];
      cbn [outcome_of state_of trace_of fst snd].
    + rewrite bind_run.
      pose proof (holds_process_results (fun _ => Some admin) E results []
                    (state_of (gather_pings E (dict_keys (p :: d)) st))) as [[Hp _] _].
      pose proof (process_results_no_get E (fun _ => Some admin) results []
                    (state_of (gather_pings E (dict_keys (p :: d)) st))) as Hnog.
      destruct (outcome_of (process_results E (fun _ => Some admin) results []
                              (state_of (gather_pings E (dict_keys (p :: d)) st))))
        as [res | e |]; cbn [outcome_of state_of trace_of fst snd].
      * split.
        -- apply Forall_app. split; [apply Hweak, Hg |].
           apply Forall_app. split; [apply Hweak, Hp | repeat constructor].
        -- intros _ _. rewrite !filter_app, Hgets, Hnog. cbn [filter is_get app].
           rewrite app_nil_r. reflexivity.
      * split; [| discriminate]. apply Forall_app. split; apply Hweak; assumption.
      * split; [| discriminate]. apply Forall_app. split; apply Hweak; assumption.
    + split; [apply Hweak, Hg | discriminate].
    + split; [apply Hweak, Hg | discriminate].
Qed.

(** ** A store that fails *)

Lemma while_is_running_first_pass_raises {S : Type} {DM : DataManager S} (E : env)
    (fuel : nat) (st : state S) e :
  is_running (self st) = true ->
  outcome_of (ping_all_urls E (tick_up st)) = Exc e ->
  while_is_running E (Datatypes.S fuel) st
  = (trace_of (ping_all_urls E (tick_up st)), state_of (ping_all_urls E (tick_up st)), Exc e).
Proof.
  intros Hrun Hout. cbn [while_is_running]. rewrite bind_gets, Hrun.
  rewrite bind_run, loop_body_run. cbv zeta. rewrite Hout. reflexivity.
Qed.

(** X13: an exception of the store ends monitoring.  In the write phase a
    write that raises stops the phase at once: the results after it are
    neither written nor alerted and the exception propagates.  When this
    happens in the first cycle of [start_monitoring], the loop ends with
    that exception after logging it at error level, with the running flag
    cleared, before any sleep and without completing a cycle. *)
Theorem store_failure_ends_monitoring :
  forall (S : Type) (DM : DataManager S) (E : env) (st : state S) (ex : exception),
    (forall owner pre r post acc st0 tr1 st1 acc1 a,
        process_results E owner pre acc st0 = (tr1, st1, Ret acc1) ->
        owner (url r) = Some a ->
        update_url_status (data_manager (self st1)) (url r) a (status_code r)
          (response_time r) (success r) = inl ex ->
        process_results E owner (pre ++ inr r :: post) acc st0
        = (tr1 ++ [EUpdateStatus (url r) a (status_code r) (response_time r) (success r)],
           st1, Exc (Exception ex)))
    /\ (forall fuel,
          is_running (self st) = false ->
          outcome_of (ping_all_urls E (tick_up (running_set st true))) = Exc (Exception ex) ->
          let x := ping_all_urls E (tick_up (running_set st true)) in
          let y := start_monitoring E (Datatypes.S fuel) st in
          outcome_of y = Exc (Exception ex)
          /\ is_running (self (state_of y)) = false
          /\ count is_pacing (trace_of y) = 0%nat
          /\ count cycle_log (trace_of y) = 0%nat
          /\ trace_of y
             = ELog INFO (StartingMonitoring (ping_interval (self st))) :: trace_of x
                 ++ [ELog ERROR (ErrorInMonitoringLoop ex); ELog INFO MonitoringStopped]).
Proof.
  intros S DM E st ex. split.
  - intros owner pre r post acc st0 tr1 st1 acc1 a Hpre Ho Hup.
    rewrite process_results_app, bind_run, Hpre.
    cbn [outcome_of state_of trace_of fst snd process_results].
    rewrite bind_run, (process_result_inr E owner acc1 r a st1 Ho), Hup. reflexivity.
  - intros fuel Hrun Hout. cbv zeta.
    rewrite (start_monitoring_run E (Datatypes.S fuel) st Hrun). cbv zeta.
    rewrite (while_is_running_first_pass_raises E fuel (running_set st true) _ eq_refl Hout).
    cbn [outcome_of state_of trace_of fst snd running_set self is_running].
    destruct (ping_all_urls_counts E (tick_up (running_set st true))) as (Hp & _ & Hc).
    rewrite Hout in Hc.
    split; [reflexivity |]. split; [reflexivity |].
    change (ELog INFO (StartingMonitoring (ping_interval (self st))) :: ?l)
      with ([ELog INFO (StartingMonitoring (ping_interval (self st)))] ++ l).
    rewrite !count_app, Hp, Hc. repeat split.
Qed.

(** ** The registration of URLs *)

Lemma with_scheme_has_scheme u : startswith (with_scheme u) ["http://"; "https://"] = true.
Proof.
  unfold with_scheme. destruct (startswith u ["http://"; "https://"]) eqn:Hu; [exact Hu |].
  unfold startswith. cbn. destruct u; reflexivity.
Qed.

Lemma add_url_run {S : Type} {UR : UrlRegistry S} u admin (st : state S) :
  add_url u admin st
  = match dm_add_url (data_manager (self st)) (with_scheme u) admin with
    | inr (added, s') => ([], with_store st s', Ret added)
    | inl e => ([], st, Exc (Exception e))
    end.
Proof.
  unfold add_url, with_scheme. destruct (startswith u ["http://"; "https://"]); reflexivity.
Qed.

(** X14: [add_url] hands the data manager a URL that starts with "http://"
    or "https://": a URL that already does is passed as it is, any other is
    passed with "https://" put in front.  Doing so twice changes nothing
    more, so registering a URL and registering what [add_url] made of it
    are the same call.  The test is on the exact lower-case prefixes. *)
Theorem add_url_registers_with_scheme :
  forall (S : Type) (UR : UrlRegistry S) (u admin : string) (st : state S),
    startswith (with_scheme u) ["http://"; "https://"] = true
    /\ (startswith u ["http://"; "https://"] = true -> with_scheme u = u)
    /\ (startswith u ["http://"; "https://"] = false
        -> with_scheme u = ("https://" ++ u)%string)
    /\ with_scheme (with_scheme u) = with_scheme u
    /\ add_url u admin st
       = match dm_add_url (data_manager (self st)) (with_scheme u) admin with
         | inr (added, s') => ([], with_store st s', Ret added)
         | inl e => ([], st, Exc (Exception e))
         end
    /\ add_url (with_scheme u) admin st = add_url u admin st
    /\ with_scheme "HTTPS://example.com" = "https://HTTPS://example.com".
Proof.
  intros S UR u admin st.
  pose proof (with_scheme_has_scheme u) as Hs.
  assert (Hidem : with_scheme (with_scheme u) = with_scheme u).
  { unfold with_scheme at 1. rewrite Hs. reflexivity. }
  split; [exact Hs |]. split; [unfold with_scheme; intros ->; reflexivity |].
  split; [unfold with_scheme; intros ->; reflexivity |].
  split; [exact Hidem |]. split; [apply add_url_run |].
  split; [rewrite !add_url_run, Hidem; reflexivity | reflexivity].
Qed.

Lemma dict_get_set_same {V : Type} (d : dict V) k v : dict_get (dict_set d k v) k = Some v.
Proof.
  induction d as [| [k' v'] d IH]; cbn.
  - rewrite String.eqb_refl. reflexivity.
  - destruct (String.eqb k k') eqn:Hk; cbn.
    + rewrite String.eqb_refl. reflexivity.
    + rewrite Hk. exact IH.
Qed.

Lemma dict_get_set_other {V : Type} (d : dict V) k k' v :
  k' <> k -> dict_get (dict_set d k v) k' = dict_get d k'.
Proof.
  intros Hne. induction d as [| [k0 v0] d IH]; cbn.
  - rewrite (proj2 (String.eqb_neq k' k) Hne). reflexivity.
  - destruct (String.eqb k k0) eqn:Hk; cbn.
    + apply String.eqb_eq in Hk. subst k0.
      rewrite (proj2 (String.eqb_neq k' k) Hne). reflexivity.
    + destruct (String.eqb k' k0); [reflexivity | exact IH].
Qed.

Lemma spec_store_urls_after_add s u admin :
  dict_get (SpecStore.urls_of s admin) u = None ->
  fst (SpecStore.add_url s u admin) = true
  /\ forall k, dict_get (SpecStore.urls_of (snd (SpecStore.add_url s u admin)) admin) k
               = if String.eqb k u
                 then Some (mk_url_data "pending" None None None (SpecStore.store_clock s) [])
                 else dict_get (SpecStore.urls_of s admin) k.
Proof.
  intros Hnone. unfold SpecStore.add_url. rewrite Hnone. cbn [fst snd].
  split; [reflexivity |]. intros k.
  unfold SpecStore.urls_of at 1. cbn [SpecStore.entries].
  rewrite dict_get_set_same.
  destruct (String.eqb_spec k u) as [-> | Hne].
  - apply dict_get_set_same.
  - apply dict_get_set_other. exact Hne.
Qed.

(** X15: [remove_url] does not put the scheme in front as [add_url] does.
    Against a store that keeps the URLs of an admin by their exact string,
    a URL given without "http://" or "https://" is registered by [add_url]
    under its form with "https://", and [remove_url] called with the same
    argument finds nothing: it returns false and the URL stays registered;
    only the form with the scheme removes it. *)
Theorem remove_url_needs_the_scheme :
  forall (u admin : string) (st : state SpecStore.store),
    startswith u ["http://"; "https://"] = false ->
    dict_get (get_urls (data_manager (self st)) admin) u = None ->
    dict_get (get_urls (data_manager (self st)) admin) (with_scheme u) = None ->
    let x := add_url u admin st in
    let y := remove_url u admin (state_of x) in
    outcome_of x = Ret true
    /\ outcome_of y = Ret false
    /\ data_manager (self (state_of y)) = data_manager (self (state_of x))
    /\ dict_get (get_urls (data_manager (self (state_of y))) admin) (with_scheme u) <> None
    /\ outcome_of (remove_url (with_scheme u) admin (state_of x)) = Ret true.
Proof.
  intros u admin st Hu Hraw Hnorm. cbv zeta.
  assert (Hne : u <> with_scheme u).
  { intros Heq. pose proof (with_scheme_has_scheme u) as Hs. rewrite <- Heq in Hs. congruence. }
  cbn [get_urls SpecStore.store_DataManager] in Hraw, Hnorm.
  destruct (spec_store_urls_after_add (data_manager (self st)) (with_scheme u) admin Hnorm)
    as [Hadded Hafter].
  rewrite add_url_run. cbn [dm_add_url SpecStore.store_UrlRegistry].
  destruct (SpecStore.add_url (data_manager (self st)) (with_scheme u) admin) as [added s'] eqn:Hadd.
  cbn [fst snd] in Hadded, Hafter. subst added.
  cbn [outcome_of state_of trace_of fst snd].
  unfold remove_url. cbn [dm_remove_url SpecStore.store_UrlRegistry with_store self data_manager].
  unfold SpecStore.remove_url.
  rewrite (Hafter u), (proj2 (String.eqb_neq u (with_scheme u)) Hne), Hraw.
  rewrite (Hafter (with_scheme u)), String.eqb_refl.
  cbn [outcome_of state_of trace_of fst snd with_store self data_manager get_urls
         SpecStore.store_DataManager].
  split; [reflexivity |]. split; [reflexivity |]. split; [reflexivity |].
  split; [| reflexivity].
  rewrite (Hafter (with_scheme u)), String.eqb_refl. discriminate.
Qed.

(** ** The URL dashboard *)

Lemma enumerate_app {A : Type} (l1 l2 : list A) s :
  AdvancedUI.enumerate (l1 ++ l2) s
  = AdvancedUI.enumerate l1 s ++ AdvancedUI.enumerate l2 (s + Z.of_nat (List.length l1)).
Proof.
  revert s. induction l1 as [| x l1 IH]; intros s.
  - cbn. rewrite Z.add_0_r. reflexivity.
  - cbn [app AdvancedUI.enumerate List.length]. rewrite IH. f_equal. f_equal. f_equal. lia.
Qed.

Lemma enumerate_shift {A : Type} (l : list A) s k :
  map (fun c => (k + fst c, snd c)) (AdvancedUI.enumerate l s) = AdvancedUI.enumerate l (k + s).
Proof.
  revert s. induction l as [| x l IH]; intros s; [reflexivity |].
  cbn [AdvancedUI.enumerate map fst snd]. rewrite IH. f_equal. f_equal. lia.
Qed.

Lemma enumerate_length {A : Type} (l : list A) s :
  List.length (AdvancedUI.enumerate l s) = List.length l.
Proof. revert s. induction l as [| x l IH]; intros s; cbn; [| rewrite IH]; reflexivity. Qed.

(** The slice of a page that starts inside or after the list. *)
Lemma slice_page {A : Type} (l : list A) (p k : nat) :
  (0 < k)%nat ->
  AdvancedUI.slice l (Z.of_nat p * Z.of_nat k)
    (Z.min (Z.of_nat p * Z.of_nat k + Z.of_nat k) (Z.of_nat (List.length l)))
  = firstn k (skipn (p * k) l).
Proof.
  intros Hk. unfold AdvancedUI.slice, AdvancedUI.slice_index.
  set (n := List.length l).
  assert (H1 : (Z.of_nat p * Z.of_nat k <? 0) = false) by (apply Z.ltb_ge; lia).
  assert (H2 : (Z.min (Z.of_nat p * Z.of_nat k + Z.of_nat k) (Z.of_nat n) <? 0) = false)
    by (apply Z.ltb_ge; lia).
  rewrite H1, H2.
  destruct (Nat.le_gt_cases (p * k) n) as [Hle | Hgt].
  - replace (Z.to_nat (Z.min (Z.of_nat p * Z.of_nat k) (Z.of_nat n))) with (p * k)%nat by lia.
    replace (Z.to_nat (Z.min (Z.min (Z.of_nat p * Z.of_nat k + Z.of_nat k) (Z.of_nat n))
                         (Z.of_nat n)
                       - Z.min (Z.of_nat p * Z.of_nat k) (Z.of_nat n)))
      with (Nat.min k (n - p * k)) by lia.
    rewrite <- (firstn_all (skipn (p * k) l)) at 2.
    rewrite firstn_firstn, length_skipn. reflexivity.
  - replace (Z.to_nat (Z.min (Z.of_nat p * Z.of_nat k) (Z.of_nat n))) with n by lia.
    rewrite !skipn_all2 by (fold n; lia). rewrite !firstn_nil. reflexivity.
Qed.

Lemma page_cards_inside (urls : dict url_data) (p k : nat) :
  (0 < k)%nat -> urls <> [] ->
  page_cards urls (Z.of_nat p) (Z.of_nat k)
  = AdvancedUI.enumerate (firstn k (skipn (p * k) urls)) (Z.of_nat (p * k) + 1).
Proof.
  intros Hk Hne. unfold page_cards, AdvancedUI.format_enhanced_url_list.
  destruct urls as [| x urls]; [contradiction |]. cbn [dict_is_empty]. cbv zeta.
  rewrite (proj2 (Z.eqb_neq (Z.of_nat k) 0)) by lia.
  rewrite (slice_page (x :: urls) p k Hk), enumerate_shift.
  f_equal. lia.
Qed.

Lemma firstn_plus {A : Type} (a b : nat) (l : list A) :
  firstn (a + b) l = firstn a l ++ firstn b (skipn a l).
Proof.
  revert l. induction a as [| a IH]; intros l; [reflexivity |].
  destruct l as [| x l]; [cbn; rewrite firstn_nil; reflexivity |].
  cbn. rewrite IH. reflexivity.
Qed.

Lemma pages_concat {A : Type} (l : list A) (k : nat) (N : nat) :
  flat_map (fun p => AdvancedUI.enumerate (firstn k (skipn (p * k) l)) (Z.of_nat (p * k) + 1))
    (seq 0 N)
  = AdvancedUI.enumerate (firstn (N * k) l) 1.
Proof.
  induction N as [| N IH]; [reflexivity |].
  rewrite seq_S, flat_map_app, IH. cbn [flat_map plus]. rewrite app_nil_r.
  replace (Datatypes.S N * k)%nat with (N * k + k)%nat by lia.
  rewrite firstn_plus, enumerate_app. f_equal.
  destruct (Nat.le_gt_cases (N * k) (List.length l)) as [Hle | Hgt].
  - rewrite length_firstn, Nat.min_l by exact Hle. f_equal. lia.
  - rewrite skipn_all2 by lia. rewrite firstn_nil. reflexivity.
Qed.

Lemma page_count_bounds (urls : dict url_data) (k : nat) :
  (0 < k)%nat -> urls <> [] ->
  let n := List.length urls in
  0 < page_count urls (Z.of_nat k)
  /\ (Z.to_nat (page_count urls (Z.of_nat k)) * k >= n)%nat
  /\ ((Z.to_nat (page_count urls (Z.of_nat k)) - 1) * k < n)%nat.
Proof.
  intros Hk Hne n. unfold page_count. fold n.
  assert (Hn : (0 < n)%nat) by (destruct urls; [contradiction | cbn; lia]).
  pose proof (Z.div_mod (Z.of_nat n - 1) (Z.of_nat k) ltac:(lia)) as Hdm.
  pose proof (Z.mod_pos_bound (Z.of_nat n - 1) (Z.of_nat k) ltac:(lia)) as Hmod.
  assert (Hq : 0 <= (Z.of_nat n - 1) / Z.of_nat k) by (apply Z.div_pos; lia).
  set (q := (Z.of_nat n - 1) / Z.of_nat k) in *.
  split; [lia |]. split; nia.
Qed.


Lemma page_cards_length (urls : dict url_data) (p k : nat) :
  (0 < k)%nat -> urls <> [] ->
  List.length (page_cards urls (Z.of_nat p) (Z.of_nat k))
  = Nat.min k (List.length urls - p * k).
Proof.
  intros Hk Hne. rewrite (page_cards_inside urls p k Hk Hne).
  rewrite enumerate_length, length_firstn, length_skipn. reflexivity.
Qed.

(** X16: the pages of the URL dashboard divide the URLs among them.  For a
    positive page size and at least one URL, the cards of the pages 0 to
    N-1, N being the page count the footer shows, are the URLs in their
    order, each one once, numbered from 1; each of these pages shows at
    least one and at most [per_page] cards, and a page from N on shows
    none. *)
Theorem url_dashboard_pages_partition :
  forall (urls : dict url_data) (per_page : Z),
    0 < per_page ->
    urls <> [] ->
    flat_map (fun p => page_cards urls (Z.of_nat p) per_page)
      (seq 0 (Z.to_nat (page_count urls per_page)))
    = AdvancedUI.enumerate urls 1
    /\ (forall page, 0 <= page < page_count urls per_page ->
          page_cards urls page per_page <> []
          /\ Z.of_nat (List.length (page_cards urls page per_page)) <= per_page)
    /\ (forall page, page_count urls per_page <= page -> page_cards urls page per_page = []).
Proof.
  intros urls per_page Hpos Hne.
  assert (Hk : per_page = Z.of_nat (Z.to_nat per_page)) by lia.
  set (k := Z.to_nat per_page) in *. rewrite Hk.
  assert (Hk0 : (0 < k)%nat) by lia.
  destruct (page_count_bounds urls k Hk0 Hne) as (HN0 & Hup & Hlow). cbv zeta in Hup, Hlow.
  set (N := page_count urls (Z.of_nat k)) in *.
  split; [| split].
  - rewrite (flat_map_ext _
               (fun p => AdvancedUI.enumerate (firstn k (skipn (p * k) urls))
                           (Z.of_nat (p * k) + 1))).
    + rewrite pages_concat, firstn_all2 by lia. reflexivity.
    + intros p. apply page_cards_inside; assumption.
  - intros page Hpage.
    assert (Hp : page = Z.of_nat (Z.to_nat page)) by lia.
    set (p := Z.to_nat page) in *. rewrite Hp.
    pose proof (page_cards_length urls p k Hk0 Hne) as Hlen.
    assert (Hpk : (p * k < List.length urls)%nat) by nia.
    split; [| lia].
    intros Hnil. rewrite Hnil in Hlen. cbn in Hlen. lia.
  - intros page Hpage.
    assert (Hp : page = Z.of_nat (Z.to_nat page)) by lia.
    set (p := Z.to_nat page) in *. rewrite Hp.
    pose proof (page_cards_length urls p k Hk0 Hne) as Hlen.
    assert (Hpk : (List.length urls <= p * k)%nat) by nia.
    destruct (page_cards urls (Z.of_nat p) (Z.of_nat k)); [reflexivity |].
    cbn in Hlen. lia.
Qed.

(** X17: what a page of the dashboard offers.  For a positive page size,
    at least one URL and a page number from 0 on, the footer shows the page
    number plus one and the page count, "Previous" is offered exactly on
    the pages after the first and leads to the page before, "Next" exactly
    on the pages before the last and leads to the page after: following
    "Next" from page 0 never leaves the pages that have cards.  With a page
    size of 0 the method raises ZeroDivisionError. *)
Theorem url_dashboard_navigation :
  forall (urls : dict url_data) (page per_page : Z),
    urls <> [] ->
    (0 < per_page -> 0 <= page ->
     AdvancedUI.format_enhanced_url_list urls page per_page
     = inr (AdvancedUI.URLDashboard (Z.of_nat (List.length urls))
              (page_cards urls page per_page) (page + 1) (page_count urls per_page),
            (match nav_row page (page_count urls per_page) with
             | [] => []
             | _ :: _ => [nav_row page (page_count urls per_page)]
             end)
            ++ [ [AdvancedUI.mk_Button "➕ Add URL" "add_url_wizard";
                  AdvancedUI.mk_Button "🔄 Refresh" "refresh_urls"];
                 [AdvancedUI.mk_Button "📊 View Stats" "main_stats";
                  AdvancedUI.mk_Button "🏠 Main Menu" "main_menu"] ]))
    /\ AdvancedUI.format_enhanced_url_list urls page 0 = inl AdvancedUI.ZeroDivisionError.
Proof.
  intros urls page per_page Hne. split.
  - intros Hpos Hpage.
    assert (Hnext : (Z.min (page * per_page + per_page) (Z.of_nat (List.length urls))
                     <? Z.of_nat (List.length urls))
                    = (page + 1 <? page_count urls per_page)).
    { unfold page_count.
      destruct (Z.ltb_spec (page + 1) ((Z.of_nat (List.length urls) - 1) / per_page + 1))
        as [Hlt | Hge].
      - apply Z.ltb_lt.
        assert (page + 1 <= (Z.of_nat (List.length urls) - 1) / per_page) by lia.
        assert (per_page * (page + 1) <= Z.of_nat (List.length urls) - 1).
        { etransitivity; [apply Z.mul_le_mono_nonneg_l; [lia | eassumption] |].
          apply Z.mul_div_le. lia. }
        lia.
      - apply Z.ltb_ge.
        assert ((Z.of_nat (List.length urls) - 1) / per_page < page + 1) by lia.
        assert (Z.of_nat (List.length urls) - 1 < per_page * (page + 1)).
        { destruct (Z.lt_ge_cases (Z.of_nat (List.length urls) - 1) (per_page * (page + 1)))
            as [Hlt | Hle]; [exact Hlt |].
          apply Z.div_le_lower_bound in Hle; lia. }
        lia. }
    unfold page_cards, nav_row, AdvancedUI.format_enhanced_url_list.
    destruct urls as [| x urls]; [contradiction |]. cbn [dict_is_empty]. cbv zeta.
    rewrite (proj2 (Z.eqb_neq per_page 0)) by lia.
    rewrite Hnext. reflexivity.
  - unfold AdvancedUI.format_enhanced_url_list.
    destruct urls as [| x urls]; [contradiction | reflexivity].
Qed.

(** ** The admin commands *)

Lemma hbind_run {S A B : Type} (m : BotHandlers.H S A) (k : A -> BotHandlers.H S B) h :
  BotHandlers.hbind m k h
  = match outcome_by (m h) with
    | Ret a =>
        (sent_by (m h) ++ sent_by (k a (left_by (m h))),
         left_by (k a (left_by (m h))),
         outcome_by (k a (left_by (m h))))
    | Exc e => (sent_by (m h), left_by (m h), Exc e)
    | Fuel => (sent_by (m h), left_by (m h), Fuel)
    end.
Proof.
  unfold BotHandlers.hbind, sent_by, left_by, outcome_by.
  destruct (m h) as [[tr1 h1] [a | e |]]; cbn [fst snd]; try reflexivity.
  destruct (k a h1) as [[tr2 h2] r2]. reflexivity.
Qed.

Lemma hbind_hgets {S A B : Type} (f : BotHandlers.BotHandlers S -> A)
    (k : A -> BotHandlers.H S B) h :
  BotHandlers.hbind (BotHandlers.hgets f) k h = k (f h) h.
Proof.
  unfold BotHandlers.hbind, BotHandlers.hgets. destruct (k (f h) h) as [[tr2 h2] r2].
  reflexivity.
Qed.

Lemma hbind_hret {S A B : Type} (a : A) (k : A -> BotHandlers.H S B) h :
  BotHandlers.hbind (BotHandlers.hret a) k h = k a h.
Proof.
  unfold BotHandlers.hbind, BotHandlers.hret. destruct (k a h) as [[tr2 h2] r2]. reflexivity.
Qed.

(** A reply leaves the objects as they are. *)
Lemma reply_text_run {S : Type} T update t kb (h : BotHandlers.BotHandlers S) :
  untouched h (left_by (BotHandlers.reply_text T update t kb h))
  /\ (BotHandlers.message update = true ->
      sent_by (BotHandlers.reply_text T update t kb h) = [BotHandlers.Replied t kb]
      /\ outcome_by (BotHandlers.reply_text T update t kb h)
         = match BotHandlers.api T (BotHandlers.calls h) with
           | None => Ret tt
           | Some e => Exc e
           end)
  /\ (BotHandlers.message update = false ->
      sent_by (BotHandlers.reply_text T update t kb h) = []
      /\ exists msg,
           outcome_by (BotHandlers.reply_text T update t kb h)
           = Exc (Exception (mk_exception AttributeError msg))).
Proof.
  unfold BotHandlers.reply_text. destruct (BotHandlers.message update).
  - cbn. split; [repeat split |]. split; [intros _; split; reflexivity | discriminate].
  - cbn. split; [repeat split |]. split; [discriminate |].
    intros _. split; [reflexivity | eexists; reflexivity].
Qed.

Lemma admin_command_turned_away {S : Type} T c update (h : BotHandlers.BotHandlers S)
    chat_id :
  BotHandlers.effective_chat update = Some chat_id ->
  chat_id <> Config.primary_admin_chat_id (BotHandlers.config h) ->
  run_admin_command T c update h = BotHandlers.reply_text T update (denial c) None h.
Proof.
  intros Hchat Hne.
  assert (Hp : Config.is_primary_admin (BotHandlers.config h) chat_id = false)
    by (apply Z.eqb_neq; exact Hne).
  destruct c; cbn [run_admin_command denial];
    unfold BotHandlers.add_admin_command, BotHandlers.remove_admin_command,
      BotHandlers.list_admins_command, BotHandlers.effective_chat_id;
    rewrite Hchat, hbind_hret, hbind_hgets, Hp; reflexivity.
Qed.

(** X18: the admin commands obey the primary admin only.  When the update
    comes from a chat other than the primary admin's, [add_admin_command],
    [remove_admin_command] and [list_admins_command] change nothing: the
    admin list, its file, the monitor and the hash map are as before,
    whatever the arguments, and the only call made is the reply that turns
    the sender away.  An update without chat makes them raise
    AttributeError, with nothing changed either. *)
Theorem admin_commands_need_the_primary_admin :
  forall (S : Type) (T : BotHandlers.Telegram) (c : admin_command)
         (update : BotHandlers.Update) (h : BotHandlers.BotHandlers S),
    let x := run_admin_command T c update h in
    (forall chat_id,
        BotHandlers.effective_chat update = Some chat_id ->
        chat_id <> Config.primary_admin_chat_id (BotHandlers.config h) ->
        untouched h (left_by x)
        /\ (BotHandlers.message update = true ->
            sent_by x = [BotHandlers.Replied (denial c) None]
            /\ outcome_by x = match BotHandlers.api T (BotHandlers.calls h) with
                              | None => Ret tt
                              | Some e => Exc e
                              end)
        /\ (BotHandlers.message update = false ->
            sent_by x = []
            /\ exists msg, outcome_by x = Exc (Exception (mk_exception AttributeError msg))))
    /\ (BotHandlers.effective_chat update = None ->
        left_by x = h /\ sent_by x = []
        /\ exists msg, outcome_by x = Exc (Exception (mk_exception AttributeError msg))).
Proof.
  intros S T c update h. cbv zeta. split.
  - intros chat_id Hchat Hne.
    rewrite (admin_command_turned_away T c update h chat_id Hchat Hne).
    apply reply_text_run.
  - intros Hnone.
    destruct c; cbn [run_admin_command];
      unfold BotHandlers.add_admin_command, BotHandlers.remove_admin_command,
        BotHandlers.list_admins_command, BotHandlers.effective_chat_id;
      rewrite Hnone; cbn; (split; [reflexivity |]; split; [reflexivity |]; eexists; reflexivity).
Qed.

Lemma config_add_admin_run {S : Type} T id (h : BotHandlers.BotHandlers S) :
  BotHandlers.config_add_admin T id h
  = let r := Config.add_admin (BotHandlers.disk T (BotHandlers.calls h)) (BotHandlers.config h)
               (BotHandlers.admin_file h) id in
    (map (fun l => BotHandlers.ConfigLogged (fst l) (snd l)) (fst (fst (fst r))),
     BotHandlers.mk_BotHandlers (BotHandlers.url_monitor h) (snd (fst (fst r))) (snd (fst r))
       (BotHandlers.url_hash_map h) (BotHandlers.calls h),
     Ret (snd r)).
Proof.
  unfold BotHandlers.config_add_admin.
  destruct (Config.add_admin _ _ _ _) as [[[lg c1] f1] added]. reflexivity.
Qed.

Lemma config_remove_admin_run {S : Type} T id (h : BotHandlers.BotHandlers S) :
  BotHandlers.config_remove_admin T id h
  = let r := Config.remove_admin (BotHandlers.disk T (BotHandlers.calls h))
               (BotHandlers.config h) (BotHandlers.admin_file h) id in
    (map (fun l => BotHandlers.ConfigLogged (fst l) (snd l)) (fst (fst (fst r))),
     BotHandlers.mk_BotHandlers (BotHandlers.url_monitor h) (snd (fst (fst r))) (snd (fst r))
       (BotHandlers.url_hash_map h) (BotHandlers.calls h),
     match snd r with
     | inr removed => Ret removed
     | inl e => Exc (Exception e)
     end).
Proof.
  unfold BotHandlers.config_remove_admin.
  destruct (Config.remove_admin _ _ _ _) as [[[lg c1] f1] r]. reflexivity.
Qed.

(** What an admin command can have done to the objects: nothing, or one
    [add_admin], or one [remove_admin], the last two only for the primary
    admin. *)
Lemma admin_command_effect {S : Type} T c update (h : BotHandlers.BotHandlers S) :
  let h' := left_by (run_admin_command T c update h) in
  BotHandlers.url_monitor h' = BotHandlers.url_monitor h
  /\ BotHandlers.url_hash_map h' = BotHandlers.url_hash_map h
  /\ ((BotHandlers.config h' = BotHandlers.config h
       /\ BotHandlers.admin_file h' = BotHandlers.admin_file h)
      \/ (BotHandlers.effective_chat update
          = Some (Config.primary_admin_chat_id (BotHandlers.config h))
          /\ exists w id,
               BotHandlers.config h'
               = snd (fst (fst (Config.add_admin w (BotHandlers.config h)
                                  (BotHandlers.admin_file h) id)))
               /\ BotHandlers.admin_file h'
                  = snd (fst (Config.add_admin w (BotHandlers.config h)
                                (BotHandlers.admin_file h) id)))
      \/ (BotHandlers.effective_chat update
          = Some (Config.primary_admin_chat_id (BotHandlers.config h))
          /\ exists w id,
               BotHandlers.config h'
               = snd (fst (fst (Config.remove_admin w (BotHandlers.config h)
                                  (BotHandlers.admin_file h) id)))
               /\ BotHandlers.admin_file h'
                  = snd (fst (Config.remove_admin w (BotHandlers.config h)
                                (BotHandlers.admin_file h) id)))).
Proof.
  cbv zeta.
  assert (Hreply : forall t kb (h0 : BotHandlers.BotHandlers S),
            untouched h0 (left_by (BotHandlers.reply_text T update t kb h0)))
    by (intros; apply reply_text_run).
  assert (Hsame : forall t kb,
            BotHandlers.url_monitor (left_by (BotHandlers.reply_text T update t kb h))
            = BotHandlers.url_monitor h
            /\ BotHandlers.url_hash_map (left_by (BotHandlers.reply_text T update t kb h))
               = BotHandlers.url_hash_map h
            /\ ((BotHandlers.config (left_by (BotHandlers.reply_text T update t kb h))
                 = BotHandlers.config h
                 /\ BotHandlers.admin_file (left_by (BotHandlers.reply_text T update t kb h))
                    = BotHandlers.admin_file h)
                \/ False)).
  { intros t kb. destruct (Hreply t kb h) as (H1 & H2 & H3 & H4). auto. }
  destruct (BotHandlers.effective_chat update) as [chat_id |] eqn:Hchat.
  2:{ destruct c; cbn [run_admin_command];
        unfold BotHandlers.add_admin_command, BotHandlers.remove_admin_command,
          BotHandlers.list_admins_command, BotHandlers.effective_chat_id;
        rewrite Hchat; cbn; auto. }
  destruct (Config.is_primary_admin (BotHandlers.config h) chat_id) eqn:Hp.
  2:{ rewrite (admin_command_turned_away T c update h chat_id Hchat)
        by (apply Z.eqb_neq; exact Hp).
      destruct (Hreply (denial c) None h) as (H1 & H2 & H3 & H4). auto. }
  assert (Hid : chat_id = Config.primary_admin_chat_id (BotHandlers.config h))
    by (apply Z.eqb_eq; exact Hp).
  subst chat_id.
  destruct c; cbn [run_admin_command];
    unfold BotHandlers.add_admin_command, BotHandlers.remove_admin_command,
      BotHandlers.list_admins_command, BotHandlers.effective_chat_id;
    rewrite Hchat, hbind_hret, hbind_hgets, Hp; cbn [negb].
  - destruct (BotHandlers.args update) as [| arg rest].
    { destruct (Hsame BotHandlers.UsageAddAdmin None) as (H1 & H2 & [H3 | []]). auto. }
    destruct (BotHandlers.py_int T arg) as [id |].
    2:{ destruct (Hsame BotHandlers.InvalidChatIdToAdd None) as (H1 & H2 & [H3 | []]). auto. }
    rewrite hbind_run, config_add_admin_run. cbv zeta.
    cbn [outcome_by sent_by left_by fst snd].
    set (r := Config.add_admin (BotHandlers.disk T (BotHandlers.calls h))
                (BotHandlers.config h) (BotHandlers.admin_file h) id).
    set (h1 := BotHandlers.mk_BotHandlers (BotHandlers.url_monitor h) (snd (fst (fst r)))
                 (snd (fst r)) (BotHandlers.url_hash_map h) (BotHandlers.calls h)).
    assert (Hend : forall t, untouched h1 (left_by (BotHandlers.reply_text T update t None h1)))
      by (intros; apply Hreply).
    destruct (snd r).
    + rewrite hbind_hgets.
      destruct (Hend (BotHandlers.AdminAdded id
                        (List.length (Config.get_admin_list (BotHandlers.config h1)))))
        as (H1 & H2 & H3 & H4).
      rewrite H1, H2, H3, H4. split; [reflexivity |]. split; [reflexivity |].
      right. left. split; [reflexivity |]. eexists _, id. split; reflexivity.
    + destruct (Hend (BotHandlers.AdminAlreadyExists id)) as (H1 & H2 & H3 & H4).
      rewrite H1, H2, H3, H4. split; [reflexivity |]. split; [reflexivity |].
      right. left. split; [reflexivity |]. eexists _, id. split; reflexivity.
  - destruct (BotHandlers.args update) as [| arg rest].
    { destruct (Hsame BotHandlers.UsageRemoveAdmin None) as (H1 & H2 & [H3 | []]). auto. }
    destruct (BotHandlers.py_int T arg) as [id |].
    2:{ destruct (Hsame BotHandlers.InvalidChatIdToRemove None) as (H1 & H2 & [H3 | []]). auto. }
    rewrite hbind_run, config_remove_admin_run. cbv zeta.
    cbn [outcome_by sent_by left_by fst snd].
    set (r := Config.remove_admin (BotHandlers.disk T (BotHandlers.calls h))
                (BotHandlers.config h) (BotHandlers.admin_file h) id).
    set (h1 := BotHandlers.mk_BotHandlers (BotHandlers.url_monitor h) (snd (fst (fst r)))
                 (snd (fst r)) (BotHandlers.url_hash_map h) (BotHandlers.calls h)).
    assert (Hend : forall t, untouched h1 (left_by (BotHandlers.reply_text T update t None h1)))
      by (intros; apply Hreply).
    assert (Hgoal : forall h',
              untouched h1 h' ->
              BotHandlers.url_monitor h' = BotHandlers.url_monitor h
              /\ BotHandlers.url_hash_map h' = BotHandlers.url_hash_map h
              /\ ((BotHandlers.config h' = BotHandlers.config h
                   /\ BotHandlers.admin_file h' = BotHandlers.admin_file h)
                  \/ (Some (Config.primary_admin_chat_id (BotHandlers.config h))
                      = Some (Config.primary_admin_chat_id (BotHandlers.config h))
                      /\ exists w id0,
                           BotHandlers.config h'
                           = snd (fst (fst (Config.add_admin w (BotHandlers.config h)
                                              (BotHandlers.admin_file h) id0)))
                           /\ BotHandlers.admin_file h'
                              = snd (fst (Config.add_admin w (BotHandlers.config h)
                                            (BotHandlers.admin_file h) id0)))
                  \/ (Some (Config.primary_admin_chat_id (BotHandlers.config h))
                      = Some (Config.primary_admin_chat_id (BotHandlers.config h))
                      /\ exists w id0,
                           BotHandlers.config h'
                           = snd (fst (fst (Config.remove_admin w (BotHandlers.config h)
                                              (BotHandlers.admin_file h) id0)))
                           /\ BotHandlers.admin_file h'
                              = snd (fst (Config.remove_admin w (BotHandlers.config h)
                                            (BotHandlers.admin_file h) id0))))).
    { intros h' (H1 & H2 & H3 & H4). rewrite H1, H2, H3, H4.
      split; [reflexivity |]. split; [reflexivity |].
      right. right. split; [reflexivity |]. eexists _, id. split; reflexivity. }
    destruct (snd r) as [e | [|]].
    + apply Hgoal. repeat split.
    + rewrite hbind_hgets. apply Hgoal, Hend.
    + rewrite hbind_hgets.
      destruct (id =? Config.primary_admin_chat_id (BotHandlers.config h1));
        apply Hgoal, Hend.
  - rewrite !hbind_hgets.
    destruct (Hsame (BotHandlers.AdminList (Config.get_admin_list (BotHandlers.config h))
                       (Config.primary_admin_chat_id (BotHandlers.config h))) None)
      as (H1 & H2 & [H3 | []]). auto.
Qed.

(** X19: no sequence of admin commands locks the primary admin out, and
    only the primary admin changes anything.  Whatever updates the three
    admin commands are given, from whatever chats and with whatever
    arguments, replies and file writes succeeding or failing, the primary
    admin is on the admin list afterwards if it was before; and when no
    update of the sequence comes from the primary admin's chat, the admin
    list, its file, the monitor and the hash map end as they were. *)
Theorem admin_commands_keep_the_primary_admin :
  forall (S : Type) (T : BotHandlers.Telegram)
         (updates : list (admin_command * BotHandlers.Update))
         (h : BotHandlers.BotHandlers S),
    primary_listed (BotHandlers.config h) ->
    primary_listed (BotHandlers.config (handle_updates T updates h))
    /\ (Forall (fun cu => BotHandlers.effective_chat (snd cu) <> Some 1691680798) updates ->
        untouched h (handle_updates T updates h)).
Proof.
  intros S T updates. induction updates as [| [c update] rest IH]; intros h Hp.
  - split; [exact Hp | intros _; repeat split].
  - cbn [handle_updates].
    destruct (admin_command_effect T c update h) as (Hm & Hmap & Hcfg). cbv zeta in *.
    set (h1 := left_by (run_admin_command T c update h)) in *.
    assert (Hp1 : primary_listed (BotHandlers.config h1)).
    { destruct Hcfg as [[Hc _] | [(_ & w & id & Hc & _) | (_ & w & id & Hc & _)]]; rewrite Hc.
      - exact Hp.
      - apply add_admin_primary_listed. exact Hp.
      - apply remove_admin_primary_listed. exact Hp. }
    destruct (IH h1 Hp1) as [IH1 IH2]. split; [exact IH1 |].
    intros Hall. inversion Hall as [| ? ? Hhead Htail]; subst. cbn [snd] in Hhead.
    destruct (IH2 Htail) as (H1 & H2 & H3 & H4).
    assert (Hsame : BotHandlers.config h1 = BotHandlers.config h
                    /\ BotHandlers.admin_file h1 = BotHandlers.admin_file h).
    { destruct Hcfg as [Hc | [(Hchat & _) | (Hchat & _)]]; [exact Hc | |];
        destruct Hp as [Hprim _]; rewrite Hprim in Hchat; contradiction. }
    destruct Hsame as [Hc Hf].
    unfold untouched. rewrite H1, H2, H3, H4, Hm, Hmap, Hc, Hf. repeat split.
Qed.

(** X20: what the primary admin's [/addadmin] does.  With an argument that
    [int] reads as a chat id, the id is an admin once the handler has run,
    whether or not the handler could send its reply and whether or not the
    admin file could be written; the reply reports the addition with the
    new number of admins, or that the id was an admin already.  Without
    argument, or with one that [int] rejects, nothing is changed and the
    usage or the error text is the reply. *)
Theorem add_admin_command_by_the_primary_admin :
  forall (S : Type) (T : BotHandlers.Telegram) (update : BotHandlers.Update)
         (h : BotHandlers.BotHandlers S),
    BotHandlers.effective_chat update
    = Some (Config.primary_admin_chat_id (BotHandlers.config h)) ->
    BotHandlers.message update = true ->
    let x := BotHandlers.add_admin_command T update h in
    match BotHandlers.args update with
    | [] =>
        untouched h (left_by x)
        /\ sent_by x = [BotHandlers.Replied BotHandlers.UsageAddAdmin None]
    | arg :: _ =>
        match BotHandlers.py_int T arg with
        | None =>
            untouched h (left_by x)
            /\ sent_by x = [BotHandlers.Replied BotHandlers.InvalidChatIdToAdd None]
        | Some id =>
            Config.is_admin (BotHandlers.config (left_by x)) id = true
            /\ (forall other, other <> id ->
                  Config.is_admin (BotHandlers.config (left_by x)) other
                  = Config.is_admin (BotHandlers.config h) other)
            /\ exists logs,
                 sent_by x
                 = logs
                   ++ [BotHandlers.Replied
                         (if Config.is_admin (BotHandlers.config h) id
                          then BotHandlers.AdminAlreadyExists id
                          else BotHandlers.AdminAdded id
                                 (Datatypes.S
                                    (List.length
                                       (Config.admin_chat_ids (BotHandlers.config h)))))
                         None]
                 /\ Forall (fun e => match e with
                                     | BotHandlers.ConfigLogged _ _ => True
                                     | _ => False
                                     end) logs
        end
    end.
Proof.
  intros S T update h Hchat Hmsg. cbv zeta.
  unfold BotHandlers.add_admin_command, BotHandlers.effective_chat_id.
  assert (Hp : Config.is_primary_admin (BotHandlers.config h)
                 (Config.primary_admin_chat_id (BotHandlers.config h)) = true)
    by apply Z.eqb_refl.
  rewrite Hchat, hbind_hret, hbind_hgets, Hp. cbn [negb].
  destruct (BotHandlers.args update) as [| arg rest].
  { destruct (reply_text_run T update BotHandlers.UsageAddAdmin None h) as (Hu & Hs & _).
    split; [exact Hu | exact (proj1 (Hs Hmsg))]. }
  destruct (BotHandlers.py_int T arg) as [id |].
  2:{ destruct (reply_text_run T update BotHandlers.InvalidChatIdToAdd None h) as (Hu & Hs & _).
      split; [exact Hu | exact (proj1 (Hs Hmsg))]. }
  rewrite hbind_run, config_add_admin_run. cbv zeta.
  cbn [outcome_by sent_by left_by fst snd].
  unfold Config.add_admin, Config.is_admin.
  destruct (Config.mem id (Config.admin_chat_ids (BotHandlers.config h))) eqn:Hm; cbn [negb].
  - cbn [fst snd map app].
    set (h1 := BotHandlers.mk_BotHandlers _ _ _ _ _).
    destruct (reply_text_run T update (BotHandlers.AdminAlreadyExists id) None h1)
      as ((_ & Hc & _) & Hs & _).
    destruct (Hs Hmsg) as [Hsent _]. rewrite Hc, Hsent. cbn [BotHandlers.config h1].
    split; [exact Hm |]. split; [reflexivity |].
    exists []. split; [reflexivity | constructor].
  - destruct (Config._save_admin_data _ _ _) as [lg f1] eqn:Hsave. cbn [fst snd].
    rewrite hbind_hgets.
    set (h1 := BotHandlers.mk_BotHandlers _ _ _ _ _).
    match goal with |- context [BotHandlers.reply_text T update ?t None h1] =>
      destruct (reply_text_run T update t None h1) as ((_ & Hc & _) & Hs & _) end.
    destruct (Hs Hmsg) as [Hsent _]. rewrite Hc, Hsent.
    cbn [BotHandlers.config h1 Config.set_admin_chat_ids Config.admin_chat_ids].
    split; [rewrite mem_app, mem_single, Z.eqb_refl; apply orb_true_r |].
    split.
    { intros other Hne. rewrite mem_app, mem_single.
      rewrite (proj2 (Z.eqb_neq other id)) by exact Hne. apply orb_false_r. }
    eexists. split.
    + f_equal. f_equal. f_equal. f_equal.
      unfold Config.get_admin_list.
      cbn [Config.set_admin_chat_ids Config.admin_chat_ids].
      rewrite length_app. cbn. lia.
    + apply Forall_forall. intros e He. apply in_map_iff in He.
      destruct He as (l & <- & _). exact I.
Qed.

(** ** Callback data *)

Lemma split_colon_uint d :
  BotHandlers.split_colon (NilEmpty.string_of_uint d) = [NilEmpty.string_of_uint d].
Proof.
  induction d as [| d IH | d IH | d IH | d IH | d IH | d IH | d IH | d IH | d IH | d IH];
    [reflexivity | ..];
    cbn [NilEmpty.string_of_uint BotHandlers.split_colon]; rewrite IH; reflexivity.
Qed.

Lemma split_colon_str n : BotHandlers.split_colon (str n) = [str n].
Proof.
  unfold str, NilZero.string_of_int, NilZero.string_of_uint.
  destruct (Z.to_int n) as [d | d]; destruct d;
    try reflexivity;
    try (rewrite split_colon_uint; reflexivity);
    try (cbn [BotHandlers.split_colon]; rewrite split_colon_uint; reflexivity).
Qed.

Lemma prefix_empty s : String.prefix EmptyString s = true.
Proof. destruct s; reflexivity. Qed.

Lemma dispatch_with_int T n :
  int_reads_str T ->
  BotHandlers.dispatch T ("urls_page:" ++ str n) = inr (Some (BotHandlers.UrlsPage n))
  /\ BotHandlers.dispatch T ("test_url:" ++ str n) = inr (Some (BotHandlers.TestUrl n))
  /\ BotHandlers.dispatch T ("url_detail:" ++ str n) = inr (Some (BotHandlers.UrlDetail n))
  /\ BotHandlers.dispatch T ("remove_url:" ++ str n) = inr (Some (BotHandlers.RemoveUrl n))
  /\ BotHandlers.dispatch T ("confirm_remove:" ++ str n)
     = inr (Some (BotHandlers.ConfirmRemove n)).
Proof.
  intros Hint.
  generalize (split_colon_str n) (Hint n) (prefix_empty (str n)).
  generalize (str n). intros s Hsplit Hread Hpre.
  unfold BotHandlers.dispatch, BotHandlers.int_after_colon.
  repeat split; cbn; rewrite ?Hpre, ?Hsplit; cbn; rewrite Hread; reflexivity.
Qed.

(** X21: the callback data the keyboards write is read back by
    [button_callback].  When [int] undoes [str], the data made of a prefix
    and a number is dispatched to the method of that prefix with that
    number.  So "Previous" and "Next" of a page of the dashboard lead to
    pages that have cards, and the button of a URL on the removal keyboard
    leads to [_handle_remove_url_callback] with the key of that URL. *)
Theorem callback_data_is_read_back :
  forall (T : BotHandlers.Telegram),
    int_reads_str T ->
    (forall n,
        BotHandlers.dispatch T ("urls_page:" ++ str n) = inr (Some (BotHandlers.UrlsPage n))
        /\ BotHandlers.dispatch T ("test_url:" ++ str n) = inr (Some (BotHandlers.TestUrl n))
        /\ BotHandlers.dispatch T ("url_detail:" ++ str n)
           = inr (Some (BotHandlers.UrlDetail n))
        /\ BotHandlers.dispatch T ("remove_url:" ++ str n)
           = inr (Some (BotHandlers.RemoveUrl n))
        /\ BotHandlers.dispatch T ("confirm_remove:" ++ str n)
           = inr (Some (BotHandlers.ConfirmRemove n)))
    /\ (forall urls page,
          0 <= page < page_count urls 5 ->
          Forall (fun b =>
                    exists p,
                      BotHandlers.dispatch T (AdvancedUI.callback_data b)
                      = inr (Some (BotHandlers.UrlsPage p))
                      /\ 0 <= p < page_count urls 5)
            (nav_row page (page_count urls 5)))
    /\ (forall U urls url data,
          In (url, data) (firstn 8 urls) ->
          exists b,
            In [b] (AdvancedUI.create_remove_url_keyboard U (BotHandlers.py_hash T) urls)
            /\ BotHandlers.dispatch T (AdvancedUI.callback_data b)
               = inr (Some (BotHandlers.RemoveUrl (url_key T url)))).
Proof.
  intros T Hint. split; [intros n; apply dispatch_with_int, Hint |]. split.
  - intros urls page Hpage. unfold nav_row.
    apply Forall_app. split.
    + destruct (Z.ltb_spec 0 page); [| constructor].
      constructor; [| constructor]. exists (page - 1). cbn [AdvancedUI.callback_data].
      split; [apply (dispatch_with_int T (page - 1) Hint) | lia].
    + destruct (Z.ltb_spec (page + 1) (page_count urls 5)); [| constructor].
      constructor; [| constructor]. exists (page + 1). cbn [AdvancedUI.callback_data].
      split; [apply (dispatch_with_int T (page + 1) Hint) | lia].
  - intros U urls url data Hin.
    eexists (AdvancedUI.mk_Button _ ("remove_url:" ++ str (url_key T url))). split.
    + unfold AdvancedUI.create_remove_url_keyboard.
      destruct urls as [| x urls]; [destruct Hin |]. cbn [dict_is_empty].
      apply in_or_app. left. apply in_or_app. left.
      apply in_map_iff. exists (url, data). split; [reflexivity | exact Hin].
    + cbn [AdvancedUI.callback_data]. apply (dispatch_with_int T (url_key T url) Hint).
Qed.

(** ** The hash map of the URL buttons *)

Lemma map_get_set_same m k v : BotHandlers.map_get (BotHandlers.map_set m k v) k = Some v.
Proof.
  induction m as [| [k' v'] m IH]; cbn.
  - rewrite Z.eqb_refl. reflexivity.
  - destruct (k =? k') eqn:Hk; cbn; [rewrite Z.eqb_refl | rewrite Hk]; auto.
Qed.

Lemma map_get_set_other m k k' v :
  k' <> k -> BotHandlers.map_get (BotHandlers.map_set m k v) k' = BotHandlers.map_get m k'.
Proof.
  intros Hne. induction m as [| [k0 v0] m IH]; cbn.
  - rewrite (proj2 (Z.eqb_neq k' k) Hne). reflexivity.
  - destruct (Z.eqb_spec k k0) as [-> | Hk]; cbn.
    + rewrite (proj2 (Z.eqb_neq k' k0) Hne). reflexivity.
    + destruct (k' =? k0); [reflexivity | exact IH].
Qed.

Lemma api_call_run {S : Type} T e (h : BotHandlers.BotHandlers S) :
  untouched h (left_by (BotHandlers.api_call T e h))
  /\ BotHandlers.calls (left_by (BotHandlers.api_call T e h)) = Datatypes.S (BotHandlers.calls h)
  /\ sent_by (BotHandlers.api_call T e h) = [e]
  /\ outcome_by (BotHandlers.api_call T e h)
     = match BotHandlers.api T (BotHandlers.calls h) with
       | None => Ret tt
       | Some ex => Exc ex
       end.
Proof. cbn. repeat split. Qed.

(** X22: a URL button whose key is not in the hash map does nothing.  For
    an admin, a callback "remove_url:k" or "confirm_remove:k" with a key
    the map does not hold is answered with the text "URL not found": no
    URL is removed and nothing else is changed.  The map of a new
    [BotHandlers] object is empty, so after a restart this is what every
    URL button of the removal keyboard does, whatever the store holds. *)
Theorem url_button_without_map_entry_finds_nothing :
  forall (S : Type) (DM : DataManager S) (UR : UrlRegistry S) (T : BotHandlers.Telegram)
         (other : BotHandlers.handler -> BotHandlers.H S unit)
         (update : BotHandlers.Update) (query : BotHandlers.CallbackQuery)
         (chat_id k : Z) (h : BotHandlers.BotHandlers S),
    int_reads_str T ->
    BotHandlers.callback_query update = Some query ->
    BotHandlers.effective_chat update = Some chat_id ->
    Config.is_admin (BotHandlers.config h) chat_id = true ->
    BotHandlers.data query = ("remove_url:" ++ str k)%string
    \/ BotHandlers.data query = ("confirm_remove:" ++ str k)%string ->
    BotHandlers.map_get (BotHandlers.url_hash_map h) k = None ->
    BotHandlers.api T (BotHandlers.calls h) = None ->
    let x := BotHandlers.button_callback T other update h in
    sent_by x = [BotHandlers.Answered;
                 BotHandlers.Edited BotHandlers.UrlNotFound
                   (Some BotHandlers.refresh_keyboard)]
    /\ untouched h (left_by x)
    /\ (forall mon cfg f k',
          BotHandlers.map_get
            (BotHandlers.url_hash_map (@BotHandlers.__init__ S mon cfg f)) k' = None).
Proof.
  intros S DM UR T other update query chat_id k h Hint Hq Hchat Hadmin Hdata Hmap Hapi.
  cbv zeta. split; [| split; [| reflexivity]].
  - unfold BotHandlers.button_callback. rewrite Hq.
    unfold BotHandlers.api_call at 1. unfold BotHandlers.hbind at 1. rewrite Hapi.
    unfold BotHandlers._is_admin. rewrite Hchat.
    rewrite hbind_hgets. cbn [BotHandlers.config]. rewrite Hadmin. cbn [negb].
    destruct (dispatch_with_int T k Hint) as (_ & _ & _ & Hrem & Hconf).
    destruct Hdata as [-> | ->]; [rewrite Hrem | rewrite Hconf];
      cbn [BotHandlers.run_handler];
      unfold BotHandlers._handle_remove_url_callback, BotHandlers._handle_confirm_remove_callback;
      rewrite hbind_hgets; cbn [BotHandlers.url_hash_map]; rewrite Hmap; reflexivity.
  - unfold BotHandlers.button_callback. rewrite Hq.
    unfold BotHandlers.api_call at 1. unfold BotHandlers.hbind at 1. rewrite Hapi.
    unfold BotHandlers._is_admin. rewrite Hchat.
    rewrite hbind_hgets. cbn [BotHandlers.config]. rewrite Hadmin. cbn [negb].
    destruct (dispatch_with_int T k Hint) as (_ & _ & _ & Hrem & Hconf).
    destruct Hdata as [-> | ->]; [rewrite Hrem | rewrite Hconf];
      cbn [BotHandlers.run_handler];
      unfold BotHandlers._handle_remove_url_callback, BotHandlers._handle_confirm_remove_callback;
      rewrite hbind_hgets; cbn [BotHandlers.url_hash_map]; rewrite Hmap; repeat split.
Qed.

Lemma map_get_In m k v : BotHandlers.map_get m k = Some v -> In k (map fst m).
Proof.
  induction m as [| [k' v'] m IH]; cbn; [discriminate |].
  destruct (Z.eqb_spec k k') as [-> | Hne]; [left; reflexivity | right; auto].
Qed.

Lemma map_get_del_same m k :
  NoDup (map fst m) -> BotHandlers.map_get (BotHandlers.map_del m k) k = None.
Proof.
  induction m as [| [k' v'] m IH]; intros Hnd; [reflexivity |].
  cbn in Hnd. inversion Hnd as [| ? ? Hnotin Hnd']; subst.
  cbn. destruct (Z.eqb_spec k k') as [-> | Hne].
  - destruct (BotHandlers.map_get m k') eqn:Hget; [| reflexivity].
    apply map_get_In in Hget. contradiction.
  - cbn. rewrite (proj2 (Z.eqb_neq k k') Hne). apply IH, Hnd'.
Qed.

Lemma api_call_returns {S : Type} T e (h : BotHandlers.BotHandlers S) :
  BotHandlers.api T (BotHandlers.calls h) = None ->
  BotHandlers.api_call T e h = ([e], after_call h, Ret tt).
Proof. intros Hapi. unfold BotHandlers.api_call. rewrite Hapi. reflexivity. Qed.

Lemma api_call_any {S : Type} T e (h : BotHandlers.BotHandlers S) :
  sent_by (BotHandlers.api_call T e h) = [e]
  /\ left_by (BotHandlers.api_call T e h) = after_call h.
Proof. split; reflexivity. Qed.

Lemma on_monitor_add_url {S : Type} {UR : UrlRegistry S} u admin
    (h : BotHandlers.BotHandlers S) added s' :
  dm_add_url (data_manager (BotHandlers.url_monitor h)) (with_scheme u) admin
  = inr (added, s') ->
  BotHandlers.on_monitor (add_url u admin) h
  = ([], with_urls h s' (BotHandlers.url_hash_map h), Ret added).
Proof.
  intros Hadd. unfold BotHandlers.on_monitor. rewrite add_url_run.
  cbn [self data_manager]. rewrite Hadd. reflexivity.
Qed.

Lemma on_monitor_remove_url {S : Type} {UR : UrlRegistry S} u admin
    (h : BotHandlers.BotHandlers S) removed s' :
  dm_remove_url (data_manager (BotHandlers.url_monitor h)) u admin = inr (removed, s') ->
  BotHandlers.on_monitor (remove_url u admin) h
  = ([], with_urls h s' (BotHandlers.url_hash_map h), Ret removed).
Proof.
  intros Hrem. unfold BotHandlers.on_monitor, remove_url.
  cbn [self data_manager]. rewrite Hrem. reflexivity.
Qed.

(** X23: [/seturl] records the URL under its key, and a key holds one URL.
    After an admin's [/seturl u] that the store accepted, the hash map has
    [u] under the key of [u], whatever it had there before, and the other
    keys are as before; this holds even when the closing edit of the
    message fails.  The removal button of any URL [u1] with the same key
    then asks to confirm the removal of [u], not of [u1]. *)
Theorem set_url_command_records_the_url :
  forall (S : Type) (UR : UrlRegistry S) (T : BotHandlers.Telegram)
         (update : BotHandlers.Update) (chat_id : Z) (u : string) (rest : list string)
         (h : BotHandlers.BotHandlers S) (s' : S),
    BotHandlers.effective_chat update = Some chat_id ->
    Config.is_admin (BotHandlers.config h) chat_id = true ->
    BotHandlers.args update = u :: rest ->
    AdvancedUI.validate_url (BotHandlers.utils T) u = true ->
    BotHandlers.message update = true ->
    BotHandlers.api T (BotHandlers.calls h) = None ->
    dm_add_url (data_manager (BotHandlers.url_monitor h)) (with_scheme u) (str chat_id)
    = inr (true, s') ->
    let x := BotHandlers.set_url_command T update h in
    let h' := left_by x in
    data_manager (BotHandlers.url_monitor h') = s'
    /\ BotHandlers.map_get (BotHandlers.url_hash_map h') (url_key T u) = Some u
    /\ (forall k, k <> url_key T u ->
          BotHandlers.map_get (BotHandlers.url_hash_map h') k
          = BotHandlers.map_get (BotHandlers.url_hash_map h) k)
    /\ (exists keyboard,
          sent_by x = [BotHandlers.Replied BotHandlers.ProcessingUrl None;
                       BotHandlers.Edited (BotHandlers.UrlAdded u) (Some keyboard)])
    /\ (forall u1 query,
          url_key T u1 = url_key T u ->
          sent_by (BotHandlers._handle_remove_url_callback T query (url_key T u1) h')
          = [BotHandlers.Edited (BotHandlers.ConfirmUrlRemoval u)
               (Some [ [AdvancedUI.mk_Button "✅ Yes, Remove"
                          ("confirm_remove:" ++ str (url_key T u));
                        AdvancedUI.mk_Button "❌ Cancel" "main_urls"] ])]).
Proof.
  intros S UR T update chat_id u rest h s' Hchat Hadmin Hargs Hvalid Hmsg Hapi Hadd.
  cbv zeta.
  assert (Hrun : left_by (BotHandlers.set_url_command T update h)
                 = after_call (with_urls (after_call h) s'
                                 (BotHandlers.map_set (BotHandlers.url_hash_map h)
                                    (url_key T u) u))
                 /\ exists keyboard,
                      sent_by (BotHandlers.set_url_command T update h)
                      = [BotHandlers.Replied BotHandlers.ProcessingUrl None;
                         BotHandlers.Edited (BotHandlers.UrlAdded u) (Some keyboard)]).
  { unfold BotHandlers.set_url_command, BotHandlers._is_admin. rewrite Hchat.
    rewrite hbind_hgets, Hadmin, Hargs, Hvalid. cbn [negb].
    unfold BotHandlers.reply_text. rewrite Hmsg.
    rewrite hbind_run, (api_call_returns T _ h Hapi).
    cbn [outcome_by sent_by left_by fst snd].
    unfold BotHandlers.effective_chat_id. rewrite Hchat, hbind_hret.
    rewrite hbind_run, (on_monitor_add_url u (str chat_id) (after_call h) true s') by exact Hadd.
    cbn [outcome_by sent_by left_by fst snd].
    rewrite hbind_run. unfold BotHandlers.set_url_hash_map at 1 2 3.
    cbn [outcome_by sent_by left_by fst snd].
    unfold BotHandlers.edit_message_text.
    split; [reflexivity | eexists; reflexivity]. }
  destruct Hrun as [Hleft Hsent]. rewrite Hleft.
  cbn [after_call with_urls BotHandlers.url_monitor BotHandlers.url_hash_map].
  split; [reflexivity |]. split; [apply map_get_set_same |].
  split; [intros k Hk; apply map_get_set_other; exact Hk |].
  split; [exact Hsent |].
  intros u1 query Hkey. rewrite Hkey.
  unfold BotHandlers._handle_remove_url_callback. rewrite hbind_hgets.
  cbn [after_call with_urls BotHandlers.url_hash_map]. rewrite map_get_set_same. reflexivity.
Qed.

(** X24: confirming a removal removes the URL the hash map holds under the
    key of the button.  When the map has [u] under the key, the callback
    "confirm_remove" with that key calls [remove_url] for [u] and the chat
    of the query; if the store removes it, the entry of the key is deleted
    from the map, so that the same button pressed again finds nothing, and
    the admin list and its file are not touched. *)
Theorem confirm_remove_removes_the_recorded_url :
  forall (S : Type) (UR : UrlRegistry S) (T : BotHandlers.Telegram)
         (query : BotHandlers.CallbackQuery) (k chat : Z) (u : string)
         (h : BotHandlers.BotHandlers S) (s' : S),
    BotHandlers.map_get (BotHandlers.url_hash_map h) k = Some u ->
    NoDup (map fst (BotHandlers.url_hash_map h)) ->
    BotHandlers.message_chat_id query = Some chat ->
    BotHandlers.api T (BotHandlers.calls h) = None ->
    dm_remove_url (data_manager (BotHandlers.url_monitor h)) u (str chat) = inr (true, s') ->
    let x := BotHandlers._handle_confirm_remove_callback T query k h in
    let h' := left_by x in
    data_manager (BotHandlers.url_monitor h') = s'
    /\ BotHandlers.url_hash_map h' = BotHandlers.map_del (BotHandlers.url_hash_map h) k
    /\ BotHandlers.map_get (BotHandlers.url_hash_map h') k = None
    /\ BotHandlers.config h' = BotHandlers.config h
    /\ BotHandlers.admin_file h' = BotHandlers.admin_file h
    /\ (exists keyboard,
          sent_by x = [BotHandlers.Edited (BotHandlers.RemovingUrl u) None;
                       BotHandlers.Edited (BotHandlers.UrlRemoved u) (Some keyboard)])
    /\ sent_by (BotHandlers._handle_confirm_remove_callback T query k h')
       = [BotHandlers.Edited BotHandlers.UrlNotFound (Some BotHandlers.refresh_keyboard)].
Proof.
  intros S UR T query k chat u h s' Hget Hnd Hchat Hapi Hrem. cbv zeta.
  assert (Hrun : left_by (BotHandlers._handle_confirm_remove_callback T query k h)
                 = after_call (with_urls (after_call h) s'
                                 (BotHandlers.map_del (BotHandlers.url_hash_map h) k))
                 /\ exists keyboard,
                      sent_by (BotHandlers._handle_confirm_remove_callback T query k h)
                      = [BotHandlers.Edited (BotHandlers.RemovingUrl u) None;
                         BotHandlers.Edited (BotHandlers.UrlRemoved u) (Some keyboard)]).
  { unfold BotHandlers._handle_confirm_remove_callback. rewrite hbind_hgets, Hget.
    unfold BotHandlers.edit_message_text.
    rewrite hbind_run, (api_call_returns T _ h Hapi).
    cbn [outcome_by sent_by left_by fst snd].
    unfold BotHandlers.query_chat. rewrite Hchat, hbind_hret.
    rewrite hbind_run, (on_monitor_remove_url u (str chat) (after_call h) true s') by exact Hrem.
    cbn [outcome_by sent_by left_by fst snd].
    rewrite hbind_run. unfold BotHandlers.set_url_hash_map at 1 2 3.
    cbn [outcome_by sent_by left_by fst snd].
    split; [reflexivity | eexists; reflexivity]. }
  destruct Hrun as [Hleft Hsent]. rewrite Hleft.
  cbn [after_call with_urls BotHandlers.url_monitor BotHandlers.url_hash_map
         BotHandlers.config BotHandlers.admin_file].
  split; [reflexivity |]. split; [reflexivity |].
  split; [apply map_get_del_same, Hnd |].
  split; [reflexivity |]. split; [reflexivity |]. split; [exact Hsent |].
  unfold BotHandlers._handle_confirm_remove_callback. rewrite hbind_hgets.
  cbn [after_call with_urls BotHandlers.url_hash_map]. rewrite (map_get_del_same _ k Hnd). reflexivity.
Qed.

(** ** Who may press a button, and buttons without a method *)

Lemma button_callback_answered {S : Type} {DM : DataManager S} {UR : UrlRegistry S}
    T other update query (h : BotHandlers.BotHandlers S) :
  BotHandlers.callback_query update = Some query ->
  BotHandlers.api T (BotHandlers.calls h) = None ->
  BotHandlers.button_callback T other update h
  = let x :=
      (BotHandlers.hbind (BotHandlers._is_admin update)
         (fun is_admin =>
            if negb is_admin
            then BotHandlers.edit_message_text T BotHandlers.CallbackAccessDenied None
            else
              match BotHandlers.dispatch T (BotHandlers.data query) with
              | inl e => BotHandlers.hraise e
              | inr None => BotHandlers.hret tt
              | inr (Some hd) => BotHandlers.run_handler T other query hd
              end)) (after_call h) in
    (BotHandlers.Answered :: sent_by x, left_by x, outcome_by x).
Proof.
  intros Hq Hapi. unfold BotHandlers.button_callback. rewrite Hq.
  rewrite hbind_run, (api_call_returns T _ h Hapi).
  cbn [outcome_by sent_by left_by fst snd app]. reflexivity.
Qed.

Lemma button_callback_not_answered {S : Type} {DM : DataManager S} {UR : UrlRegistry S}
    T other update query (h : BotHandlers.BotHandlers S) ex :
  BotHandlers.callback_query update = Some query ->
  BotHandlers.api T (BotHandlers.calls h) = Some ex ->
  BotHandlers.button_callback T other update h
  = ([BotHandlers.Answered], after_call h, Exc ex).
Proof.
  intros Hq Hapi. unfold BotHandlers.button_callback. rewrite Hq.
  unfold BotHandlers.hbind, BotHandlers.api_call. rewrite Hapi. reflexivity.
Qed.

Lemma is_admin_run_false {S : Type} update (h : BotHandlers.BotHandlers S) :
  (forall chat_id,
      BotHandlers.effective_chat update = Some chat_id ->
      Config.is_admin (BotHandlers.config h) chat_id = false) ->
  BotHandlers._is_admin update h = ([], h, Ret false).
Proof.
  intros Hno. unfold BotHandlers._is_admin.
  destruct (BotHandlers.effective_chat update) as [c |] eqn:Hc; [| reflexivity].
  unfold BotHandlers.hgets. rewrite (Hno c eq_refl). reflexivity.
Qed.

(** X25: the buttons obey admins only.  When the update of a callback
    query has no chat, or a chat that is not on the admin list,
    [button_callback] answers the query, edits the message to "Access
    denied" and returns: whatever the callback data, no method is reached,
    so the monitor, the admin list, its file and the hash map are as
    before. *)
Theorem buttons_need_an_admin :
  forall (S : Type) (DM : DataManager S) (UR : UrlRegistry S) (T : BotHandlers.Telegram)
         (other : BotHandlers.handler -> BotHandlers.H S unit)
         (update : BotHandlers.Update) (query : BotHandlers.CallbackQuery)
         (h : BotHandlers.BotHandlers S),
    BotHandlers.callback_query update = Some query ->
    (forall chat_id,
        BotHandlers.effective_chat update = Some chat_id ->
        Config.is_admin (BotHandlers.config h) chat_id = false) ->
    let x := BotHandlers.button_callback T other update h in
    untouched h (left_by x)
    /\ sent_by x
       = BotHandlers.Answered
         :: match BotHandlers.api T (BotHandlers.calls h) with
            | None => [BotHandlers.Edited BotHandlers.CallbackAccessDenied None]
            | Some _ => []
            end
    /\ outcome_by x
       = match BotHandlers.api T (BotHandlers.calls h) with
         | Some ex => Exc ex
         | None =>
             match BotHandlers.api T (Datatypes.S (BotHandlers.calls h)) with
             | Some ex => Exc ex
             | None => Ret tt
             end
         end.
Proof.
  intros S DM UR T other update query h Hq Hno. cbv zeta.
  destruct (BotHandlers.api T (BotHandlers.calls h)) as [ex |] eqn:Hapi.
  - rewrite (button_callback_not_answered T other update query h ex Hq Hapi).
    repeat split.
  - rewrite (button_callback_answered T other update query h Hq Hapi). cbv zeta.
    rewrite hbind_run, (is_admin_run_false update (after_call h)) by exact Hno.
    cbn [outcome_by sent_by left_by fst snd app negb].
    unfold BotHandlers.edit_message_text, BotHandlers.api_call.
    cbn [outcome_by sent_by left_by fst snd app after_call BotHandlers.calls].
    repeat split.
Qed.

Lemma admin_press_run {S : Type} {DM : DataManager S} {UR : UrlRegistry S}
    T other update query chat_id (h : BotHandlers.BotHandlers S) :
  BotHandlers.callback_query update = Some query ->
  BotHandlers.effective_chat update = Some chat_id ->
  Config.is_admin (BotHandlers.config h) chat_id = true ->
  BotHandlers.api T (BotHandlers.calls h) = None ->
  BotHandlers.button_callback T other update h
  = let x :=
      match BotHandlers.dispatch T (BotHandlers.data query) with
      | inl e => BotHandlers.hraise e
      | inr None => BotHandlers.hret tt
      | inr (Some hd) => BotHandlers.run_handler T other query hd
      end (after_call h) in
    (BotHandlers.Answered :: sent_by x, left_by x, outcome_by x).
Proof.
  intros Hq Hchat Hadmin Hapi.
  rewrite (button_callback_answered T other update query h Hq Hapi). cbv zeta.
  unfold BotHandlers._is_admin. rewrite Hchat, hbind_hgets.
  cbn [after_call BotHandlers.config]. rewrite Hadmin. reflexivity.
Qed.

(** X26: buttons the handlers have no method for.  Every button of the
    main menu is dispatched to a method.  Of the seven buttons of the
    settings keyboard only "Main Menu" is: when an admin presses one of
    the six others, or "Refresh" on a page of the URL dashboard, the query
    is answered and nothing else happens; no message is edited and no
    setting, URL or admin is changed. *)
Theorem settings_buttons_have_no_method :
  forall (S : Type) (DM : DataManager S) (UR : UrlRegistry S) (T : BotHandlers.Telegram)
         (other : BotHandlers.handler -> BotHandlers.H S unit)
         (update : BotHandlers.Update) (query : BotHandlers.CallbackQuery)
         (chat_id : Z) (h : BotHandlers.BotHandlers S),
    BotHandlers.callback_query update = Some query ->
    BotHandlers.effective_chat update = Some chat_id ->
    Config.is_admin (BotHandlers.config h) chat_id = true ->
    let x := BotHandlers.button_callback T other update h in
    (forall b,
        In b (List.concat AdvancedUI.create_main_menu_keyboard) ->
        exists method, BotHandlers.dispatch T (AdvancedUI.callback_data b) = inr (Some method))
    /\ (forall b,
          In b (List.concat AdvancedUI.create_settings_keyboard) ->
          AdvancedUI.callback_data b <> "main_menu" ->
          BotHandlers.data query = AdvancedUI.callback_data b ->
          sent_by x = [BotHandlers.Answered] /\ untouched h (left_by x))
    /\ (forall urls page message keyboard,
          urls <> [] ->
          AdvancedUI.format_enhanced_url_list urls page 5 = inr (message, keyboard) ->
          exists b,
            In b (List.concat keyboard)
            /\ AdvancedUI.text b = "🔄 Refresh"
            /\ (BotHandlers.data query = AdvancedUI.callback_data b ->
                sent_by x = [BotHandlers.Answered] /\ untouched h (left_by x))).
Proof.
  intros S DM UR T other update query chat_id h Hq Hchat Hadmin. cbv zeta.
  assert (Hdead : forall d,
             BotHandlers.dispatch T d = inr None ->
             BotHandlers.data query = d ->
             sent_by (BotHandlers.button_callback T other update h) = [BotHandlers.Answered]
             /\ untouched h (left_by (BotHandlers.button_callback T other update h))).
  { intros d Hd Hdata.
    destruct (BotHandlers.api T (BotHandlers.calls h)) as [ex |] eqn:Hapi.
    - rewrite (button_callback_not_answered T other update query h ex Hq Hapi).
      repeat split.
    - rewrite (admin_press_run T other update query chat_id h Hq Hchat Hadmin Hapi).
      rewrite Hdata, Hd. repeat split. }
  split; [| split].
  - intros b Hb. cbn in Hb.
    repeat (destruct Hb as [<- | Hb]; [eexists; reflexivity |]). destruct Hb.
  - intros b Hb Hne. cbn in Hb.
    repeat (destruct Hb as [<- | Hb];
            [first [ apply Hdead; reflexivity | exfalso; apply Hne; reflexivity ] |]).
    destruct Hb.
  - intros urls page message keyboard Hurls Hfmt.
    unfold AdvancedUI.format_enhanced_url_list in Hfmt.
    destruct urls as [| item urls]; [congruence |].
    cbn [dict_is_empty] in Hfmt. cbv zeta in Hfmt.
    change (5 =? 0) with false in Hfmt. cbv iota in Hfmt.
    injection Hfmt as _ <-.
    exists (AdvancedUI.mk_Button "🔄 Refresh" "refresh_urls").
    split; [| split; [reflexivity | apply Hdead; reflexivity]].
    rewrite concat_app. apply in_or_app. right. cbn. right. left. reflexivity.
Qed.

(** ** The theorems at concrete inputs *)

Lemma spec_store_never_raises : store_never_raises SpecStore.store.
Proof.
  intros s u a c rt ok. cbn. unfold SpecStore.update.
  destruct (dict_get (SpecStore.urls_of s a) u); eauto.
Qed.


(** C5 at a refused connection. *)
Lemma ping_url_timeout_408_other_0_witness :
  let ex := mk_exception ClientError "Cannot connect to host" in
  let st := start_of (monitor_of shared_store true None None) in
  exc_type ex <> TimeoutError
  /\ exists r,
       outcome_of (ping_url (mk_probe_env 0 250000 (Raises (Exception ex))) site st) = Ret r
       /\ status_code r = 0 /\ error r = Some (exc_str ex) /\ success r = false.
Proof.
  cbv zeta. split; [discriminate |].
  apply (proj2 (ping_url_timeout_408_other_0 SpecStore.store
                  (start_of (monitor_of shared_store true None None)) site 0 250000)).
  discriminate.
Defined.



(** C7 on a loop stopped during its first cycle. *)
Lemma start_monitoring_ends_witness :
  let st := start_of (monitor_of shared_store false (Some delivering_bot) None) in
  let y := start_monitoring (env_with_calls 200 1 [CallStopMonitoring]) 3 st in
  is_running (self st) = false
  /\ outcome_of y = Ret tt
  /\ is_running (self (state_of y)) = false
  /\ stop_logged (trace_of y) = true.
Proof.
  cbv zeta. split; [reflexivity |].
  pose proof (start_monitoring_ends_by_exception_cancel_or_stop SpecStore.store _
                (env_with_calls 200 1 [CallStopMonitoring]) 3
                (start_of (monitor_of shared_store false (Some delivering_bot) None))
                eq_refl) as H.
  cbv zeta in H.
  assert (Hout : outcome_of
                   (start_monitoring (env_with_calls 200 1 [CallStopMonitoring]) 3
                      (start_of (monitor_of shared_store false (Some delivering_bot) None)))
                 = Ret tt) by (vm_compute; reflexivity).
  rewrite Hout in H. split; [exact Hout | exact H].
Defined.


(** C4 on a pass whose cycle, over no URL, takes five seconds of a
    sixty-second interval, and on a loop followed for two passes. *)
Lemma loop_paces_every_cycle_witness :
  let st := start_of (monitor_of SpecStore.empty true None None) in
  let E := mk_env 7%nat (fun _ => []) (fun n => Z.of_nat n * 5000000) (answering 200) in
  let x := ping_all_urls E (tick_up st) in
  let y := while_is_running E 2 st in
  outcome_of x = Ret []
  /\ now E (tick (state_of x)) - now E (tick st) < ping_interval (self (state_of x)) * 1000000
  /\ outcome_of y = Fuel
  /\ Z.max 0 (ping_interval (self (state_of x)) * 1000000
              - (now E (tick (state_of x)) - now E (tick st)))
     = ping_interval (self (state_of x)) * 1000000
       - (now E (tick (state_of x)) - now E (tick st))
  /\ count cycle_log (trace_of y) = 2%nat.
Proof.
  cbv zeta.
  destruct (loop_paces_every_cycle SpecStore.store _
              (mk_env 7%nat (fun _ => []) (fun n => Z.of_nat n * 5000000) (answering 200))
              (start_of (monitor_of SpecStore.empty true None None)))
    as [Hpass Hloop].
  assert (Hout : outcome_of
                   (ping_all_urls
                      (mk_env 7%nat (fun _ => []) (fun n => Z.of_nat n * 5000000)
                         (answering 200))
                      (tick_up (start_of (monitor_of SpecStore.empty true None None))))
                 = Ret []) by (vm_compute; reflexivity).
  assert (Hlt : now (mk_env 7%nat (fun _ => []) (fun n => Z.of_nat n * 5000000)
                       (answering 200))
                    (tick (state_of
                       (ping_all_urls
                          (mk_env 7%nat (fun _ => []) (fun n => Z.of_nat n * 5000000)
                             (answering 200))
                          (tick_up (start_of (monitor_of SpecStore.empty true None None))))))
                - now (mk_env 7%nat (fun _ => []) (fun n => Z.of_nat n * 5000000)
                         (answering 200))
                      (tick (start_of (monitor_of SpecStore.empty true None None)))
                < ping_interval (self (state_of
                       (ping_all_urls
                          (mk_env 7%nat (fun _ => []) (fun n => Z.of_nat n * 5000000)
                             (answering 200))
                          (tick_up (start_of (monitor_of SpecStore.empty true None None))))))
                  * 1000000) by (vm_compute; reflexivity).
  assert (Hfuel : outcome_of
                    (while_is_running
                       (mk_env 7%nat (fun _ => []) (fun n => Z.of_nat n * 5000000)
                          (answering 200)) 2
                       (start_of (monitor_of SpecStore.empty true None None)))
                  = Fuel) by (vm_compute; reflexivity).
  split; [exact Hout |]. split; [exact Hlt |]. split; [exact Hfuel |].
  destruct (Hpass [] Hout) as (_ & Hsleep & _).
  split; [exact (proj1 (Hsleep Hlt)) |].
  exact (proj2 (Hloop 2%nat) Hfuel).
Defined.

(** X1 on an object constructed without a file, asked to remove the
    primary admin between two other calls. *)
Lemma primary_admin_is_never_removed_witness :
  let calls := [AddAdmin 42 Config.Written;
                RemoveAdmin 1691680798 Config.Written;
                RemoveAdmin 42 (Config.WriteFails (mk_exception OSError "No space left on device")
                                  Config.NotJSON)] in
  let f0 := Config.AdminData (Some [1691680798]) (Some 1691680798) in
  Config.__init__ Config.Written Config.NoFile
  = ([(INFO, Config.SavedAdminData 1); (INFO, Config.CreatedDefaultAdminFile)], f0,
     inr (Config.init None))
  /\ exists c' f',
       run_admin_calls calls (Config.init None) f0 = inr (c', f')
       /\ Config.primary_admin_chat_id c' = 1691680798
       /\ Config.is_primary_admin c' 1691680798 = true
       /\ Config.is_admin c' 1691680798 = true.
Proof.
  cbv zeta. split; [reflexivity |].
  exact (primary_admin_is_never_removed Config.Written Config.NoFile _ _ _ _ eq_refl).
Defined.

(** X3 on the list of the primary admin and the admin 42. *)
Lemma remove_admin_revokes_access_witness :
  let c := Config.init (Some [1691680798; 42]) in
  let f := Config.AdminData (Some [1691680798; 42]) (Some 1691680798) in
  NoDup (Config.admin_chat_ids c)
  /\ let '(logs, c', f', r) := Config.remove_admin Config.Written c f 42 in
     r = inr (Config.is_admin c 42 && negb (Config.is_primary_admin c 42))
     /\ (r = inr true -> Config.is_admin c' 42 = false)
     /\ (forall x, x <> 42 -> Config.is_admin c' x = Config.is_admin c x)
     /\ NoDup (Config.admin_chat_ids c')
     /\ (r = inr false -> c' = c /\ f' = f /\ logs = []).
Proof.
  cbv zeta.
  assert (Hnd : NoDup (Config.admin_chat_ids (Config.init (Some [1691680798; 42])))).
  { cbn. constructor; [| constructor; [| constructor]].
    - intros [H | []]. discriminate H.
    - intros []. }
  split; [exact Hnd |].
  exact (remove_admin_revokes_access Config.Written _ _ 42 Hnd).
Defined.

(** X4 on a file that lists the admin 42 twice. *)
Lemma remove_admin_keeps_a_repeated_id_witness :
  let f := Config.AdminData (Some [1691680798; 42; 42]) None in
  let c := Config.init (Some [1691680798; 42; 42]) in
  Config.__init__ Config.Written f = ([], f, inr c)
  /\ 42 <> Config.primary_admin_chat_id c
  /\ le 2 (count_occ Z.eq_dec (Config.admin_chat_ids c) 42)
  /\ let '(logs, c', f', r) := Config.remove_admin Config.Written c f 42 in
     r = inr true
     /\ Config.is_admin c' 42 = true
     /\ Datatypes.S (count_occ Z.eq_dec (Config.admin_chat_ids c') 42)
        = count_occ Z.eq_dec (Config.admin_chat_ids c) 42.
Proof.
  cbv zeta. split; [reflexivity |].
  assert (Hne : 42 <> Config.primary_admin_chat_id (Config.init (Some [1691680798; 42; 42])))
    by discriminate.
  assert (Hc : le 2 (count_occ Z.eq_dec
                       (Config.admin_chat_ids (Config.init (Some [1691680798; 42; 42]))) 42))
    by (vm_compute; lia).
  split; [exact Hne |]. split; [exact Hc |].
  exact (proj1 (remove_admin_keeps_a_repeated_id Config.Written _
                  (Config.AdminData (Some [1691680798; 42; 42]) None) 42 Hne Hc)).
Defined.

(** X5 on the default object, with a first write that fails. *)
Lemma remove_admin_undoes_add_admin_witness :
  let c := Config.init None in
  let f := Config.AdminData (Some [1691680798]) (Some 1691680798) in
  let w1 := Config.WriteFails (mk_exception OSError "Permission denied") f in
  Config.is_admin c 42 = false
  /\ 42 <> Config.primary_admin_chat_id c
  /\ let '(_, c1, f1, added) := Config.add_admin w1 c f 42 in
     let '(_, c2, _, r) := Config.remove_admin Config.Written c1 f1 42 in
     added = true /\ r = inr true
     /\ Config.admin_chat_ids c2 = Config.admin_chat_ids c
     /\ Config.primary_admin_chat_id c2 = Config.primary_admin_chat_id c.
Proof.
  cbv zeta. split; [reflexivity |]. split; [discriminate |].
  exact (remove_admin_undoes_add_admin
           (Config.WriteFails (mk_exception OSError "Permission denied")
              (Config.AdminData (Some [1691680798]) (Some 1691680798)))
           Config.Written (Config.init None)
           (Config.AdminData (Some [1691680798]) (Some 1691680798)) 42
           eq_refl ltac:(discriminate)).
Defined.

(** X6 on the default object: the admin 42 is added, the bot restarts. *)
Lemma admin_list_survives_restart_witness :
  let c := Config.init None in
  let f := Config.AdminData (Some [1691680798]) (Some 1691680798) in
  primary_listed c
  /\ let '(_, c1, f1, added) := Config.add_admin Config.Written c f 42 in
     added = true
     /\ Config.admin_chat_ids c1 = [1691680798; 42]
     /\ exists c2, Config.__init__ Config.Written f1 = ([], f1, inr c2)
                   /\ Config.admin_chat_ids c2 = Config.admin_chat_ids c1.
Proof.
  cbv zeta.
  assert (Hc : primary_listed (Config.init None)) by (split; reflexivity).
  split; [exact Hc |].
  pose proof (proj1 (admin_list_survives_restart (Config.init None)
                       (Config.AdminData (Some [1691680798]) (Some 1691680798)) 42
                       Config.Written Hc)) as H.
  destruct (Config.add_admin Config.Written (Config.init None)
              (Config.AdminData (Some [1691680798]) (Some 1691680798)) 42)
    as [[[lg c1] f1] added] eqn:Hrun.
  cbv in Hrun. inversion Hrun; subst.
  split; [reflexivity |]. split; [reflexivity |]. exact (H eq_refl).
Defined.

(** X7 on the default object and a disk that refuses the write. *)
Lemma failed_save_loses_admin_on_restart_witness :
  let c := Config.init None in
  let f := Config.AdminData (Some [1691680798]) (Some 1691680798) in
  let e := mk_exception OSError "Read-only file system" in
  Config.is_admin c 42 = false
  /\ Config.mem 42 [1691680798] = false
  /\ 42 <> 1691680798
  /\ let '(logs, c1, f1, added) := Config.add_admin (Config.WriteFails e f) c f 42 in
     added = true
     /\ Config.is_admin c1 42 = true
     /\ logs = [(ERROR, Config.ErrorSavingAdminData e); (INFO, Config.AddedNewAdmin 42)]
     /\ f1 = f
     /\ exists c2, Config.__init__ Config.Written f1 = ([], f1, inr c2)
                   /\ Config.is_admin c2 42 = false.
Proof.
  cbv zeta. split; [reflexivity |]. split; [reflexivity |]. split; [discriminate |].
  exact (failed_save_loses_admin_on_restart (Config.init None) [1691680798]
           (Some 1691680798) 42 (mk_exception OSError "Read-only file system")
           Config.Written eq_refl eq_refl ltac:(discriminate)).
Defined.

Lemma quiet_env_requests_resolve status : requests_resolve (quiet_env status).
Proof. intros n u. cbn. discriminate. Qed.

(** X10 on the shared store, every request answered with status 500. *)
Lemma cycle_raises_no_exception_witness :
  let st := start_of (monitor_of shared_store true (Some unreachable_bot) None) in
  store_never_raises SpecStore.store
  /\ requests_resolve (quiet_env 500)
  /\ ((exists res, outcome_of (ping_all_urls (quiet_env 500) st) = Ret res)
      \/ outcome_of (ping_all_urls (quiet_env 500) st) = Exc CancelledError)
  /\ ((exists res, outcome_of (ping_admin_urls (quiet_env 500) "1" st) = Ret res)
      \/ outcome_of (ping_admin_urls (quiet_env 500) "1" st) = Exc CancelledError).
Proof.
  cbv zeta.
  pose proof (cycle_raises_no_exception SpecStore.store _ (quiet_env 500)
                (start_of (monitor_of shared_store true (Some unreachable_bot) None))
                spec_store_never_raises (quiet_env_requests_resolve 500)) as [Hall Hadmin].
  split; [exact spec_store_never_raises |].
  split; [exact (quiet_env_requests_resolve 500) |].
  split; [exact Hall | exact (Hadmin "1")].
Defined.

(** X11 on a monitor whose bot was set with [set_bot_instance], for a
    passed check, a failed task and a failed check. *)
Lemma write_phase_alerts_each_failed_result_witness :
  let st0 := mk_state (URLMonitor_init shared_store 60 30) [] 0%nat in
  let st := state_of (set_bot_instance delivering_bot st0) in
  let owner := dict_get (get_all_urls shared_store) in
  let r1 := mk_PingResult site 200 250000 true 0 None in
  let r2 := mk_PingResult site 503 250000 false 0 None in
  let results := [inr r1; inl (Exception (mk_exception RuntimeError "unexpected")); inr r2] in
  let x := process_results (quiet_env 503) owner results [] st in
  bot_instance (self st) = Some delivering_bot
  /\ outcome_of x = Ret [(site, r2)]
  /\ non_log (trace_of x)
     = [EUpdateStatus site "2" 200 250000 true;
        EUpdateStatus site "2" 503 250000 false; ESendMessage "2" r2]
  /\ deliveries_of owner results = non_log (trace_of x).
Proof.
  cbv zeta. split; [reflexivity |].
  assert (Hout : outcome_of
            (process_results (quiet_env 503) (dict_get (get_all_urls shared_store))
               [inr (mk_PingResult site 200 250000 true 0 None);
                inl (Exception (mk_exception RuntimeError "unexpected"));
                inr (mk_PingResult site 503 250000 false 0 None)] []
               (state_of (set_bot_instance delivering_bot
                            (mk_state (URLMonitor_init shared_store 60 30) [] 0%nat))))
            = Ret [(site, mk_PingResult site 503 250000 false 0 None)])
    by (vm_compute; reflexivity).
  split; [exact Hout |]. split; [vm_compute; reflexivity |].
  symmetry.
  exact (proj1 (write_phase_alerts_each_failed_result SpecStore.store _ (quiet_env 503)
                  (dict_get (get_all_urls shared_store)) _ [] _
                  (state_of (set_bot_instance delivering_bot
                               (mk_state (URLMonitor_init shared_store 60 30) [] 0%nat)))
                  delivering_bot eq_refl Hout)).
Defined.

(** X13 on a store whose disk is full, one URL being registered. *)
Lemma store_failure_ends_monitoring_witness :
  let ex := mk_exception OSError "No space left on device" in
  let st := mk_state (URLMonitor_init (mk_full_disk [(site, "1")]) 60 30) [] 0%nat in
  let y := start_monitoring (quiet_env 200) 3 st in
  is_running (self st) = false
  /\ outcome_of (ping_all_urls (quiet_env 200) (tick_up (running_set st true)))
     = Exc (Exception ex)
  /\ outcome_of y = Exc (Exception ex)
  /\ is_running (self (state_of y)) = false
  /\ count is_pacing (trace_of y) = 0%nat
  /\ count cycle_log (trace_of y) = 0%nat
  /\ trace_of y
     = [ELog INFO (StartingMonitoring 60); EGet site;
        ELog DEBUG (Pinged site 200 250000);
        EUpdateStatus site "1" 200 250000 true;
        ELog ERROR (ErrorInMonitoringLoop ex); ELog INFO MonitoringStopped].
Proof.
  cbv zeta. split; [reflexivity |].
  assert (Hout : outcome_of
            (ping_all_urls (quiet_env 200)
               (tick_up (running_set
                  (mk_state (URLMonitor_init (mk_full_disk [(site, "1")]) 60 30) [] 0%nat)
                  true)))
            = Exc (Exception (mk_exception OSError "No space left on device")))
    by (vm_compute; reflexivity).
  split; [exact Hout |].
  destruct (proj2 (store_failure_ends_monitoring full_disk _ (quiet_env 200)
                     (mk_state (URLMonitor_init (mk_full_disk [(site, "1")]) 60 30) [] 0%nat)
                     (mk_exception OSError "No space left on device"))
              2%nat eq_refl Hout) as (H1 & H2 & H3 & H4 & H5).
  split; [exact H1 |]. split; [exact H2 |]. split; [exact H3 |]. split; [exact H4 |].
  rewrite H5. vm_compute. reflexivity.
Defined.

(** X15 on the URL "example.com", registered by admin "1" in an empty
    store. *)
Lemma remove_url_needs_the_scheme_witness :
  let st := start_of (monitor_of SpecStore.empty false None None) in
  let x := add_url "example.com" "1" st in
  let y := remove_url "example.com" "1" (state_of x) in
  startswith "example.com" ["http://"; "https://"] = false
  /\ dict_keys (get_urls (data_manager (self (state_of x))) "1") = ["https://example.com"]
  /\ outcome_of x = Ret true
  /\ outcome_of y = Ret false
  /\ data_manager (self (state_of y)) = data_manager (self (state_of x))
  /\ dict_get (get_urls (data_manager (self (state_of y))) "1") (with_scheme "example.com")
     <> None
  /\ outcome_of (remove_url (with_scheme "example.com") "1" (state_of x)) = Ret true.
Proof.
  cbv zeta. split; [reflexivity |]. split; [reflexivity |].
  exact (remove_url_needs_the_scheme "example.com" "1"
           (start_of (monitor_of SpecStore.empty false None None))
           eq_refl eq_refl eq_refl).
Defined.

(** X16 on seven URLs shown three to a page. *)
Lemma url_dashboard_pages_partition_witness :
  0 < 3
  /\ seven_urls <> []
  /\ page_count seven_urls 3 = 3
  /\ flat_map (fun p => page_cards seven_urls (Z.of_nat p) 3)
       (seq 0 (Z.to_nat (page_count seven_urls 3)))
     = AdvancedUI.enumerate seven_urls 1
  /\ (forall page, 0 <= page < page_count seven_urls 3 ->
        page_cards seven_urls page 3 <> []
        /\ Z.of_nat (List.length (page_cards seven_urls page 3)) <= 3)
  /\ (forall page, page_count seven_urls 3 <= page -> page_cards seven_urls page 3 = []).
Proof.
  split; [lia |]. split; [discriminate |]. split; [reflexivity |].
  exact (url_dashboard_pages_partition seven_urls 3 ltac:(lia) ltac:(discriminate)).
Defined.

(** X17 on the second of the three pages of seven URLs. *)
Lemma url_dashboard_navigation_witness :
  seven_urls <> []
  /\ nav_row 1 (page_count seven_urls 3)
     = [AdvancedUI.mk_Button "◀️ Previous" "urls_page:0";
        AdvancedUI.mk_Button "Next ▶️" "urls_page:2"]
  /\ AdvancedUI.format_enhanced_url_list seven_urls 1 3
     = inr (AdvancedUI.URLDashboard (Z.of_nat (List.length seven_urls))
              (page_cards seven_urls 1 3) (1 + 1) (page_count seven_urls 3),
            (match nav_row 1 (page_count seven_urls 3) with
             | [] => []
             | _ :: _ => [nav_row 1 (page_count seven_urls 3)]
             end)
            ++ [ [AdvancedUI.mk_Button "➕ Add URL" "add_url_wizard";
                  AdvancedUI.mk_Button "🔄 Refresh" "refresh_urls"];
                 [AdvancedUI.mk_Button "📊 View Stats" "main_stats";
                  AdvancedUI.mk_Button "🏠 Main Menu" "main_menu"] ])
  /\ AdvancedUI.format_enhanced_url_list seven_urls 1 0 = inl AdvancedUI.ZeroDivisionError.
Proof.
  split; [discriminate |]. split; [reflexivity |].
  destruct (url_dashboard_navigation seven_urls 1 3 ltac:(discriminate)) as [Hpage Hzero].
  split; [exact (Hpage ltac:(lia) ltac:(lia)) | exact Hzero].
Defined.

(** X19 on a new bot: the admin 42 asks to be added, then to remove the
    primary admin. *)
Lemma admin_commands_keep_the_primary_admin_witness :
  let updates := [(AddAdminCommand, command_from 42 ["42"]);
                  (RemoveAdminCommand, command_from 42 ["1691680798"])] in
  primary_listed (BotHandlers.config new_handlers)
  /\ primary_listed (BotHandlers.config (handle_updates telegram updates new_handlers))
  /\ untouched new_handlers (handle_updates telegram updates new_handlers).
Proof.
  cbv zeta.
  assert (Hc : primary_listed (BotHandlers.config new_handlers)) by (split; reflexivity).
  split; [exact Hc |].
  destruct (admin_commands_keep_the_primary_admin SpecStore.store telegram
              [(AddAdminCommand, command_from 42 ["42"]);
               (RemoveAdminCommand, command_from 42 ["1691680798"])]
              new_handlers Hc) as [Hkept Hsame].
  split; [exact Hkept |]. apply Hsame.
  repeat constructor; discriminate.
Defined.

(** X20 on a new bot: the primary admin adds the admin 42. *)
Lemma add_admin_command_by_the_primary_admin_witness :
  let update := command_from 1691680798 ["42"] in
  let x := BotHandlers.add_admin_command telegram update new_handlers in
  BotHandlers.effective_chat update
  = Some (Config.primary_admin_chat_id (BotHandlers.config new_handlers))
  /\ BotHandlers.message update = true
  /\ BotHandlers.py_int telegram "42" = Some 42
  /\ Config.is_admin (BotHandlers.config (left_by x)) 42 = true
  /\ Config.admin_chat_ids (BotHandlers.config (left_by x)) = [1691680798; 42].
Proof.
  cbv zeta. split; [reflexivity |]. split; [reflexivity |]. split; [reflexivity |].
  pose proof (add_admin_command_by_the_primary_admin SpecStore.store telegram
                (command_from 1691680798 ["42"]) new_handlers eq_refl eq_refl) as H.
  cbv zeta in H. cbn [command_from BotHandlers.args] in H.
  change (BotHandlers.py_int telegram "42") with (Some 42) in H.
  split; [exact (proj1 H) | reflexivity].
Defined.

Lemma decimal_int_reads_str : int_reads_str telegram.
Proof.
  intros n. unfold str. cbn [telegram BotHandlers.py_int]. unfold decimal_int.
  rewrite NilZero.isi.
  - cbn [option_map]. rewrite DecimalZ.of_to. reflexivity.
  - destruct n as [| p | p]; cbn; try discriminate.
    intros H. injection H as H. exact (DecimalPos.Unsigned.to_uint_nonnil p H).
  - destruct n as [| p | p]; cbn; try discriminate.
    intros H. injection H as H. exact (DecimalPos.Unsigned.to_uint_nonnil p H).
Qed.

(** X21 with an [int] that reads decimal numerals. *)
Lemma callback_data_is_read_back_witness :
  int_reads_str telegram
  /\ BotHandlers.dispatch telegram "urls_page:2" = inr (Some (BotHandlers.UrlsPage 2))
  /\ Forall (fun b =>
               exists p,
                 BotHandlers.dispatch telegram (AdvancedUI.callback_data b)
                 = inr (Some (BotHandlers.UrlsPage p))
                 /\ 0 <= p < page_count seven_urls 5)
       (nav_row 0 (page_count seven_urls 5))
  /\ exists b,
       In [b] (AdvancedUI.create_remove_url_keyboard scheme_utils
                 (BotHandlers.py_hash telegram) seven_urls)
       /\ BotHandlers.dispatch telegram (AdvancedUI.callback_data b)
          = inr (Some (BotHandlers.RemoveUrl (url_key telegram "https://example.com/3"))).
Proof.
  destruct (callback_data_is_read_back telegram decimal_int_reads_str)
    as (Hdata & Hnav & Hremove).
  split; [exact decimal_int_reads_str |].
  split; [exact (proj1 (Hdata 2)) |].
  split; [exact (Hnav seven_urls 0 ltac:(vm_compute; split; [discriminate | reflexivity])) |].
  exact (Hremove scheme_utils seven_urls "https://example.com/3"
           (mk_url_data "online" None None None 0 [])
           ltac:(cbn; right; right; left; reflexivity)).
Defined.

(** X22 on a new bot: the primary admin presses the removal button of a
    URL. *)
Lemma url_button_without_map_entry_finds_nothing_witness :
  let update := press_from 1691680798 "remove_url:19" in
  let x := BotHandlers.button_callback telegram no_other update new_handlers in
  int_reads_str telegram
  /\ Config.is_admin (BotHandlers.config new_handlers) 1691680798 = true
  /\ BotHandlers.map_get (BotHandlers.url_hash_map new_handlers) 19 = None
  /\ sent_by x = [BotHandlers.Answered;
                  BotHandlers.Edited BotHandlers.UrlNotFound
                    (Some BotHandlers.refresh_keyboard)]
  /\ untouched new_handlers (left_by x).
Proof.
  cbv zeta. split; [exact decimal_int_reads_str |].
  split; [reflexivity |]. split; [reflexivity |].
  destruct (url_button_without_map_entry_finds_nothing SpecStore.store _ _ telegram no_other
              (press_from 1691680798 "remove_url:19")
              (BotHandlers.mk_CallbackQuery "remove_url:19" (Some 1691680798))
              1691680798 19 new_handlers decimal_int_reads_str eq_refl eq_refl eq_refl
              (or_introl eq_refl) eq_refl eq_refl) as (Hsent & Hsame & _).
  split; [exact Hsent | exact Hsame].
Defined.

(** X23 on a new bot: the primary admin sends [/seturl https://example.com]. *)
Lemma set_url_command_records_the_url_witness :
  let u := "https://example.com" in
  let update := command_from 1691680798 [u] in
  let x := BotHandlers.set_url_command telegram update new_handlers in
  let s' := snd (SpecStore.add_url SpecStore.empty u "1691680798") in
  Config.is_admin (BotHandlers.config new_handlers) 1691680798 = true
  /\ AdvancedUI.validate_url (BotHandlers.utils telegram) u = true
  /\ dm_add_url (data_manager (BotHandlers.url_monitor new_handlers)) (with_scheme u)
       (str 1691680798) = inr (true, s')
  /\ url_key telegram u = 19
  /\ data_manager (BotHandlers.url_monitor (left_by x)) = s'
  /\ BotHandlers.map_get (BotHandlers.url_hash_map (left_by x)) 19 = Some u.
Proof.
  cbv zeta. split; [reflexivity |]. split; [reflexivity |]. split; [reflexivity |].
  split; [reflexivity |].
  destruct (set_url_command_records_the_url SpecStore.store SpecStore.store_UrlRegistry telegram
              (command_from 1691680798 ["https://example.com"]) 1691680798
              "https://example.com" [] new_handlers
              (snd (SpecStore.add_url SpecStore.empty "https://example.com" "1691680798"))
              eq_refl eq_refl eq_refl eq_refl eq_refl eq_refl ltac:(reflexivity))
    as (Hstore & Hmap & _).
  split; [exact Hstore | exact Hmap].
Defined.

(** X24 after that [/seturl]: the primary admin confirms the removal. *)
Lemma confirm_remove_removes_the_recorded_url_witness :
  let u := "https://example.com" in
  let h := left_by (BotHandlers.set_url_command telegram (command_from 1691680798 [u])
                      new_handlers) in
  let query := BotHandlers.mk_CallbackQuery "confirm_remove:19" (Some 1691680798) in
  let x := BotHandlers._handle_confirm_remove_callback telegram query 19 h in
  let s' := snd (SpecStore.remove_url (data_manager (BotHandlers.url_monitor h)) u
                   "1691680798") in
  BotHandlers.map_get (BotHandlers.url_hash_map h) 19 = Some u
  /\ NoDup (map fst (BotHandlers.url_hash_map h))
  /\ dm_remove_url (data_manager (BotHandlers.url_monitor h)) u (str 1691680798)
     = inr (true, s')
  /\ get_urls (data_manager (BotHandlers.url_monitor h)) "1691680798" <> []
  /\ get_urls (data_manager (BotHandlers.url_monitor (left_by x))) "1691680798" = []
  /\ BotHandlers.url_hash_map (left_by x) = [].
Proof.
  cbv zeta.
  assert (Hmap : BotHandlers.map_get
                   (BotHandlers.url_hash_map
                      (left_by (BotHandlers.set_url_command telegram
                                  (command_from 1691680798 ["https://example.com"])
                                  new_handlers))) 19 = Some "https://example.com")
    by (vm_compute; reflexivity).
  assert (Hnd : NoDup (map fst
                   (BotHandlers.url_hash_map
                      (left_by (BotHandlers.set_url_command telegram
                                  (command_from 1691680798 ["https://example.com"])
                                  new_handlers)))))
    by (vm_compute; constructor; [intros [] | constructor]).
  assert (Hrem : dm_remove_url
                   (data_manager
                      (BotHandlers.url_monitor
                         (left_by (BotHandlers.set_url_command telegram
                                     (command_from 1691680798 ["https://example.com"])
                                     new_handlers))))
                   "https://example.com" (str 1691680798)
                 = inr (true,
                        snd (SpecStore.remove_url
                               (data_manager
                                  (BotHandlers.url_monitor
                                     (left_by (BotHandlers.set_url_command telegram
                                                 (command_from 1691680798
                                                    ["https://example.com"])
                                                 new_handlers))))
                               "https://example.com" "1691680798")))
    by (vm_compute; reflexivity).
  split; [exact Hmap |]. split; [exact Hnd |]. split; [exact Hrem |].
  split; [vm_compute; discriminate |].
  destruct (confirm_remove_removes_the_recorded_url SpecStore.store SpecStore.store_UrlRegistry
              telegram
              (BotHandlers.mk_CallbackQuery "confirm_remove:19" (Some 1691680798))
              19 1691680798 "https://example.com"
              (left_by (BotHandlers.set_url_command telegram
                          (command_from 1691680798 ["https://example.com"]) new_handlers))
              (snd (SpecStore.remove_url
                      (data_manager
                         (BotHandlers.url_monitor
                            (left_by (BotHandlers.set_url_command telegram
                                        (command_from 1691680798 ["https://example.com"])
                                        new_handlers))))
                      "https://example.com" "1691680798"))
              Hmap Hnd eq_refl eq_refl Hrem)
    as (Hstore & Hdel & _).
  split; [rewrite Hstore; vm_compute; reflexivity | rewrite Hdel; vm_compute; reflexivity].
Defined.

(** X25 on a new bot: the chat 42, which is no admin, presses the
    confirmation button of a removal. *)
Lemma buttons_need_an_admin_witness :
  let update := press_from 42 "confirm_remove:19" in
  let x := BotHandlers.button_callback telegram no_other update new_handlers in
  Config.is_admin (BotHandlers.config new_handlers) 42 = false
  /\ untouched new_handlers (left_by x)
  /\ sent_by x = [BotHandlers.Answered;
                  BotHandlers.Edited BotHandlers.CallbackAccessDenied None]
  /\ outcome_by x = Ret tt.
Proof.
  cbv zeta. split; [reflexivity |].
  exact (buttons_need_an_admin SpecStore.store _ _ telegram no_other
           (press_from 42 "confirm_remove:19")
           (BotHandlers.mk_CallbackQuery "confirm_remove:19" (Some 42)) new_handlers
           eq_refl
           (fun c (Hc : Some 42 = Some c) =>
              match Hc in _ = o
                    return match o with
                           | Some c' => Config.is_admin (BotHandlers.config new_handlers) c'
                                        = false
                           | None => True
                           end
              with eq_refl => eq_refl end)).
Defined.

(** X26 on a new bot: the primary admin presses "Ping Interval" on the
    settings keyboard. *)
Lemma settings_buttons_have_no_method_witness :
  let update := press_from 1691680798 "set_interval" in
  let x := BotHandlers.button_callback telegram no_other update new_handlers in
  Config.is_admin (BotHandlers.config new_handlers) 1691680798 = true
  /\ In (AdvancedUI.mk_Button "⏰ Ping Interval" "set_interval")
       (List.concat AdvancedUI.create_settings_keyboard)
  /\ sent_by x = [BotHandlers.Answered]
  /\ untouched new_handlers (left_by x).
Proof.
  cbv zeta. split; [reflexivity |]. split; [left; reflexivity |].
  destruct (settings_buttons_have_no_method SpecStore.store _ _ telegram no_other
              (press_from 1691680798 "set_interval")
              (BotHandlers.mk_CallbackQuery "set_interval" (Some 1691680798))
              1691680798 new_handlers eq_refl eq_refl eq_refl) as (_ & Hdead & _).
  exact (Hdead (AdvancedUI.mk_Button "⏰ Ping Interval" "set_interval")
           (or_introl eq_refl) ltac:(discriminate) eq_refl).
Defined.
